(** * SynthData dashboard: a shallow embedding of the view handlers

    The repository is a React front end over a hosted relational store.
    This development embeds the event handlers the specification talks
    about:

    - [DatasetUpload.handleFileChange] and [DatasetUpload.handleUpload]
      (header parsing, schema derivation, row count);
    - [SyntheticGenerator.handleGenerate] (the Generation insert, the
      bounded random metrics, the templated compliance report and the
      three joint inserts);
    - [downloadComplianceReport] of the PrivacyMetrics view, here
      [PrivacyMetricsView] (the client-side export);
    - [Dashboard.loadStats] (the aggregate counts).

    JavaScript strings are sequences of UTF-16 code units, numbers are
    IEEE-754 binary64 values, and the asynchronous handlers are written
    in a small state-and-exception monad over a world that holds the
    hosted store, the log of network requests and the pending timers.
    What the host decides (the clock, [Math.random], the fate of each
    request) is an environment the handlers read; what the host merely
    formats (case conversion, numbers and dates as text) is a class the
    handlers are parametric in.

    Left out: the list and creation of projects, the template path of
    the uploader, the loading of the dataset and of the generation list,
    and all rendering. *)

From Stdlib Require Import ZArith QArith Qround Qpower List Bool Lia Lqa.
From Stdlib Require Import Ascii String DecimalString.
Import ListNotations.

Set Implicit Arguments.
Close Scope Q_scope.

(** ** JavaScript numbers: binary64 arithmetic over exact rationals

    A finite number is the rational it denotes; an operation computes
    the exact result and rounds it.  The values of this program lie
    between 0 and 1, far from the overflow threshold, which is not
    modelled. *)

Module B64.

Open Scope Q_scope.

(** [pow2 e] is the rational 2^e, for any integer exponent. *)
Definition pow2 (e : Z) : Q := 2 ^ e.

(** Binary magnitude of a positive rational: the [k] with
    2^k <= x < 2^(k+1). *)
Definition mag (x : Q) : Z :=
  let k := (Z.log2 (Qnum x) - Z.log2 (Zpos (Qden x)))%Z in
  if Qle_bool (pow2 k) x then k else (k - 1)%Z.

(** Exponent of the unit in the last place of the binary64 number
    nearest to [x]: 53 significant bits, subnormals below 2^-1022. *)
Definition fexp (x : Q) : Z := Z.max (mag x - 52) (-1074).

(** Round to the nearest integer, ties to even. *)
Definition rne (q : Q) : Z :=
  let f := Qfloor q in
  match Qcompare (q - inject_Z f) (1 # 2) with
  | Lt => f
  | Gt => (f + 1)%Z
  | Eq => if Z.even f then f else (f + 1)%Z
  end.

(** The binary64 value nearest to a positive rational: the nearest
    multiple of its unit in the last place. *)
Definition round_pos (x : Q) : Q :=
  inject_Z (rne (x / pow2 (fexp x))) * pow2 (fexp x).

(** Rounding of an exact result to binary64 (round to nearest, ties to
    even), for results in the finite range. *)
Definition round (x : Q) : Q :=
  match Qcompare x 0 with
  | Eq => 0
  | Gt => round_pos x
  | Lt => - round_pos (- x)
  end.

(** A rational is a binary64 value when rounding leaves it alone. *)
Definition representable (x : Q) : Prop := round x == x.

(** The JavaScript operators [+] and [*] on finite numbers. *)
Definition add (x y : Q) : Q := round (x + y).
Definition mul (x y : Q) : Q := round (x * y).

(** A decimal literal of the source denotes the nearest binary64 value. *)
Definition lit (q : Q) : Q := Qred (round q).

(** The largest binary64 value below one. *)
Definition pred_one : Q := 1 - pow2 (-53).

End B64.

(** ** JavaScript strings, numbers and errors *)

Module JS.

(** A string is its sequence of UTF-16 code units. *)
Definition char16 := N.
Definition jsstring := list char16.

(** The code units of an ASCII literal of the source. *)
Definition str (s : string) : jsstring :=
  map N_of_ascii (list_ascii_of_string s).

Definition char_eqb : char16 -> char16 -> bool := N.eqb.

Fixpoint eqb (s t : jsstring) : bool :=
  match s, t with
  | [], [] => true
  | c :: s', d :: t' => char_eqb c d && eqb s' t'
  | _, _ => false
  end.

(** A string is truthy when it is not empty. *)
Definition truthy (s : jsstring) : bool :=
  match s with [] => false | _ :: _ => true end.

(** [a || b] on strings. *)
Definition orElse (a b : jsstring) : jsstring := if truthy a then a else b.

(** White space and line terminators, the code units that
    [String.prototype.trim] strips. *)
Definition isWhiteSpace (c : char16) : bool :=
  (existsb (N.eqb c)
     [9; 10; 11; 12; 13; 32; 160; 5760; 8232; 8233; 8239; 8287; 12288; 65279]
   || ((8192 <=? c) && (c <=? 8202)))%N.

Fixpoint trimStart (s : jsstring) : jsstring :=
  match s with
  | [] => []
  | c :: s' => if isWhiteSpace c then trimStart s' else s
  end.

Definition trimEnd (s : jsstring) : jsstring := rev (trimStart (rev s)).

Definition trim (s : jsstring) : jsstring := trimEnd (trimStart s).

(** The separators of the uploader: ['\n'] and [',']. *)
Definition newline : char16 := 10%N.
Definition comma : char16 := 44%N.

(** [s.split(sep)] for a separator of one code unit; the result is never
    empty: the empty string splits into one empty piece. *)
Fixpoint split (sep : char16) (s : jsstring) : list jsstring :=
  match s with
  | [] => [[]]
  | c :: s' =>
      if char_eqb c sep then [] :: split sep s'
      else match split sep s' with
           | w :: ws => (c :: w) :: ws
           | [] => [[c]]
           end
  end.

Fixpoint startsWith (s pat : jsstring) : bool :=
  match pat, s with
  | [], _ => true
  | p :: pat', c :: s' => char_eqb c p && startsWith s' pat'
  | _ :: _, [] => false
  end.

(** [s.includes(pat)]: [pat] occurs in [s] as a contiguous substring. *)
Fixpoint includes (s pat : jsstring) : bool :=
  startsWith s pat ||
  match s with
  | [] => false
  | _ :: s' => includes s' pat
  end.

(** [pat] occurs in [s] as a contiguous substring. *)
Definition occursIn (pat s : jsstring) : Prop :=
  exists pre post, s = pre ++ pat ++ post.

(** A code unit that is neither white space nor a line terminator. *)
Definition visible (c : char16) : bool := negb (isWhiteSpace c).

(** [s.slice(0, n)]. *)
Definition slice0 (n : nat) (s : jsstring) : jsstring := firstn n s.

(** [s.replace(pat, rep)] with a string pattern: the first occurrence
    only. *)
Fixpoint replace (pat rep s : jsstring) : jsstring :=
  if startsWith s pat then rep ++ skipn (List.length pat) s
  else match s with
       | [] => []
       | c :: s' => c :: replace pat rep s'
       end.

(** ASCII case folding, the part of [toLowerCase] that any
    implementation agrees on. *)
Definition asciiLowerChar (c : char16) : char16 :=
  if ((65 <=? c) && (c <=? 90))%N then (c + 32)%N else c.

Definition asciiLower (s : jsstring) : jsstring := map asciiLowerChar s.

Definition isAscii (s : jsstring) : Prop := Forall (fun c => (c < 128)%N) s.

(** A number value: a finite binary64 value, held as the rational it
    denotes, or one of the three special values. *)
Inductive number : Type :=
| Finite (q : Q)
| NaN
| PosInfinity
| NegInfinity.

(** A thrown or returned error object; only its [message] is read. *)
Record JsError : Type := { message : jsstring }.

(** A timestamp in ISO-8601 form, as [Date.prototype.toISOString]
    produces it.  The string is determined by, and determines, the
    instant in milliseconds since the epoch, which is what is kept. *)
Inductive isoString : Type := ISO (epoch_ms : Z).

Definition epoch_ms (t : isoString) : Z := let (ms) := t in ms.

(** The time values of a Date reach 8.64e15 ms on either side of the
    epoch; [new Date(t)] for a [t] beyond that is an invalid date. *)
Definition maxTime : Z := 8640000000000000.

Definition isTimeValue (t : Z) : bool := (Z.abs t <=? maxTime)%Z.

(** What the host supplies and the source only calls: Unicode case
    conversion, the formatting of numbers and dates, the message of
    the TypeError raised when a property is read off [undefined] or
    [null] (the arguments are the missing value and the property), and
    the message of the RangeError that [toISOString] raises on an
    invalid date. *)
Class Platform : Type := {
  toLowerCase : jsstring -> jsstring;
  toUpperCase : jsstring -> jsstring;
  numberToString : number -> jsstring;          (* in template literals *)
  numberToLocaleString : number -> jsstring;
  toFixed : Q -> nat -> jsstring;
  dateToLocaleString : isoString -> jsstring;
  dateToLocaleDateString : isoString -> jsstring;
  typeErrorMessage : jsstring -> jsstring -> jsstring;
  rangeErrorMessage : jsstring
}.

(** A platform agrees with ASCII case folding on ASCII strings. *)
Definition lowercasesAscii (P : Platform) : Prop :=
  forall s, isAscii s -> toLowerCase s = asciiLower s.

End JS.

(** ** The hosted store *)

Module Db.
Import JS.

(** One entry of a dataset's derived column schema. *)
Module Column.
Record t : Type := { name : jsstring; type : jsstring; sensitive : bool }.
End Column.

Module Project.
Record t : Type := {
  user_id : jsstring;
  name : jsstring;
  description : jsstring;
  industry : jsstring
}.
End Project.

Module Dataset.
Record t : Type := {
  project_id : jsstring;
  name : jsstring;
  description : jsstring;
  schema_json : list Column.t;
  row_count : Z;
  data_type : jsstring;
  status : jsstring
}.
End Dataset.

(** The parameter bag of the generation form. *)
Module Params.
Record t : Type := {
  model_type : jsstring;
  row_count : number;
  epsilon : number;
  k_anonymity : number
}.
End Params.

Module Generation.
Record t : Type := {
  dataset_id : jsstring;
  user_id : jsstring;
  model_type : jsstring;
  parameters : Params.t;
  row_count : number;
  status : jsstring;
  started_at : isoString;
  completed_at : isoString
}.
End Generation.

Module PrivacyMetrics.
Record json : Type := {
  differential_privacy : bool;
  anonymization_level : jsstring
}.
Record t : Type := {
  generation_id : jsstring;
  epsilon : number;
  k_anonymity : number;
  privacy_risk_score : Q;
  leakage_probability : Q;
  metrics_json : json
}.
End PrivacyMetrics.

Module UtilityMetrics.
Record json : Type := {
  statistical_tests_passed : Z;
  total_statistical_tests : Z
}.
Record t : Type := {
  generation_id : jsstring;
  fidelity_score : Q;
  similarity_score : Q;
  correlation_preservation : Q;
  distribution_similarity : Q;
  ml_efficacy_score : Q;
  metrics_json : json
}.
End UtilityMetrics.

Module ComplianceReport.
Record data : Type := {
  regulation : jsstring;
  privacy_guarantees : jsstring;
  anonymization : jsstring;
  data_minimization : bool;
  purpose_limitation : bool;
  generated_at : isoString;
  valid_until : isoString
}.
Record t : Type := {
  generation_id : jsstring;
  report_type : jsstring;
  compliance_status : jsstring;
  report_data : data
}.
End ComplianceReport.

(** A stored row: the inserted object under the id the server chose. *)
Record Row (A : Type) : Type := { id : jsstring; fields : A }.

Record Store : Type := {
  projects : list (Row Project.t);
  datasets : list (Row Dataset.t);
  synthetic_generations : list (Row Generation.t);
  privacy_metrics : list (Row PrivacyMetrics.t);
  utility_metrics : list (Row UtilityMetrics.t);
  compliance_reports : list (Row ComplianceReport.t)
}.

Definition empty : Store :=
  {| projects := []; datasets := []; synthetic_generations := [];
     privacy_metrics := []; utility_metrics := []; compliance_reports := [] |}.

Inductive Table : Type := Projects | Datasets | SyntheticGenerations.

(** An [.eq(column, value)] filter of a select. *)
Record Filter : Type := { column : jsstring; value : jsstring }.

(** The requests the views send. *)
Inductive Request : Type :=
| InsertDataset (row : Dataset.t)
| InsertGeneration (row : Generation.t)
| InsertPrivacyMetrics (row : PrivacyMetrics.t)
| InsertUtilityMetrics (row : UtilityMetrics.t)
| InsertComplianceReport (row : ComplianceReport.t)
| SelectCount (table : Table) (filters : list Filter).

(** The text columns a filter can name; an unknown column matches no
    row. *)
Definition projectColumn (r : Row Project.t) (c : jsstring) : option jsstring :=
  if eqb c (str "id") then Some (id r)
  else if eqb c (str "user_id") then Some (Project.user_id (fields r))
  else None.

Definition datasetColumn (r : Row Dataset.t) (c : jsstring) : option jsstring :=
  if eqb c (str "id") then Some (id r)
  else if eqb c (str "project_id") then Some (Dataset.project_id (fields r))
  else None.

Definition generationColumn (r : Row Generation.t) (c : jsstring) : option jsstring :=
  if eqb c (str "id") then Some (id r)
  else if eqb c (str "dataset_id") then Some (Generation.dataset_id (fields r))
  else if eqb c (str "user_id") then Some (Generation.user_id (fields r))
  else None.

Definition satisfies (A : Type) (col : A -> jsstring -> option jsstring)
    (fs : list Filter) (r : A) : bool :=
  forallb (fun f => match col r (column f) with
                    | Some v => eqb v (value f)
                    | None => false
                    end) fs.

(** The exact count a select reports: the rows that pass every filter. *)
Definition countRows (s : Store) (t : Table) (fs : list Filter) : Z :=
  match t with
  | Projects => Z.of_nat (List.length (filter (satisfies projectColumn fs) (projects s)))
  | Datasets => Z.of_nat (List.length (filter (satisfies datasetColumn fs) (datasets s)))
  | SyntheticGenerations =>
      Z.of_nat (List.length (filter (satisfies generationColumn fs) (synthetic_generations s)))
  end.

(** The store after the server has carried out a request; an insert
    appends one row, a select changes nothing. *)
Definition commit (req : Request) (new_id : jsstring) (s : Store) : Store :=
  match req with
  | InsertDataset row =>
      {| projects := projects s;
         datasets := datasets s ++ [{| id := new_id; fields := row |}];
         synthetic_generations := synthetic_generations s;
         privacy_metrics := privacy_metrics s;
         utility_metrics := utility_metrics s;
         compliance_reports := compliance_reports s |}
  | InsertGeneration row =>
      {| projects := projects s;
         datasets := datasets s;
         synthetic_generations :=
           synthetic_generations s ++ [{| id := new_id; fields := row |}];
         privacy_metrics := privacy_metrics s;
         utility_metrics := utility_metrics s;
         compliance_reports := compliance_reports s |}
  | InsertPrivacyMetrics row =>
      {| projects := projects s;
         datasets := datasets s;
         synthetic_generations := synthetic_generations s;
         privacy_metrics := privacy_metrics s ++ [{| id := new_id; fields := row |}];
         utility_metrics := utility_metrics s;
         compliance_reports := compliance_reports s |}
  | InsertUtilityMetrics row =>
      {| projects := projects s;
         datasets := datasets s;
         synthetic_generations := synthetic_generations s;
         privacy_metrics := privacy_metrics s;
         utility_metrics := utility_metrics s ++ [{| id := new_id; fields := row |}];
         compliance_reports := compliance_reports s |}
  | InsertComplianceReport row =>
      {| projects := projects s;
         datasets := datasets s;
         synthetic_generations := synthetic_generations s;
         privacy_metrics := privacy_metrics s;
         utility_metrics := utility_metrics s;
         compliance_reports :=
           compliance_reports s ++ [{| id := new_id; fields := row |}] |}
  | SelectCount _ _ => s
  end.

End Db.

(** ** The signed-in user, as the auth context exposes it *)

Module Auth.
Record User : Type := { id : JS.jsstring; email : JS.jsstring }.
End Auth.

(** ** Handlers as computations over the world *)

Module Run.
Import JS Db.

(** The callbacks scheduled with [setTimeout].  The upload callback
    closes over the returned row and reads its id only when it fires;
    what is kept is that row's id, if a row was returned. *)
Inductive Callback : Type :=
| OnUploadComplete (dataset : option jsstring)
| OnGenerationComplete.

Record Timer : Type := { callback : Callback; delay : Z }.

(** A file offered by the browser as a download. *)
Record Download : Type := {
  content : jsstring;
  mime : jsstring;
  download : jsstring
}.

(** How the server and the network settle one request. *)
Inductive Outcome : Type :=
| Served (new_id : jsstring)   (* carried out; an insert got this id *)
| ErrorResponse (e : JsError)  (* answered with [{ data: null, error }] *)
| Reject (e : JsError).        (* the promise rejects *)

(** The surroundings of a handler run, which it can only observe: the
    successive readings of the clock in milliseconds, the successive
    values of [Math.random()], and the outcome of the request that is
    the [k]-th one logged. *)
Record Env : Type := {
  clock : nat -> Z;
  rng : nat -> Q;
  net : nat -> Outcome
}.

(** What a handler run can change outside its component. *)
Record World : Type := {
  store : Store;
  requests : list Request;      (* network calls so far, oldest first *)
  timers : list Timer;
  downloads : list Download;
  clock_reads : nat;
  rng_draws : nat
}.

Inductive Result (A : Type) : Type :=
| Ok (a : A)
| Threw (e : JsError).
Arguments Threw {A} e.

(** A computation over component state [S]. *)
Definition M (S A : Type) : Type := Env -> S -> World -> Result A * S * World.

(** A settled promise. *)
Inductive Settled (A : Type) : Type :=
| Fulfilled (a : A)
| Rejected (e : JsError).
Arguments Rejected {A} e.

(** The object a query builder resolves to. *)
Record Reply : Type := {
  data : option jsstring;     (* the id of the returned row *)
  count : option Z;
  error : option JsError
}.

(** The store after a request with a given outcome: a served insert is
    committed. *)
Definition settle (req : Request) (o : Outcome) (st : Store) : Store :=
  match o with
  | Served new_id => commit req new_id st
  | _ => st
  end.

(** What a request resolves or rejects with under a given outcome,
    against the store it was sent to. *)
Definition settled (req : Request) (o : Outcome) (st : Store) : Settled Reply :=
  match o with
  | Served new_id =>
      Fulfilled
        match req with
        | SelectCount t fs =>
            {| data := None; count := Some (countRows st t fs); error := None |}
        | _ => {| data := Some new_id; count := None; error := None |}
        end
  | ErrorResponse e =>
      Fulfilled {| data := None; count := None; error := Some e |}
  | Reject e => Rejected e
  end.

(** The error [Promise.all] rejects with, if an entry rejects. *)
Definition firstRejection (o1 o2 o3 : Outcome) : option JsError :=
  match o1, o2, o3 with
  | Reject e, _, _ => Some e
  | _, Reject e, _ => Some e
  | _, _, Reject e => Some e
  | _, _, _ => None
  end.

Section Monad.
Context {S : Type}.

Definition ret {A} (a : A) : M S A := fun _ s w => (Ok a, s, w).

Definition bind {A B} (c : M S A) (k : A -> M S B) : M S B :=
  fun env s w =>
    match c env s w with
    | (Ok a, s', w') => k a env s' w'
    | (Threw e, s', w') => (Threw e, s', w')
    end.

Definition throw {A} (e : JsError) : M S A := fun _ s w => (Threw e, s, w).

Definition get : M S S := fun _ s w => (Ok s, s, w).

Definition modify (f : S -> S) : M S unit := fun _ s w => (Ok tt, f s, w).

(** [try { body } catch (err) { handler } finally { fin }]. *)
Definition tryCatchFinally (body : M S unit) (handler : JsError -> M S unit)
    (fin : M S unit) : M S unit :=
  fun env s w =>
    match body env s w with
    | (Ok _, s1, w1) => fin env s1 w1
    | (Threw e, s1, w1) =>
        match handler e env s1 w1 with
        | (Ok _, s2, w2) => fin env s2 w2
        | (Threw e', s2, w2) =>
            match fin env s2 w2 with
            | (Ok _, s3, w3) => (Threw e', s3, w3)
            | r => r
            end
        end
    end.

(** [new Date()] and [Date.now()]: the next reading of the clock. *)
Definition Date_now : M S Z :=
  fun env s w =>
    (Ok (clock env (clock_reads w)), s,
     {| store := store w; requests := requests w; timers := timers w;
        downloads := downloads w;
        clock_reads := Datatypes.S (clock_reads w); rng_draws := rng_draws w |}).

(** [Math.random()]: the next draw. *)
Definition Math_random : M S Q :=
  fun env s w =>
    (Ok (rng env (rng_draws w)), s,
     {| store := store w; requests := requests w; timers := timers w;
        downloads := downloads w;
        clock_reads := clock_reads w; rng_draws := Datatypes.S (rng_draws w) |}).

Definition setTimeout (cb : Callback) (ms : Z) : M S unit :=
  fun _ s w =>
    (Ok tt, s,
     {| store := store w; requests := requests w;
        timers := timers w ++ [{| callback := cb; delay := ms |}];
        downloads := downloads w;
        clock_reads := clock_reads w; rng_draws := rng_draws w |}).

Definition offerDownload (d : Download) : M S unit :=
  fun _ s w =>
    (Ok tt, s,
     {| store := store w; requests := requests w; timers := timers w;
        downloads := downloads w ++ [d];
        clock_reads := clock_reads w; rng_draws := rng_draws w |}).

(** Sending a request: it is logged, and the environment decides the
    outcome of the request at this position of the log. *)
Definition send (req : Request) : M S (Settled Reply) :=
  fun env s w =>
    let o := net env (List.length (requests w)) in
    (Ok (settled req o (store w)), s,
     {| store := settle req o (store w);
        requests := requests w ++ [req];
        timers := timers w;
        downloads := downloads w;
        clock_reads := clock_reads w; rng_draws := rng_draws w |}).

(** [await p]. *)
Definition await {A} (p : M S (Settled A)) : M S A :=
  bind p (fun r => match r with
                   | Fulfilled a => ret a
                   | Rejected e => throw e
                   end).

(** [await Promise.all([p1, p2, p3])]: the three requests are all sent,
    in the order of the array; the result rejects when one of them does,
    with the error of the first such entry. *)
Definition awaitAll3 {A B C} (p1 : M S (Settled A)) (p2 : M S (Settled B))
    (p3 : M S (Settled C)) : M S (A * B * C) :=
  bind p1 (fun r1 =>
  bind p2 (fun r2 =>
  bind p3 (fun r3 =>
    match r1, r2, r3 with
    | Fulfilled a, Fulfilled b, Fulfilled c => ret (a, b, c)
    | Rejected e, _, _ => throw e
    | _, Rejected e, _ => throw e
    | _, _, Rejected e => throw e
    end))).

End Monad.

Declare Scope js_scope.
Delimit Scope js_scope with js.
Notation "x <- c ;; k" := (bind c (fun x => k))
  (at level 61, c at next level, right associativity) : js_scope.
Notation "c ;; k" := (bind c (fun _ => k))
  (at level 61, right associativity) : js_scope.
Notation "' pat <- c ;; k" :=
  (bind c (fun x => match x with pat => k end))
  (at level 61, pat pattern, c at next level, right associativity) : js_scope.

(** The component state, the world and the completion of a run. *)
Definition stateAfter {S A} (r : Result A * S * World) : S := snd (fst r).
Definition worldAfter {S A} (r : Result A * S * World) : World := snd r.
Definition resultOf {S A} (r : Result A * S * World) : Result A := fst (fst r).

Definition initial (s : Store) : World :=
  {| store := s; requests := []; timers := []; downloads := [];
     clock_reads := 0; rng_draws := 0 |}.

End Run.

(** ** The dataset uploader *)

Module DatasetUpload.
Import JS Db Run.
Local Open Scope js_scope.

Record File : Type := { name : jsstring; type : jsstring; text : jsstring }.

Record Props : Type := {
  projectId : option jsstring;
  user : option Auth.User
}.

Record State : Type := {
  file : option File;
  uploading : bool;
  error : jsstring;
  success : bool;
  datasetName : jsstring;
  description : jsstring
}.

Definition setFile (f : option File) : M State unit :=
  modify (fun s =>
    {| file := f; uploading := uploading s; error := error s;
       success := success s; datasetName := datasetName s;
       description := description s |}).

Definition setUploading (b : bool) : M State unit :=
  modify (fun s =>
    {| file := file s; uploading := b; error := error s;
       success := success s; datasetName := datasetName s;
       description := description s |}).

Definition setError (msg : jsstring) : M State unit :=
  modify (fun s =>
    {| file := file s; uploading := uploading s; error := msg;
       success := success s; datasetName := datasetName s;
       description := description s |}).

Definition setSuccess (b : bool) : M State unit :=
  modify (fun s =>
    {| file := file s; uploading := uploading s; error := error s;
       success := b; datasetName := datasetName s;
       description := description s |}).

Definition setDatasetName (n : jsstring) : M State unit :=
  modify (fun s =>
    {| file := file s; uploading := uploading s; error := error s;
       success := success s; datasetName := n;
       description := description s |}).

(** [handleFileChange]; the argument is [e.target.files]. *)
Definition handleFileChange (files : option (list File)) : M State unit :=
  match files with
  | Some (selectedFile :: _) =>
      if negb (eqb (type selectedFile) (str "text/csv")) then
        setError (str "Please upload a CSV file")
      else
        setFile (Some selectedFile) ;;
        setDatasetName (replace (str ".csv") [] (name selectedFile)) ;;
        setError []
  | _ => ret tt
  end.

Section WithPlatform.
Context {P : Platform}.

(** The lines of the file that survive [filter(row => row.trim())]. *)
Definition nonBlank (row : jsstring) : bool := truthy (trim row).

Definition rowsOf (text : jsstring) : list jsstring :=
  filter nonBlank (split newline text).

(** The schema entry derived from one header. *)
Definition schemaEntry (header : jsstring) : Column.t :=
  {| Column.name := trim header;
     Column.type := str "string";
     Column.sensitive :=
       includes (toLowerCase header) (str "id") ||
       includes (toLowerCase header) (str "name") ||
       includes (toLowerCase header) (str "phone") |}.

(** [rows[0].split(',')]: reading [split] off a missing first row
    throws. *)
Definition headersOf (rows : list jsstring) : M State (list jsstring) :=
  match nth_error rows 0 with
  | Some row0 => ret (split comma row0)
  | None =>
      throw {| message := typeErrorMessage (str "undefined") (str "split") |}
  end.

(** The object handed to the insert. *)
Definition newDataset (projectId : jsstring) (st : State)
    (schema : list Column.t) (rows : list jsstring) : Dataset.t :=
  {| Dataset.project_id := projectId;
     Dataset.name := datasetName st;
     Dataset.description := description st;
     Dataset.schema_json := schema;
     Dataset.row_count := Z.of_nat (List.length rows) - 1;
     Dataset.data_type := str "tabular";
     Dataset.status := str "uploaded" |}.

Definition handleUpload (props : Props) : M State unit :=
  st <- get ;;
  match file st, projectId props, user props with
  | Some file, Some projectId, Some _ =>
      if truthy projectId then
        setUploading true ;;
        setError [] ;;
        tryCatchFinally
          (let text := text file in
           let rows := rowsOf text in
           headers <- headersOf rows ;;
           let schema := map schemaEntry headers in
           reply <- await (send (InsertDataset
                                   (newDataset projectId st schema rows))) ;;
           match Run.error reply with
           | Some dbError => throw dbError
           | None =>
               setSuccess true ;;
               setTimeout (OnUploadComplete (data reply)) 1500
           end)
          (fun err => setError (orElse (message err) (str "Upload failed")))
          (setUploading false)
      else ret tt
  | _, _, _ => ret tt
  end.

End WithPlatform.

End DatasetUpload.

(** ** The generation trigger *)

Module SyntheticGenerator.
Import JS Db Run.
Local Open Scope js_scope.

Record Props : Type := {
  datasetId : option jsstring;
  user : option Auth.User
}.

Record State : Type := {
  dataset : option (Row Dataset.t);
  loading : bool;
  generating : bool;
  success : bool;
  error : jsstring;
  params : Params.t
}.

Definition setGenerating (b : bool) : M State unit :=
  modify (fun s =>
    {| dataset := dataset s; loading := loading s; generating := b;
       success := success s; error := error s; params := params s |}).

Definition setSuccess (b : bool) : M State unit :=
  modify (fun s =>
    {| dataset := dataset s; loading := loading s; generating := generating s;
       success := b; error := error s; params := params s |}).

Definition setError (msg : jsstring) : M State unit :=
  modify (fun s =>
    {| dataset := dataset s; loading := loading s; generating := generating s;
       success := success s; error := msg; params := params s |}).

(** The code unit of the Greek letter epsilon in the report templates. *)
Definition epsilonChar : char16 := 949%N.

(** [365 * 24 * 60 * 60 * 1000]. *)
Definition validityWindow : Z := 365 * 24 * 60 * 60 * 1000.

(** [base + Math.random() * width], in binary64 arithmetic. *)
Definition scaled (base width draw : Q) : Q :=
  B64.add base (B64.mul draw width).

Section WithPlatform.
Context {P : Platform}.

Definition privacyMetrics (params : Params.t) (generation_id : jsstring)
    (r1 r2 : Q) : PrivacyMetrics.t :=
  {| PrivacyMetrics.generation_id := generation_id;
     PrivacyMetrics.epsilon := Params.epsilon params;
     PrivacyMetrics.k_anonymity := Params.k_anonymity params;
     PrivacyMetrics.privacy_risk_score :=
       scaled (B64.lit (5 # 100)%Q) (B64.lit (10 # 100)%Q) r1;
     PrivacyMetrics.leakage_probability :=
       scaled (B64.lit (1 # 1000)%Q) (B64.lit (5 # 1000)%Q) r2;
     PrivacyMetrics.metrics_json :=
       {| PrivacyMetrics.differential_privacy := true;
          PrivacyMetrics.anonymization_level := str "high" |} |}.

Definition utilityMetrics (generation_id : jsstring) (r1 r2 r3 r4 r5 : Q)
    : UtilityMetrics.t :=
  {| UtilityMetrics.generation_id := generation_id;
     UtilityMetrics.fidelity_score :=
       scaled (B64.lit (85 # 100)%Q) (B64.lit (10 # 100)%Q) r1;
     UtilityMetrics.similarity_score :=
       scaled (B64.lit (88 # 100)%Q) (B64.lit (8 # 100)%Q) r2;
     UtilityMetrics.correlation_preservation :=
       scaled (B64.lit (90 # 100)%Q) (B64.lit (8 # 100)%Q) r3;
     UtilityMetrics.distribution_similarity :=
       scaled (B64.lit (87 # 100)%Q) (B64.lit (9 # 100)%Q) r4;
     UtilityMetrics.ml_efficacy_score :=
       scaled (B64.lit (82 # 100)%Q) (B64.lit (12 # 100)%Q) r5;
     UtilityMetrics.metrics_json :=
       {| UtilityMetrics.statistical_tests_passed := 15;
          UtilityMetrics.total_statistical_tests := 18 |} |}.

(** [new Date(t).toISOString()]: the ISO string of a time value, and a
    RangeError when [t] is none.  ([new Date()] holds the current time,
    which is a time value, and its [toISOString] cannot throw.) *)
Definition toISOString (t : Z) : M State isoString :=
  if isTimeValue t then ret (ISO t)
  else throw {| message := rangeErrorMessage |}.

Definition complianceData (params : Params.t) (generation_id : jsstring)
    (generated : Z) (valid_until : isoString) : ComplianceReport.t :=
  {| ComplianceReport.generation_id := generation_id;
     ComplianceReport.report_type := str "kenya_dpa";
     ComplianceReport.compliance_status := str "compliant";
     ComplianceReport.report_data :=
       {| ComplianceReport.regulation := str "Kenya Data Protection Act, 2019";
          ComplianceReport.privacy_guarantees :=
            [epsilonChar] ++ str "-differential privacy with " ++
            [epsilonChar] ++ str "=" ++ numberToString (Params.epsilon params);
          ComplianceReport.anonymization :=
            str "k-anonymity with k=" ++
            numberToString (Params.k_anonymity params);
          ComplianceReport.data_minimization := true;
          ComplianceReport.purpose_limitation := true;
          ComplianceReport.generated_at := ISO generated;
          ComplianceReport.valid_until := valid_until |} |}.

(** The object handed to the Generation insert. *)
Definition newGeneration (datasetId : jsstring) (user : Auth.User)
    (params : Params.t) (started completed : Z) : Generation.t :=
  {| Generation.dataset_id := datasetId;
     Generation.user_id := Auth.id user;
     Generation.model_type := Params.model_type params;
     Generation.parameters := params;
     Generation.row_count := Params.row_count params;
     Generation.status := str "completed";
     Generation.started_at := ISO started;
     Generation.completed_at := ISO completed |}.

Definition handleGenerate (props : Props) : M State unit :=
  st <- get ;;
  match datasetId props, user props with
  | Some datasetId, Some user =>
      if truthy datasetId then
        setGenerating true ;;
        setError [] ;;
        tryCatchFinally
          (let params := params st in
           started <- Date_now ;;
           completed <- Date_now ;;
           reply <- await (send (InsertGeneration
                                   (newGeneration datasetId user params
                                      started completed))) ;;
           match Run.error reply with
           | Some genError => throw genError
           | None =>
               p1 <- Math_random ;;
               p2 <- Math_random ;;
               u1 <- Math_random ;;
               u2 <- Math_random ;;
               u3 <- Math_random ;;
               u4 <- Math_random ;;
               u5 <- Math_random ;;
               generated <- Date_now ;;
               now <- Date_now ;;
               valid_until <- toISOString (now + validityWindow) ;;
               match data reply with
               | None =>
                   throw {| message := typeErrorMessage (str "null") (str "id") |}
               | Some generation_id =>
                   awaitAll3
                     (send (InsertPrivacyMetrics
                        (privacyMetrics params generation_id p1 p2)))
                     (send (InsertUtilityMetrics
                        (utilityMetrics generation_id u1 u2 u3 u4 u5)))
                     (send (InsertComplianceReport
                        (complianceData params generation_id generated
                           valid_until))) ;;
                   setSuccess true ;;
                   setTimeout OnGenerationComplete 2000
               end
           end)
          (fun err => setError (orElse (message err) (str "Generation failed")))
          (setGenerating false)
      else ret tt
  | _, _ => ret tt
  end.

End WithPlatform.

End SyntheticGenerator.

(** ** The metrics viewer *)

Module PrivacyMetricsView.
Import JS Db Run.
Local Open Scope js_scope.

(** A compliance report as the joined select returns it: the stored
    object and the row's own [generated_at] column. *)
Record Report : Type := {
  report_type : jsstring;
  compliance_status : jsstring;
  report_data : ComplianceReport.data;
  generated_at : isoString
}.

(** A generation joined with its dataset name and its metrics and
    report collections. *)
Record Generation : Type := {
  id : jsstring;
  dataset_id : jsstring;
  model_type : jsstring;
  row_count : number;
  status : jsstring;
  created_at : isoString;
  dataset_name : jsstring;
  privacy_metrics : list PrivacyMetrics.t;
  utility_metrics : list UtilityMetrics.t;
  compliance_reports : list Report
}.

Record State : Type := {
  generations : list Generation;
  selectedGen : option Generation;
  loading : bool
}.

Definition nl : jsstring := [newline].

(** The check mark of the criteria lines. *)
Definition checkMark : char16 := 10003%N.

Section WithPlatform.
Context {P : Platform}.

Definition verdict (b : bool) : jsstring :=
  if b then str "Compliant" else str "Not Compliant".

(** [(x * 100).toFixed(digits)]. *)
Definition percent (x : Q) (digits : nat) : jsstring :=
  toFixed (B64.mul x (inject_Z 100)) digits.

Definition privacyBlock (pm : option PrivacyMetrics.t) : jsstring :=
  match pm with
  | Some m =>
      nl ++ str "Differential Privacy Epsilon: " ++
        numberToString (PrivacyMetrics.epsilon m) ++ nl ++
      str "K-Anonymity Level: " ++
        numberToString (PrivacyMetrics.k_anonymity m) ++ nl ++
      str "Privacy Risk Score: " ++
        percent (PrivacyMetrics.privacy_risk_score m) 2 ++ str "%" ++ nl ++
      str "Leakage Probability: " ++
        percent (PrivacyMetrics.leakage_probability m) 3 ++ str "%" ++ nl
  | None => str "No metrics available"
  end.

Definition utilityBlock (um : option UtilityMetrics.t) : jsstring :=
  match um with
  | Some m =>
      nl ++ str "Fidelity Score: " ++
        percent (UtilityMetrics.fidelity_score m) 1 ++ str "%" ++ nl ++
      str "Similarity Score: " ++
        percent (UtilityMetrics.similarity_score m) 1 ++ str "%" ++ nl ++
      str "Correlation Preservation: " ++
        percent (UtilityMetrics.correlation_preservation m) 1 ++ str "%" ++ nl ++
      str "Distribution Similarity: " ++
        percent (UtilityMetrics.distribution_similarity m) 1 ++ str "%" ++ nl ++
      str "ML Efficacy Score: " ++
        percent (UtilityMetrics.ml_efficacy_score m) 1 ++ str "%" ++ nl
  | None => str "No metrics available"
  end.

(** The text of the report, before the final [trim]. *)
Definition reportTemplate (gen : Generation) (report : Report) : jsstring :=
  let d := report_data report in
  nl ++
  str "KENYA DATA PROTECTION ACT COMPLIANCE REPORT" ++ nl ++
  str "===========================================" ++ nl ++
  nl ++
  str "Generated: " ++ dateToLocaleString (generated_at report) ++ nl ++
  str "Report Type: " ++ report_type report ++ nl ++
  str "Status: " ++ toUpperCase (compliance_status report) ++ nl ++
  nl ++
  str "Dataset Information:" ++ nl ++
  str "-------------------" ++ nl ++
  str "Name: " ++ dataset_name gen ++ nl ++
  str "Synthetic Rows: " ++ numberToLocaleString (row_count gen) ++ nl ++
  str "Model: " ++ toUpperCase (model_type gen) ++ nl ++
  nl ++
  str "Privacy Guarantees:" ++ nl ++
  str "------------------" ++ nl ++
  ComplianceReport.privacy_guarantees d ++ nl ++
  str "Anonymization: " ++ ComplianceReport.anonymization d ++ nl ++
  nl ++
  str "Compliance Criteria:" ++ nl ++
  str "-------------------" ++ nl ++
  [checkMark] ++ str " Data Minimization: " ++
    verdict (ComplianceReport.data_minimization d) ++ nl ++
  [checkMark] ++ str " Purpose Limitation: " ++
    verdict (ComplianceReport.purpose_limitation d) ++ nl ++
  nl ++
  str "Privacy Metrics:" ++ nl ++
  str "---------------" ++ nl ++
  privacyBlock (nth_error (privacy_metrics gen) 0) ++ nl ++
  nl ++
  str "Utility Metrics:" ++ nl ++
  str "---------------" ++ nl ++
  utilityBlock (nth_error (utility_metrics gen) 0) ++ nl ++
  nl ++
  str "Valid Until: " ++
    dateToLocaleDateString (ComplianceReport.valid_until d) ++ nl ++
  nl ++
  str "---" ++ nl ++
  str "This report certifies that the synthetic dataset meets the requirements" ++ nl ++
  str "of the Kenya Data Protection Act, 2019." ++ nl ++
  str "    ".

Definition downloadComplianceReport (gen : Generation) : M State unit :=
  match nth_error (compliance_reports gen) 0 with
  | None => ret tt
  | Some report =>
      let content := trim (reportTemplate gen report) in
      offerDownload
        {| Run.content := content;
           mime := str "text/plain";
           download :=
             str "compliance-report-" ++ slice0 8 (id gen) ++ str ".txt" |}
  end.

End WithPlatform.

End PrivacyMetricsView.

(** ** The dashboard shell *)

Module Dashboard.
Import JS Db Run.
Local Open Scope js_scope.

(** The five tabs: 'projects', 'upload', 'generate', 'metrics',
    'settings'. *)
Inductive View : Type :=
  ProjectsView | UploadView | GenerateView | MetricsView | SettingsView.

Record Stats : Type := {
  totalProjects : Z;
  totalDatasets : Z;
  totalGenerations : Z;
  recentActivity : Z
}.

Record State : Type := {
  currentView : View;
  selectedProject : option jsstring;
  selectedDataset : option jsstring;
  stats : Stats
}.

Definition setStats (st : Stats) : M State unit :=
  modify (fun s =>
    {| currentView := currentView s; selectedProject := selectedProject s;
       selectedDataset := selectedDataset s; stats := st |}).

(** [count || 0]. *)
Definition orZero (c : option Z) : Z :=
  match c with
  | Some n => n
  | None => 0
  end.

Definition loadStats (user : option Auth.User) : M State unit :=
  match user with
  | None => ret tt
  | Some user =>
      let self := {| column := str "user_id"; value := Auth.id user |} in
      '(projects, datasets, generations) <-
        awaitAll3
          (send (SelectCount Projects [self]))
          (send (SelectCount Datasets []))
          (send (SelectCount SyntheticGenerations [self])) ;;
      setStats
        {| totalProjects := orZero (count projects);
           totalDatasets := orZero (count datasets);
           totalGenerations := orZero (count generations);
           recentActivity := orZero (count generations) |}
  end.

End Dashboard.

(** ** The uploader: a dataset from a template *)

Module Template.
(** A row of the templates table, as the uploader reads it. *)
Record t : Type := {
  id : JS.jsstring;
  name : JS.jsstring;
  description : JS.jsstring;
  category : JS.jsstring;
  schema_json : list Db.Column.t
}.
End Template.

Module TemplateUpload.
Import JS Db Run DatasetUpload.
Local Open Scope js_scope.

(** The object handed to the insert. *)
Definition templateDataset (projectId : jsstring) (template : Template.t)
    : Dataset.t :=
  {| Dataset.project_id := projectId;
     Dataset.name := Template.name template ++ str " Template";
     Dataset.description := Template.description template;
     Dataset.schema_json := Template.schema_json template;
     Dataset.row_count := 1000;
     Dataset.data_type := str "tabular";
     Dataset.status := str "uploaded" |}.

Definition handleTemplateSelect (props : Props) (template : Template.t)
    : M State unit :=
  match projectId props, user props with
  | Some projectId, Some _ =>
      if truthy projectId then
        setUploading true ;;
        tryCatchFinally
          (reply <- await (send (InsertDataset
                                   (templateDataset projectId template))) ;;
           match Run.error reply with
           | Some dbError => throw dbError
           | None =>
               setSuccess true ;;
               setTimeout (OnUploadComplete (data reply)) 1500
           end)
          (fun err =>
             setError (orElse (message err) (str "Template creation failed")))
          (setUploading false)
      else ret tt
  | _, _ => ret tt
  end.

(** What the uploader renders: the notice that no project is selected,
    the success message, or the two forms. *)
Inductive Screen : Type :=
| NoProjectSelected
| UploadedSuccessfully
| UploadForms.

Definition screen (props : Props) (st : State) : Screen :=
  match projectId props with
  | Some projectId =>
      if truthy projectId then
        if success st then UploadedSuccessfully else UploadForms
      else NoProjectSelected
  | None => NoProjectSelected
  end.

End TemplateUpload.

(** ** The generation trigger: loading the dataset, and what is shown *)

Module GeneratorLoad.
Import JS Db Run SyntheticGenerator.
Local Open Scope js_scope.

Definition setDataset (d : option (Row Dataset.t)) : M State unit :=
  modify (fun s =>
    {| dataset := d; loading := loading s; generating := generating s;
       success := success s; error := error s; params := params s |}).

Definition setLoading (b : bool) : M State unit :=
  modify (fun s =>
    {| dataset := dataset s; loading := b; generating := generating s;
       success := success s; error := error s; params := params s |}).

(** [setParams(prev => f(prev))]. *)
Definition setParams (f : Params.t -> Params.t) : M State unit :=
  modify (fun s =>
    {| dataset := dataset s; loading := loading s; generating := generating s;
       success := success s; error := error s; params := f (params s) |}).

(** [Math.max(a, b)] on two integers. *)
Definition Math_max (a b : Z) : number := Finite (inject_Z (Z.max a b)).

(** [loadDataset].  The single-row select changes nothing on the
    server; [query] is what its promise settles to: the row found, no
    data, or a rejection. *)
Definition loadDataset (props : Props)
    (query : Settled (option (Row Dataset.t))) : M State unit :=
  match datasetId props with
  | Some datasetId =>
      if truthy datasetId then
        setLoading true ;;
        found <- await (ret query) ;;
        match found with
        | Some data =>
            setDataset (Some data) ;;
            setParams (fun prev =>
              {| Params.model_type := Params.model_type prev;
                 Params.row_count :=
                   Math_max (Dataset.row_count (fields data)) 1000;
                 Params.epsilon := Params.epsilon prev;
                 Params.k_anonymity := Params.k_anonymity prev |})
        | None => ret tt
        end ;;
        setLoading false
      else ret tt
  | None => ret tt
  end.

(** What the component renders. *)
Inductive Screen : Type :=
| NoDatasetSelected
| LoadingDataset
| GeneratedSuccessfully
| GenerationForm.

Definition screen (props : Props) (st : State) : Screen :=
  match datasetId props with
  | Some datasetId =>
      if truthy datasetId then
        if loading st then LoadingDataset
        else if success st then GeneratedSuccessfully
        else GenerationForm
      else NoDatasetSelected
  | None => NoDatasetSelected
  end.

End GeneratorLoad.

(** ** The metrics viewer: loading the generations, and what is shown *)

Module ViewerLoad.
Import JS Db Run PrivacyMetricsView.
Local Open Scope js_scope.

Definition setGenerations (gs : list Generation) : M State unit :=
  modify (fun s =>
    {| generations := gs; selectedGen := selectedGen s; loading := loading s |}).

Definition setSelectedGen (g : option Generation) : M State unit :=
  modify (fun s =>
    {| generations := generations s; selectedGen := g; loading := loading s |}).

Definition setLoading (b : bool) : M State unit :=
  modify (fun s =>
    {| generations := generations s; selectedGen := selectedGen s;
       loading := b |}).

(** The state the component is mounted with. *)
Definition mounted : State :=
  {| generations := []; selectedGen := None; loading := true |}.

(** [loadGenerations].  The joined select changes nothing on the
    server; [query] is what its promise settles to: the user's
    generations, newest first, no data, or a rejection. *)
Definition loadGenerations (user : option Auth.User)
    (query : Settled (option (list Generation))) : M State unit :=
  match user with
  | None => ret tt
  | Some _ =>
      found <- await (ret query) ;;
      match found with
      | Some data =>
          setGenerations data ;;
          match data with
          | first :: _ => setSelectedGen (Some first)
          | [] => ret tt
          end
      | None => ret tt
      end ;;
      setLoading false
  end.

(** A click on an entry of the generation history. *)
Definition selectGeneration (gen : Generation) : M State unit :=
  setSelectedGen (Some gen).

(** What the component renders: a loading notice, the notice that
    nothing was generated, or the history with the details of the
    selected generation, if one is selected. *)
Inductive Screen : Type :=
| LoadingMetrics
| NoDataGeneratedYet
| MetricsShown (history : list Generation) (details : option Generation).

Definition screen (st : State) : Screen :=
  if loading st then LoadingMetrics
  else match generations st with
       | [] => NoDataGeneratedYet
       | history => MetricsShown history (selectedGen st)
       end.

(** The "High Privacy" badge:
    [privacy_metrics[0]?.privacy_risk_score < 0.15]. *)
Definition highPrivacy (gen : Generation) : bool :=
  match nth_error (privacy_metrics gen) 0 with
  | Some m =>
      negb (Qle_bool (B64.lit (15 # 100)%Q) (PrivacyMetrics.privacy_risk_score m))
  | None => false
  end.

(** The "High Fidelity" badge:
    [utility_metrics[0]?.fidelity_score > 0.85]. *)
Definition highFidelity (gen : Generation) : bool :=
  match nth_error (utility_metrics gen) 0 with
  | Some m =>
      negb (Qle_bool (UtilityMetrics.fidelity_score m) (B64.lit (85 # 100)%Q))
  | None => false
  end.

End ViewerLoad.

(** ** The dashboard shell: navigation and the callbacks of the views *)

Module DashboardShell.
Import JS Db Run Dashboard.
Local Open Scope js_scope.

Definition setCurrentView (v : View) : M State unit :=
  modify (fun s =>
    {| currentView := v; selectedProject := selectedProject s;
       selectedDataset := selectedDataset s; stats := stats s |}).

Definition setSelectedProject (p : option jsstring) : M State unit :=
  modify (fun s =>
    {| currentView := currentView s; selectedProject := p;
       selectedDataset := selectedDataset s; stats := stats s |}).

Definition setSelectedDataset (d : option jsstring) : M State unit :=
  modify (fun s =>
    {| currentView := currentView s; selectedProject := selectedProject s;
       selectedDataset := d; stats := stats s |}).

(** A call to an async function whose promise is dropped: what the call
    does is done, and a rejection reaches nobody. *)
Definition unawaited {A} (c : M State A) : M State unit :=
  fun env s w =>
    match c env s w with
    | (_, s', w') => (Ok tt, s', w')
    end.

Section WithUser.
Context {P : Platform}.
Variable user : option Auth.User.

(** The buttons of the navigation bar. *)
Definition navigate (view : View) : M State unit := setCurrentView view.

(** The callbacks handed to the project list. *)
Definition onSelectProject (projectId : jsstring) : M State unit :=
  setSelectedProject (Some projectId).

Definition onNavigateToUpload : M State unit := setCurrentView UploadView.

(** A click on a card of the project list. *)
Definition openProject (projectId : jsstring) : M State unit :=
  onSelectProject projectId ;;
  onNavigateToUpload.

(** The callback handed to the uploader. *)
Definition onUploadComplete (datasetId : jsstring) : M State unit :=
  setSelectedDataset (Some datasetId) ;;
  setCurrentView GenerateView ;;
  unawaited (loadStats user).

(** The callback handed to the generation trigger. *)
Definition onGenerationComplete : M State unit :=
  setCurrentView MetricsView ;;
  unawaited (loadStats user).

(** A timer of a view fires: the uploader's reads the id off the
    returned row and passes it on, the trigger's takes no argument. *)
Definition fire (cb : Callback) : M State unit :=
  match cb with
  | OnUploadComplete (Some dataset_id) => onUploadComplete dataset_id
  | OnUploadComplete None =>
      throw {| message := typeErrorMessage (str "null") (str "id") |}
  | OnGenerationComplete => onGenerationComplete
  end.

(** The view rendered below the navigation bar, with its props. *)
Inductive Child : Type :=
| ProjectListChild
| DatasetUploadChild (props : DatasetUpload.Props)
| SyntheticGeneratorChild (props : SyntheticGenerator.Props)
| PrivacyMetricsChild
| SettingsChild.

Definition child (st : State) : Child :=
  match currentView st with
  | ProjectsView => ProjectListChild
  | UploadView =>
      DatasetUploadChild
        {| DatasetUpload.projectId := selectedProject st;
           DatasetUpload.user := user |}
  | GenerateView =>
      SyntheticGeneratorChild
        {| SyntheticGenerator.datasetId := selectedDataset st;
           SyntheticGenerator.user := user |}
  | MetricsView => PrivacyMetricsChild
  | SettingsView => SettingsChild
  end.

End WithUser.

End DashboardShell.

(** ** The vocabulary of the statements *)

(** The uploader. *)
Module UploadSpec.
Import JS Db Run DatasetUpload.

(** The lines of a text that contain a code unit other than white
    space, in the words of the specification. *)
Definition nonBlankLines (text : jsstring) : list jsstring :=
  filter (existsb visible) (split newline text).

Definition firstNonBlankLine (text : jsstring) : option jsstring :=
  find (existsb visible) (split newline text).

(** Every line is empty or made of white space only. *)
Definition allBlank (text : jsstring) : Prop :=
  Forall (fun line => forallb isWhiteSpace line = true) (split newline text).

(** The guard at the top of [handleUpload] lets the run proceed. *)
Definition ready (props : Props) (st : State) : Prop :=
  exists f pid u,
    file st = Some f /\ projectId props = Some pid /\ truthy pid = true /\
    user props = Some u.

(** An entry of the schema describes its header: the trimmed name, the
    type "string", and the sensitivity heuristic. *)
Definition describes {P : Platform} (header : jsstring) (entry : Column.t) : Prop :=
  Column.name entry = trim header /\
  Column.type entry = str "string" /\
  (Column.sensitive entry = true <->
   occursIn (str "id") (toLowerCase header) \/
   occursIn (str "name") (toLowerCase header) \/
   occursIn (str "phone") (toLowerCase header)).

End UploadSpec.

(** The generation trigger. *)
Module GeneratorSpec.
Import JS Db Run SyntheticGenerator.

(** The guard at the top of [handleGenerate] lets the run proceed for
    this dataset and user. *)
Definition ready (props : Props) (did : jsstring) (u : Auth.User) : Prop :=
  datasetId props = Some did /\ truthy did = true /\ user props = Some u.

Definition redirect : Timer :=
  {| callback := OnGenerationComplete; delay := 2000 |}.

Section Objects.
Context {P : Platform}.
Variables (env : Env) (st : State) (w : World).

(** The four objects a run builds from the clock readings and draws
    that follow the position the world is at. *)
Definition generationOf (did : jsstring) (u : Auth.User) : Generation.t :=
  newGeneration did u (params st)
    (clock env (clock_reads w)) (clock env (1 + clock_reads w)).

Definition privacyOf (gid : jsstring) : PrivacyMetrics.t :=
  privacyMetrics (params st) gid
    (rng env (rng_draws w)) (rng env (1 + rng_draws w)).

Definition utilityOf (gid : jsstring) : UtilityMetrics.t :=
  utilityMetrics gid
    (rng env (2 + rng_draws w)) (rng env (3 + rng_draws w))
    (rng env (4 + rng_draws w)) (rng env (5 + rng_draws w))
    (rng env (6 + rng_draws w)).

(** The instant that [Date.now() + 365 * 24 * 60 * 60 * 1000] denotes
    when valid_until is built, from the fourth clock reading of the
    run. *)
Definition validUntilOf : Z := clock env (3 + clock_reads w) + validityWindow.

Definition complianceOf (gid : jsstring) : ComplianceReport.t :=
  complianceData (params st) gid
    (clock env (2 + clock_reads w)) (ISO validUntilOf).

End Objects.

(** The run takes place at a time from which 365 days on is still a
    date: valid_until can be printed. *)
Definition inTime (env : Env) (w : World) : Prop :=
  isTimeValue (validUntilOf env w) = true.

(** A value [Math.random()] can return: a binary64 number in [0, 1). *)
Definition validDraw (r : Q) : Prop :=
  B64.representable r /\ (0 <= r)%Q /\ (r < 1)%Q.

(** [x] lies between the binary64 values of the two decimal literals. *)
Definition within (lo hi x : Q) : Prop :=
  (B64.lit lo <= x)%Q /\ (x <= B64.lit hi)%Q.

Definition privacyInRange (m : PrivacyMetrics.t) : Prop :=
  within (5 # 100) (15 # 100) (PrivacyMetrics.privacy_risk_score m) /\
  within (1 # 1000) (6 # 1000) (PrivacyMetrics.leakage_probability m).

Definition utilityInRange (m : UtilityMetrics.t) : Prop :=
  within (85 # 100) (95 # 100) (UtilityMetrics.fidelity_score m) /\
  within (88 # 100) (96 # 100) (UtilityMetrics.similarity_score m) /\
  within (90 # 100) (98 # 100) (UtilityMetrics.correlation_preservation m) /\
  within (87 # 100) (96 # 100) (UtilityMetrics.distribution_similarity m) /\
  within (82 # 100) (94 # 100) (UtilityMetrics.ml_efficacy_score m).

End GeneratorSpec.

(** The dashboard. *)
Module DashboardSpec.
Import JS Db Run Dashboard.

(** Counts in the words of the specification: the rows whose user_id is
    the signed-in user's id. *)
Definition ownProjects (s : Store) (u : Auth.User) : list (Row Project.t) :=
  filter (fun p => eqb (Project.user_id (fields p)) (Auth.id u)) (projects s).

Definition ownGenerations (s : Store) (u : Auth.User) : list (Row Generation.t) :=
  filter (fun g => eqb (Generation.user_id (fields g)) (Auth.id u))
    (synthetic_generations s).

(** The user that owns the project a dataset belongs to. *)
Definition ownerOf (s : Store) (d : Row Dataset.t) : option jsstring :=
  match find (fun p => eqb (id p) (Dataset.project_id (fields d))) (projects s) with
  | Some p => Some (Project.user_id (fields p))
  | None => None
  end.

Definition ownedByAnother (s : Store) (u : Auth.User) (d : Row Dataset.t) : Prop :=
  exists v, ownerOf s d = Some v /\ v <> Auth.id u.

(** The datasets in the signed-in user's own projects: what a count
    scoped by user would range over. *)
Definition ownDatasets (s : Store) (u : Auth.User) : list (Row Dataset.t) :=
  filter (fun d => match ownerOf s d with
                   | Some v => eqb v (Auth.id u)
                   | None => false
                   end) (datasets s).

(** The store with further dataset rows. *)
Definition withDatasets (extra : list (Row Dataset.t)) (s : Store) : Store :=
  {| projects := projects s;
     datasets := datasets s ++ extra;
     synthetic_generations := synthetic_generations s;
     privacy_metrics := privacy_metrics s;
     utility_metrics := utility_metrics s;
     compliance_reports := compliance_reports s |}.

Definition withStore (s : Store) (w : World) : World :=
  {| store := s; requests := requests w; timers := timers w;
     downloads := downloads w; clock_reads := clock_reads w;
     rng_draws := rng_draws w |}.

(** A dataset in a project of a user other than the signed-in one. *)
Definition foreign (s : Store) (u : Auth.User) (d : Row Dataset.t) : bool :=
  match ownerOf s d with
  | Some v => negb (eqb v (Auth.id u))
  | None => false
  end.

Definition foreignDatasets (s : Store) (u : Auth.User) : list (Row Dataset.t) :=
  filter (foreign s u) (datasets s).

(** Two store states differ only in datasets owned by other users: with
    those rows left out, the datasets are the same, and so is every
    other table. *)
Definition differOnlyInForeign (u : Auth.User) (s1 s2 : Store) : Prop :=
  projects s1 = projects s2 /\
  synthetic_generations s1 = synthetic_generations s2 /\
  privacy_metrics s1 = privacy_metrics s2 /\
  utility_metrics s1 = utility_metrics s2 /\
  compliance_reports s1 = compliance_reports s2 /\
  filter (fun d => negb (foreign s1 u d)) (datasets s1)
  = filter (fun d => negb (foreign s2 u d)) (datasets s2).

(** All three count queries of a run are served. *)
Definition served (env : Env) (w : World) : Prop :=
  let k := List.length (requests w) in
  (exists i, net env k = Served i) /\
  (exists i, net env (1 + k) = Served i) /\
  (exists i, net env (2 + k) = Served i).

End DashboardSpec.

(** Further vocabulary: text, clocks, and the flow between the views. *)
Module FlowSpec.
Import JS Db Run.

(** A string that neither begins nor ends with white space; the empty
    string is one. *)
Definition startsVisible (s : jsstring) : bool :=
  match s with
  | [] => true
  | c :: _ => visible c
  end.

Definition trimmed (s : jsstring) : Prop :=
  startsVisible s = true /\ startsVisible (rev s) = true.

(** The number of commas of a line. *)
Definition commas (line : jsstring) : nat := count_occ N.eq_dec line comma.

Definition dot : char16 := 46%N.

(** A clock that never runs backwards. *)
Definition monotone (env : Env) : Prop :=
  forall n, (clock env n <= clock env (S n))%Z.

(** The guard at the top of [handleTemplateSelect] lets the run
    proceed. *)
Definition templateReady (props : DatasetUpload.Props) (pid : jsstring) : Prop :=
  DatasetUpload.projectId props = Some pid /\ truthy pid = true /\
  exists u, DatasetUpload.user props = Some u.

(** The timer the uploader sets after a served insert. *)
Definition uploadRedirect (nid : jsstring) : Timer :=
  {| callback := OnUploadComplete (Some nid); delay := 1500 |}.

(** What a count query contributes to the statistics: the count when it
    is served, and 0 when it is answered with an error. *)
Definition shown (o : Outcome) (n : Z) : Z :=
  match o with
  | Served _ => n
  | _ => 0%Z
  end.

(** The sensitivity heuristic, read off a string: it mentions "id",
    "name" or "phone". *)
Definition personal (s : jsstring) : Prop :=
  occursIn (str "id") s \/ occursIn (str "name") s \/ occursIn (str "phone") s.

(** The last sentence of the compliance report. *)
Definition closing : jsstring := str "of the Kenya Data Protection Act, 2019.".

End FlowSpec.

(** ** A concrete host, for running the handlers on closed inputs *)

Module Sample.
Import JS Db Run.

Definition asciiUpperChar (c : char16) : char16 :=
  if ((97 <=? c) && (c <=? 122))%N then (c - 32)%N else c.

(** Decimal digits of a natural number. *)
Definition decimal (n : N) : jsstring :=
  str (DecimalString.NilEmpty.string_of_uint (N.to_uint n)).

Definition pow10 (n : Z) : Q := (10 ^ n)%Q.

(** The decimal exponent of a positive number: the [n] with
    [10^(n-1) <= x < 10^n], searched from [n] on. *)
Fixpoint decimalExponent (fuel : nat) (x : Q) (n : Z) : Z :=
  match fuel with
  | O => n
  | Datatypes.S fuel' =>
      if Qle_bool (pow10 n) x then decimalExponent fuel' x (n + 1)
      else if Qle_bool (pow10 (n - 1)) x then n
      else decimalExponent fuel' x (n - 1)
  end.

(** The digits of [Number::toString]: the least [k] for which an
    integer [s] of [k] digits has [s * 10^(n-k)] read back as [x], and
    of two such [s] the one nearer to [x], the even one in a tie. *)
Fixpoint shortestDigits (fuel : nat) (x : Q) (n k : Z) : Z * Z :=
  let unit := pow10 (n - k) in
  let lo := Qfloor (x / unit)%Q in
  let hi := (lo + 1)%Z in
  let reads s := Qeq_bool (B64.round (inject_Z s * unit)%Q) x in
  match fuel with
  | O => (lo, k)
  | Datatypes.S fuel' =>
      match reads lo, reads hi with
      | true, true =>
          match Qcompare (x - inject_Z lo * unit)%Q (inject_Z hi * unit - x)%Q with
          | Lt => (lo, k)
          | Gt => (hi, k)
          | Eq => if Z.even lo then (lo, k) else (hi, k)
          end
      | true, false => (lo, k)
      | false, true => (hi, k)
      | false, false => shortestDigits fuel' x n (k + 1)
      end
  end.

(** [Number::toString] of a positive binary64 value. *)
Definition showPositive (x : Q) : jsstring :=
  let n0 := decimalExponent 700 x 0 in
  let (s0, k0) := shortestDigits 17 x n0 1 in
  (* the digits 10...0 stand for 1 with the next exponent *)
  let carried := Qeq_bool (inject_Z s0) (pow10 k0) in
  let s := if carried then 1%Z else s0 in
  let n := if carried then (n0 + 1)%Z else n0 in
  let ds := decimal (Z.to_N s) in
  let k := Z.of_nat (List.length ds) in
  if ((k <=? n) && (n <=? 21))%Z then ds ++ repeat 48%N (Z.to_nat (n - k))
  else if ((0 <? n) && (n <=? 21))%Z then
    firstn (Z.to_nat n) ds ++ str "." ++ skipn (Z.to_nat n) ds
  else if ((-6 <? n) && (n <=? 0))%Z then
    str "0." ++ repeat 48%N (Z.to_nat (- n)) ++ ds
  else
    let e := (n - 1)%Z in
    match ds with
    | [] => []
    | d :: rest =>
        (d :: match rest with [] => [] | _ => str "." ++ rest end) ++
        str "e" ++ (if (0 <=? e)%Z then str "+" else str "-") ++
        decimal (Z.to_N (Z.abs e))
    end.

(** [Number::toString] in radix 10, on binary64 values. *)
Definition showNumber (x : number) : jsstring :=
  match x with
  | Finite q =>
      match Qcompare q 0%Q with
      | Eq => str "0"
      | Gt => showPositive q
      | Lt => str "-" ++ showPositive (- q)%Q
      end
  | NaN => str "NaN"
  | PosInfinity => str "Infinity"
  | NegInfinity => str "-Infinity"
  end.

(** A non-negative value rounded to [digits] decimals. *)
Definition showFixed (q : Q) (digits : nat) : jsstring :=
  let unit := (10 ^ Z.of_nat digits)%Z in
  let n := Qfloor (q * inject_Z unit + (1 # 2))%Q in
  let frac := decimal (Z.to_N (n mod unit)%Z) in
  decimal (Z.to_N (n / unit)%Z) ++
  match digits with
  | O => []
  | _ => str "." ++ repeat 48%N (digits - List.length frac) ++ frac
  end.

(** Dates print as their epoch milliseconds. *)
Definition showDate (t : isoString) : jsstring :=
  showNumber (Finite (inject_Z (epoch_ms t))).

Definition host : Platform :=
  {| toLowerCase := asciiLower;
     toUpperCase := map asciiUpperChar;
     numberToString := showNumber;
     numberToLocaleString := showNumber;
     toFixed := showFixed;
     dateToLocaleString := showDate;
     dateToLocaleDateString := showDate;
     typeErrorMessage := fun missing property =>
       str "Cannot read properties of " ++ missing ++
       str " (reading '" ++ property ++ str "')";
     rangeErrorMessage := str "Invalid time value" |}.

(** An environment in which the clock advances by one millisecond per
    reading, every draw is one half, and every request is served. *)
Definition calm : Env :=
  {| clock := fun n => (1700000000000 + Z.of_nat n)%Z;
     rng := fun _ => (1 # 2)%Q;
     net := fun n => Served (str "row-" ++ decimal (N.of_nat n)) |}.

Definition alice : Auth.User :=
  {| Auth.id := str "user-alice"; Auth.email := str "alice@example.org" |}.

(** A file with the header [a,b,id], two data lines, a blank line
    between them and a final newline. *)
Definition csvFile : DatasetUpload.File :=
  {| DatasetUpload.name := str "people.csv";
     DatasetUpload.type := str "text/csv";
     DatasetUpload.text :=
       str "a,b,id" ++ [newline] ++ str "1,2,3" ++ [newline] ++ str "  " ++
       [newline] ++ str "4,5,6" ++ [newline] |}.

(** A file of blank lines only. *)
Definition blankFile : DatasetUpload.File :=
  {| DatasetUpload.name := str "empty.csv";
     DatasetUpload.type := str "text/csv";
     DatasetUpload.text := str "  " ++ [newline; 9%N; newline] |}.

Definition pdfFile : DatasetUpload.File :=
  {| DatasetUpload.name := str "notes.pdf";
     DatasetUpload.type := str "application/pdf";
     DatasetUpload.text := str "%PDF-1.7" |}.

Definition uploadProps : DatasetUpload.Props :=
  {| DatasetUpload.projectId := Some (str "project-1");
     DatasetUpload.user := Some alice |}.

(** The uploader with [file] pending and the form filled in. *)
Definition uploadState (file : option DatasetUpload.File) : DatasetUpload.State :=
  {| DatasetUpload.file := file;
     DatasetUpload.uploading := false;
     DatasetUpload.error := [];
     DatasetUpload.success := false;
     DatasetUpload.datasetName := str "people";
     DatasetUpload.description := str "a sample" |}.

(** Runs of the uploader over an empty store: the CSV file and the
    blank file uploaded, and the PDF selected while the CSV is pending. *)
Definition uploaded : Result unit * DatasetUpload.State * World :=
  DatasetUpload.handleUpload (P := host) uploadProps calm
    (uploadState (Some csvFile)) (initial Db.empty).

Definition uploadedBlank : Result unit * DatasetUpload.State * World :=
  DatasetUpload.handleUpload (P := host) uploadProps calm
    (uploadState (Some blankFile)) (initial Db.empty).

Definition selectedPdf : Result unit * DatasetUpload.State * World :=
  DatasetUpload.handleFileChange (Some [pdfFile]) calm
    (uploadState (Some csvFile)) (initial Db.empty).

Definition generatorProps : SyntheticGenerator.Props :=
  {| SyntheticGenerator.datasetId := Some (str "dataset-1");
     SyntheticGenerator.user := Some alice |}.

(** The generation form with epsilon 1.0 and k 5. *)
Definition generatorState : SyntheticGenerator.State :=
  {| SyntheticGenerator.dataset := None;
     SyntheticGenerator.loading := false;
     SyntheticGenerator.generating := false;
     SyntheticGenerator.success := false;
     SyntheticGenerator.error := [];
     SyntheticGenerator.params :=
       {| Params.model_type := str "ctgan";
          Params.row_count := Finite (inject_Z 10000);
          Params.epsilon := Finite (inject_Z 1);
          Params.k_anonymity := Finite (inject_Z 5) |} |}.

(** As [calm], except that the second request, the privacy_metrics
    insert of a generation run, is answered with an error. *)
Definition flaky : Env :=
  {| clock := clock calm;
     rng := rng calm;
     net := fun n =>
       match n with
       | 1%nat => ErrorResponse {| message := str "permission denied" |}
       | _ => net calm n
       end |}.

(** As [calm], except that the second request rejects. *)
Definition offline : Env :=
  {| clock := clock calm;
     rng := rng calm;
     net := fun n =>
       match n with
       | 1%nat => Reject {| message := str "Failed to fetch" |}
       | _ => net calm n
       end |}.

(** The run of the generation trigger over an empty store, in each of
    the three environments. *)
Definition generated : Result unit * SyntheticGenerator.State * World :=
  SyntheticGenerator.handleGenerate (P := host) generatorProps calm
    generatorState (initial Db.empty).

Definition generatedFlaky : Result unit * SyntheticGenerator.State * World :=
  SyntheticGenerator.handleGenerate (P := host) generatorProps flaky
    generatorState (initial Db.empty).

Definition generatedOffline : Result unit * SyntheticGenerator.State * World :=
  SyntheticGenerator.handleGenerate (P := host) generatorProps offline
    generatorState (initial Db.empty).

(** A generation as the metrics viewer loads it, with one report. *)
Definition viewedGeneration : PrivacyMetricsView.Generation :=
  let data :=
    ComplianceReport.report_data
      (SyntheticGenerator.complianceData (P := host)
         (SyntheticGenerator.params generatorState)
         (str "3f2b8c1e-5d4a-4c6b-9e0f-1a2b3c4d5e6f")
         1700000000002
         (ISO (1700000000003 + SyntheticGenerator.validityWindow))) in
  {| PrivacyMetricsView.id := str "3f2b8c1e-5d4a-4c6b-9e0f-1a2b3c4d5e6f";
     PrivacyMetricsView.dataset_id := str "dataset-1";
     PrivacyMetricsView.model_type := str "ctgan";
     PrivacyMetricsView.row_count := Finite (inject_Z 10000);
     PrivacyMetricsView.status := str "completed";
     PrivacyMetricsView.created_at := ISO 1700000000000;
     PrivacyMetricsView.dataset_name := str "people";
     PrivacyMetricsView.privacy_metrics := [];
     PrivacyMetricsView.utility_metrics := [];
     PrivacyMetricsView.compliance_reports :=
       [{| PrivacyMetricsView.report_type := str "kenya_dpa";
           PrivacyMetricsView.compliance_status := str "compliant";
           PrivacyMetricsView.report_data := data;
           PrivacyMetricsView.generated_at := ISO 1700000000004 |}] |}.

Definition viewerState : PrivacyMetricsView.State :=
  {| PrivacyMetricsView.generations := [viewedGeneration];
     PrivacyMetricsView.selectedGen := Some viewedGeneration;
     PrivacyMetricsView.loading := false |}.

Definition exported : Result unit * PrivacyMetricsView.State * World :=
  PrivacyMetricsView.downloadComplianceReport (P := host) viewedGeneration
    calm viewerState (initial Db.empty).

Definition bob : Auth.User :=
  {| Auth.id := str "user-bob"; Auth.email := str "bob@example.org" |}.

(** A store with one project of Alice and one of Bob, and a dataset in
    Alice's project. *)
Definition sharedStore : Store :=
  {| projects :=
       [{| id := str "project-1";
           fields := {| Project.user_id := Auth.id alice;
                        Project.name := str "Loans Pilot";
                        Project.description := [];
                        Project.industry := str "fintech" |} |};
        {| id := str "project-2";
           fields := {| Project.user_id := Auth.id bob;
                        Project.name := str "Claims";
                        Project.description := [];
                        Project.industry := str "insurance" |} |}];
     datasets :=
       [{| id := str "dataset-1";
           fields := DatasetUpload.newDataset (str "project-1")
                       (uploadState None) [] [] |}];
     synthetic_generations := [];
     privacy_metrics := [];
     utility_metrics := [];
     compliance_reports := [] |}.

(** A dataset in Bob's project. *)
Definition bobsDataset : Row Dataset.t :=
  {| id := str "dataset-2";
     fields := DatasetUpload.newDataset (str "project-2")
                 (uploadState None) [] [] |}.

Definition dashboardState : Dashboard.State :=
  {| Dashboard.currentView := Dashboard.ProjectsView;
     Dashboard.selectedProject := None;
     Dashboard.selectedDataset := None;
     Dashboard.stats :=
       {| Dashboard.totalProjects := 0; Dashboard.totalDatasets := 0;
          Dashboard.totalGenerations := 0; Dashboard.recentActivity := 0 |} |}.

End Sample.

(** ** Further closed inputs *)

Module Scenario.
Import JS Db Run.

(** An environment whose server answers every request with an error. *)
Definition refusing : Env :=
  {| clock := clock Sample.calm;
     rng := rng Sample.calm;
     net := fun _ => ErrorResponse {| message := str "permission denied" |} |}.

(** An environment in which every request rejects. *)
Definition unreachable : Env :=
  {| clock := clock Sample.calm;
     rng := rng Sample.calm;
     net := fun _ => Reject {| message := str "Failed to fetch" |} |}.

Definition loansTemplate : Template.t :=
  {| Template.id := str "template-1";
     Template.name := str "Mobile Loans";
     Template.description := str "Loan applications";
     Template.category := str "fintech";
     Template.schema_json :=
       [{| Column.name := str "loan_id"; Column.type := str "string";
           Column.sensitive := true |};
        {| Column.name := str "amount"; Column.type := str "number";
           Column.sensitive := false |}] |}.

(** A CSV file whose name carries the extension twice. *)
Definition backupFile : DatasetUpload.File :=
  {| DatasetUpload.name := str "people.csv.csv";
     DatasetUpload.type := str "text/csv";
     DatasetUpload.text := str "a,b" |}.

(** A CSV file with a dot in its name before the extension. *)
Definition datedFile : DatasetUpload.File :=
  {| DatasetUpload.name := str "sales.2024.csv";
     DatasetUpload.type := str "text/csv";
     DatasetUpload.text := str "a,b" |}.

(** A file whose header line has a quoted field with a comma in it. *)
Definition quotedFile : DatasetUpload.File :=
  {| DatasetUpload.name := str "quoted.csv";
     DatasetUpload.type := str "text/csv";
     DatasetUpload.text :=
       str " city , " ++ [34%N] ++ str "last, first" ++ [34%N; 13%N; newline] ++
       str "x,y,z" |}.

(** A dataset row as the single-row select returns it. *)
Definition smallDataset : Row Dataset.t :=
  {| id := str "dataset-1";
     fields := DatasetUpload.newDataset (str "project-1")
                 (Sample.uploadState None) [] [str "h"; str "1"; str "2"] |}.

(** The dashboard on the settings tab. *)
Definition onSettings : Dashboard.State :=
  {| Dashboard.currentView := Dashboard.SettingsView;
     Dashboard.selectedProject := None;
     Dashboard.selectedDataset := None;
     Dashboard.stats := Dashboard.stats Sample.dashboardState |}.

(** A generation whose privacy draws were the largest possible and
    whose utility draws were 0. *)
Definition atTheEnds : PrivacyMetricsView.Generation :=
  {| PrivacyMetricsView.id := PrivacyMetricsView.id Sample.viewedGeneration;
     PrivacyMetricsView.dataset_id := str "dataset-1";
     PrivacyMetricsView.model_type := str "ctgan";
     PrivacyMetricsView.row_count := Finite (inject_Z 10000);
     PrivacyMetricsView.status := str "completed";
     PrivacyMetricsView.created_at := ISO 1700000000000;
     PrivacyMetricsView.dataset_name := str "people";
     PrivacyMetricsView.privacy_metrics :=
       [SyntheticGenerator.privacyMetrics
          (SyntheticGenerator.params Sample.generatorState)
          (PrivacyMetricsView.id Sample.viewedGeneration)
          B64.pred_one B64.pred_one];
     PrivacyMetricsView.utility_metrics :=
       [SyntheticGenerator.utilityMetrics
          (PrivacyMetricsView.id Sample.viewedGeneration) 0 0 0 0 0];
     PrivacyMetricsView.compliance_reports := [] |}.

(** Another dataset in Bob's project. *)
Definition bobsOtherDataset : Row Dataset.t :=
  {| id := str "dataset-3";
     fields := DatasetUpload.newDataset (str "project-2")
                 (Sample.uploadState None) [] [str "h"] |}.

(** The shared store with one or the other of Bob's datasets. *)
Definition withBobs : Store :=
  DashboardSpec.withDatasets [Sample.bobsDataset] Sample.sharedStore.

Definition withBobsOther : Store :=
  DashboardSpec.withDatasets [bobsOtherDataset] Sample.sharedStore.

(** As [calm], with the clock a second short of the last date. *)
Definition lastDay : Env :=
  {| clock := fun n => (maxTime - 1000 + Z.of_nat n)%Z;
     rng := rng Sample.calm;
     net := net Sample.calm |}.

(** The generation form with epsilon 0.1 and k 5, and its run over an
    empty store. *)
Definition strictState : SyntheticGenerator.State :=
  {| SyntheticGenerator.dataset := None;
     SyntheticGenerator.loading := false;
     SyntheticGenerator.generating := false;
     SyntheticGenerator.success := false;
     SyntheticGenerator.error := [];
     SyntheticGenerator.params :=
       {| Params.model_type := str "ctgan";
          Params.row_count := Finite (inject_Z 10000);
          Params.epsilon := Finite (B64.lit (1 # 10));
          Params.k_anonymity := Finite (inject_Z 5) |} |}.

Definition generatedStrict
    : Result unit * SyntheticGenerator.State * World :=
  SyntheticGenerator.handleGenerate (P := Sample.host) Sample.generatorProps
    Sample.calm strictState (initial Db.empty).

(** The run of the generation trigger a second short of the last
    date. *)
Definition generatedLastDay
    : Result unit * SyntheticGenerator.State * World :=
  SyntheticGenerator.handleGenerate (P := Sample.host) Sample.generatorProps
    lastDay Sample.generatorState (initial Db.empty).

End Scenario.
(** ** Facts about binary64 rounding *)

Module B64Facts.
Import B64.
Open Scope Q_scope.

Lemma pow2_pos (e : Z) : 0 < pow2 e.
Proof. unfold pow2. apply Qpower_0_lt. reflexivity. Qed.

Lemma pow2_add (a b : Z) : pow2 (a + b) == pow2 a * pow2 b.
Proof. unfold pow2. apply Qpower_plus. discriminate. Qed.

Lemma pow2_le (a b : Z) : (a <= b)%Z -> pow2 a <= pow2 b.
Proof. intros H. unfold pow2. apply Qpower_le_compat_l; [exact H | discriminate]. Qed.

Lemma pow2_succ (a : Z) : pow2 (a + 1) == 2 * pow2 a.
Proof. rewrite pow2_add. change (pow2 1) with 2. ring. Qed.

Lemma pow2_inject (n : Z) : (0 <= n)%Z -> inject_Z (2 ^ n) == pow2 n.
Proof. intros H. unfold pow2. now rewrite Zpower_Qpower. Qed.

(** The integer logarithm brackets a positive integer, read in Q. *)
Lemma log2_bracket (n : Z) :
  (0 < n)%Z ->
  pow2 (Z.log2 n) <= inject_Z n /\ inject_Z n < 2 * pow2 (Z.log2 n).
Proof.
  intros Hn.
  destruct (Z.log2_spec n Hn) as [Hlo Hhi].
  pose proof (Z.log2_nonneg n) as Hnn.
  rewrite <- pow2_succ.
  rewrite <- !pow2_inject by lia.
  rewrite <- Zle_Qle, <- Zlt_Qlt.
  replace (Z.log2 n + 1)%Z with (Z.succ (Z.log2 n)) by lia.
  split; assumption.
Qed.

Lemma mag_spec (x : Q) :
  0 < x -> pow2 (mag x) <= x /\ x < pow2 (mag x + 1).
Proof.
  intros Hx.
  destruct x as [n d].
  assert (Hn : (0 < n)%Z).
  { unfold Qlt in Hx. simpl in Hx. lia. }
  unfold mag. cbn [Qnum Qden].
  set (a := Z.log2 n). set (b := Z.log2 (Zpos d)).
  destruct (log2_bracket Hn) as [HA1 HA2]. fold a in HA1, HA2.
  destruct (log2_bracket (n := Zpos d) eq_refl) as [HB1 HB2]. fold b in HB1, HB2.
  assert (HP : pow2 (a - b) * pow2 b == pow2 a).
  { rewrite <- pow2_add. replace (a - b + b)%Z with a by lia. reflexivity. }
  pose proof (pow2_pos (a - b)) as HPpos.
  pose proof (pow2_pos b) as HBpos.
  assert (HD : 0 < inject_Z (Zpos d)) by reflexivity.
  assert (Hx' : (n # d) * inject_Z (Zpos d) == inject_Z n).
  { rewrite (Qmake_Qdiv n d). field. intros E. rewrite E in HD. discriminate. }
  set (X := n # d) in *. set (D := inject_Z (Zpos d)) in *.
  set (N := inject_Z n) in *. set (P := pow2 (a - b)) in *.
  set (A := pow2 a) in *. set (B := pow2 b) in *.
  destruct (Qle_bool P X) eqn:E.
  - apply Qle_bool_iff in E. split; [exact E|].
    rewrite pow2_succ. fold P.
    apply Qnot_le_lt. intros Hc.
    assert (2 * P * B <= 2 * P * D) by nra.
    assert (2 * P * D <= X * D) by nra.
    nra.
  - assert (E' : X < P).
    { apply Qnot_le_lt. intros Hc. apply Qle_bool_iff in Hc. congruence. }
    split; [|replace (a - b - 1 + 1)%Z with (a - b)%Z by lia; exact E'].
    assert (Hh : 2 * pow2 (a - b - 1) == P).
    { rewrite <- pow2_succ. replace (a - b - 1 + 1)%Z with (a - b)%Z by lia. reflexivity. }
    apply Qnot_lt_le. intros Hc.
    assert (P * D < 2 * P * B) by nra.
    assert (2 * X * D < P * D) by nra.
    nra.
Qed.

Lemma fexp_ge (x : Q) : (-1074 <= fexp x)%Z.
Proof. unfold fexp. lia. Qed.

Lemma fexp_lower (x : Q) :
  0 < x -> (-1074 < fexp x)%Z -> pow2 52 * pow2 (fexp x) <= x.
Proof.
  intros Hx He. destruct (mag_spec Hx) as [Hlo _].
  unfold fexp in *.
  replace (Z.max (mag x - 52) (-1074)) with (mag x - 52)%Z in * by lia.
  rewrite <- pow2_add.
  replace (52 + (mag x - 52))%Z with (mag x) by lia. exact Hlo.
Qed.

Lemma fexp_upper (x : Q) : 0 < x -> x < pow2 53 * pow2 (fexp x).
Proof.
  intros Hx. destruct (mag_spec Hx) as [_ Hhi].
  rewrite <- pow2_add.
  eapply Qlt_le_trans; [exact Hhi|].
  apply pow2_le. unfold fexp. lia.
Qed.

(** *** Rounding to the nearest integer *)

Lemma rne_floor_or_succ (q : Q) :
  rne q = Qfloor q \/ rne q = (Qfloor q + 1)%Z.
Proof.
  unfold rne.
  destruct (Qcompare (q - inject_Z (Qfloor q)) (1 # 2)); auto.
  destruct (Z.even (Qfloor q)); auto.
Qed.

Lemma rne_Z (n : Z) : rne (inject_Z n) = n.
Proof.
  unfold rne. rewrite Qfloor_Z.
  destruct (Qcompare_spec (inject_Z n - inject_Z n) (1 # 2)) as [H | H | H];
    [exfalso; lra | reflexivity | exfalso; lra].
Qed.

Lemma rne_mono (p q : Q) : p <= q -> (rne p <= rne q)%Z.
Proof.
  intros Hpq.
  pose proof (Qfloor_resp_le _ _ Hpq) as Hf.
  destruct (Z.eq_dec (Qfloor p) (Qfloor q)) as [E | NE].
  - unfold rne. rewrite E.
    set (f := Qfloor q) in *.
    destruct (Qcompare_spec (p - inject_Z f) (1 # 2)) as [Hp | Hp | Hp],
             (Qcompare_spec (q - inject_Z f) (1 # 2)) as [Hq | Hq | Hq];
      try destruct (Z.even f); try lia; exfalso; lra.
  - destruct (rne_floor_or_succ p) as [-> | ->],
             (rne_floor_or_succ q) as [-> | ->]; lia.
Qed.

Lemma rne_le_int (q : Q) (n : Z) : q <= inject_Z n -> (rne q <= n)%Z.
Proof. intros H. rewrite <- (rne_Z n). now apply rne_mono. Qed.

Lemma rne_ge_int (q : Q) (n : Z) : inject_Z n <= q -> (n <= rne q)%Z.
Proof. intros H. rewrite <- (rne_Z n). now apply rne_mono. Qed.

(** *** Monotonicity of binary64 rounding *)

Lemma scaled_le (x y : Q) (e : Z) : x <= y -> x / pow2 e <= y / pow2 e.
Proof.
  intros H. pose proof (pow2_pos e) as He.
  unfold Qdiv. apply Qmult_le_compat_r; [exact H|].
  apply Qlt_le_weak, Qinv_lt_0_compat, He.
Qed.

Lemma round_pos_upper (x : Q) :
  0 < x -> round_pos x <= pow2 53 * pow2 (fexp x).
Proof.
  intros Hx. unfold round_pos.
  pose proof (pow2_pos (fexp x)) as He.
  apply Qmult_le_compat_r; [|lra].
  rewrite <- (pow2_inject (n := 53)) by lia.
  rewrite <- Zle_Qle. apply rne_le_int.
  rewrite pow2_inject by lia.
  apply Qle_shift_div_r; [exact He|].
  apply Qlt_le_weak, fexp_upper, Hx.
Qed.

Lemma round_pos_lower (x : Q) :
  0 < x -> (-1074 < fexp x)%Z -> pow2 52 * pow2 (fexp x) <= round_pos x.
Proof.
  intros Hx Hn. unfold round_pos.
  pose proof (pow2_pos (fexp x)) as He.
  apply Qmult_le_compat_r; [|lra].
  rewrite <- (pow2_inject (n := 52)) by lia.
  rewrite <- Zle_Qle. apply rne_ge_int.
  rewrite pow2_inject by lia.
  apply Qle_shift_div_l; [exact He|].
  now apply fexp_lower.
Qed.

Lemma round_pos_nonneg (x : Q) : 0 < x -> 0 <= round_pos x.
Proof.
  intros Hx. unfold round_pos.
  pose proof (pow2_pos (fexp x)) as He.
  apply Qmult_le_0_compat; [|lra].
  change 0 with (inject_Z 0). rewrite <- Zle_Qle. apply rne_ge_int.
  change (inject_Z 0) with 0.
  apply Qle_shift_div_l; [exact He|]. lra.
Qed.

Lemma round_pos_mono (x y : Q) :
  0 < x -> x <= y -> round_pos x <= round_pos y.
Proof.
  intros Hx Hxy.
  assert (Hy : 0 < y) by lra.
  destruct (Z.lt_total (fexp x) (fexp y)) as [Hlt | [Heq | Hgt]].
  - (* x lies in a lower binade than y *)
    pose proof (fexp_ge x).
    eapply Qle_trans; [apply (round_pos_upper Hx)|].
    eapply Qle_trans; [|apply (round_pos_lower Hy); lia].
    assert (Hle : pow2 (fexp x + 1) <= pow2 (fexp y)) by (apply pow2_le; lia).
    rewrite pow2_succ in Hle.
    change (pow2 53) with (2 * pow2 52).
    pose proof (pow2_pos 52). pose proof (pow2_pos (fexp x)).
    nra.
  - unfold round_pos. rewrite Heq.
    pose proof (pow2_pos (fexp y)) as He.
    apply Qmult_le_compat_r; [|lra].
    rewrite <- Zle_Qle. apply rne_mono. now apply scaled_le.
  - exfalso.
    pose proof (fexp_ge y).
    assert (H1 : pow2 52 * pow2 (fexp x) <= x) by (apply fexp_lower; [exact Hx | lia]).
    pose proof (fexp_upper Hy) as H2.
    assert (Hle : pow2 (fexp y + 1) <= pow2 (fexp x)) by (apply pow2_le; lia).
    rewrite pow2_succ in Hle.
    change (pow2 53) with (2 * pow2 52) in H2.
    pose proof (pow2_pos 52). pose proof (pow2_pos (fexp y)).
    nra.
Qed.

Theorem round_mono (x y : Q) : 0 <= x -> x <= y -> round x <= round y.
Proof.
  intros Hx Hxy. unfold round.
  destruct (Qcompare_spec x 0) as [Ex | Ex | Ex],
           (Qcompare_spec y 0) as [Ey | Ey | Ey]; try lra.
  - now apply round_pos_nonneg.
  - now apply round_pos_mono.
Qed.

(** *** The largest binary64 value below one *)

Lemma representable_below_one (r : Q) :
  representable r -> 0 <= r -> r < 1 -> r <= pred_one.
Proof.
  unfold representable, round. intros Hrep H0 H1.
  destruct (Qcompare_spec r 0) as [E | E | E]; try lra.
  - rewrite E. unfold pred_one. vm_compute. discriminate.
  - unfold round_pos in Hrep.
    set (m := rne (r / pow2 (fexp r))) in *. set (e := fexp r) in *.
    destruct (Z_lt_le_dec e (-53)) as [Hsmall | Hbig].
    + pose proof (fexp_upper E) as Hu. fold e in Hu.
      assert (Hle : pow2 e <= pow2 (-54)) by (apply pow2_le; lia).
      assert (Hc : pow2 53 * pow2 (-54) <= pred_one) by (vm_compute; discriminate).
      pose proof (pow2_pos 53). pose proof (pow2_pos e).
      nra.
    + assert (Hs : r * pow2 53 == inject_Z (m * 2 ^ (e + 53))).
      { rewrite <- Hrep at 1. rewrite inject_Z_mult, pow2_inject by lia.
        rewrite pow2_add. ring. }
      assert (Hk : (m * 2 ^ (e + 53) < 2 ^ 53)%Z).
      { rewrite Zlt_Qlt, <- Hs, pow2_inject by lia.
        pose proof (pow2_pos 53). nra. }
      assert (Hk' : (m * 2 ^ (e + 53) <= 2 ^ 53 - 1)%Z) by lia.
      rewrite Zle_Qle, <- Hs in Hk'.
      assert (Hc : inject_Z (2 ^ 53 - 1) == pred_one * pow2 53)
        by (vm_compute; reflexivity).
      rewrite Hc in Hk'.
      pose proof (pow2_pos 53). nra.
Qed.

(** *** Rounded values are binary64 values *)

Lemma mag_unique (x : Q) (k : Z) :
  0 < x -> pow2 k <= x -> x < pow2 (k + 1) -> mag x = k.
Proof.
  intros Hx Hlo Hhi. destruct (mag_spec Hx) as [Mlo Mhi].
  destruct (Z.lt_total (mag x) k) as [Hlt | [Heq | Hgt]]; [| exact Heq |].
  - exfalso. assert (pow2 (mag x + 1) <= pow2 k) by (apply pow2_le; lia). lra.
  - exfalso. assert (pow2 (k + 1) <= pow2 (mag x)) by (apply pow2_le; lia). lra.
Qed.

Lemma rne_comp (p q : Q) : p == q -> rne p = rne q.
Proof.
  intros E. unfold rne. rewrite (Qfloor_comp _ _ E).
  assert (E' : p - inject_Z (Qfloor q) == q - inject_Z (Qfloor q))
    by (rewrite E; reflexivity).
  now rewrite (Qcompare_comp _ _ E' _ _ (Qeq_refl (1 # 2))).
Qed.

Lemma rne_int (q : Q) (n : Z) : q == inject_Z n -> rne q = n.
Proof. intros E. rewrite (rne_comp E). apply rne_Z. Qed.

(** A positive multiple [m * 2^e] of a unit in the last place, with at
    most 53 bits and an exponent in range, is left alone by rounding. *)
Lemma round_pos_fixes (m e : Z) :
  (0 < m <= 2 ^ 53)%Z -> (-1074 <= e)%Z ->
  round_pos (inject_Z m * pow2 e) == inject_Z m * pow2 e.
Proof.
  intros [Hm0 Hm53] He.
  set (y := inject_Z m * pow2 e).
  pose proof (pow2_pos e) as Hpe.
  assert (Hy : 0 < y).
  { unfold y. apply Qmult_lt_0_compat; [| exact Hpe].
    change 0 with (inject_Z 0). now rewrite <- Zlt_Qlt. }
  destruct (log2_bracket Hm0) as [Llo Lhi].
  set (j := Z.log2 m) in *.
  assert (Hj0 : (0 <= j)%Z) by apply Z.log2_nonneg.
  assert (Hmag : mag y = (j + e)%Z).
  { apply mag_unique; [exact Hy | |].
    - rewrite pow2_add. unfold y. apply Qmult_le_compat_r; [exact Llo | lra].
    - replace (j + e + 1)%Z with ((j + 1) + e)%Z by lia.
      rewrite pow2_add, pow2_succ. unfold y.
      apply Qmult_lt_compat_r; [exact Hpe | exact Lhi]. }
  assert (Hj53 : (j <= 53)%Z).
  { unfold j. rewrite <- (Z.log2_pow2 53) by lia.
    apply Z.log2_le_mono. exact Hm53. }
  unfold round_pos. fold y.
  set (e' := fexp y).
  assert (He' : e' = Z.max (j + e - 52) (-1074)) by (unfold e', fexp; now rewrite Hmag).
  pose proof (pow2_pos e') as Hpe'.
  destruct (Z_le_gt_dec e' e) as [Hle | Hgt].
  - (* the unit of [y] is at most [2^e]: [y / 2^e'] is an integer *)
    assert (Hsplit : pow2 e == pow2 (e - e') * pow2 e').
    { rewrite <- pow2_add. replace (e - e' + e')%Z with e by lia. reflexivity. }
    assert (Hint : y / pow2 e' == inject_Z (m * 2 ^ (e - e'))).
    { rewrite inject_Z_mult, pow2_inject by lia. unfold y. rewrite Hsplit.
      field. lra. }
    rewrite (rne_int Hint), inject_Z_mult, pow2_inject by lia.
    unfold y. rewrite Hsplit. ring.
  - (* otherwise [m] is [2^53] and the unit doubles *)
    assert (Hj : j = 53%Z) by lia.
    assert (He1 : e' = (e + 1)%Z) by lia.
    assert (Hm : m = (2 ^ 53)%Z).
    { apply Z.le_antisymm; [exact Hm53 |].
      rewrite Zle_Qle, pow2_inject by lia. rewrite <- Hj. exact Llo. }
    assert (Hint : y / pow2 e' == inject_Z (2 ^ 52)).
    { unfold y. rewrite He1, Hm, pow2_succ, !pow2_inject by lia.
      change (pow2 53) with (2 * pow2 52). field. lra. }
    rewrite (rne_int Hint). unfold y.
    rewrite He1, Hm, pow2_succ, !pow2_inject by lia.
    change (pow2 53) with (2 * pow2 52). ring.
Qed.

Lemma round_pos_shape (x : Q) :
  0 < x ->
  round_pos x == 0 \/
  exists m e, (0 < m <= 2 ^ 53)%Z /\ (-1074 <= e)%Z /\
              round_pos x == inject_Z m * pow2 e.
Proof.
  intros Hx. unfold round_pos.
  set (e := fexp x). set (m := rne (x / pow2 e)).
  pose proof (pow2_pos e) as Hpe.
  assert (Hm0 : (0 <= m)%Z).
  { apply rne_ge_int. change (inject_Z 0) with 0.
    apply Qle_shift_div_l; [exact Hpe | lra]. }
  assert (Hm53 : (m <= 2 ^ 53)%Z).
  { apply rne_le_int. rewrite pow2_inject by lia.
    apply Qle_shift_div_r; [exact Hpe |].
    apply Qlt_le_weak. apply (fexp_upper Hx). }
  destruct (Z.eq_dec m 0) as [-> | Hne].
  - left. ring.
  - right. exists m, e. repeat split; try lia; try reflexivity. apply fexp_ge.
Qed.

Lemma round_of_zero (x : Q) : x == 0 -> round x = 0.
Proof.
  intros E. unfold round. destruct (Qcompare_spec x 0); try reflexivity; lra.
Qed.

Lemma round_of_pos (x : Q) : 0 < x -> round x = round_pos x.
Proof.
  intros E. unfold round. destruct (Qcompare_spec x 0); try reflexivity; lra.
Qed.

Lemma round_of_neg (x : Q) : x < 0 -> round x = - round_pos (- x).
Proof.
  intros E. unfold round. destruct (Qcompare_spec x 0); try reflexivity; lra.
Qed.

Lemma mag_comp (x y : Q) : 0 < x -> x == y -> mag x = mag y.
Proof.
  intros Hx E. destruct (mag_spec Hx) as [Mlo Mhi].
  symmetry. apply mag_unique; rewrite <- E; assumption.
Qed.

Lemma round_pos_comp (x y : Q) : 0 < x -> x == y -> round_pos x == round_pos y.
Proof.
  intros Hx E. unfold round_pos, fexp. rewrite (mag_comp Hx E).
  assert (Hr : rne (x / pow2 (Z.max (mag y - 52) (-1074)))
               = rne (y / pow2 (Z.max (mag y - 52) (-1074))))
    by (apply rne_comp; now rewrite E).
  now rewrite Hr.
Qed.

Lemma round_pos_idem (x : Q) :
  0 < x -> 0 < round_pos x -> round_pos (round_pos x) == round_pos x.
Proof.
  intros Hx Hpos.
  destruct (round_pos_shape Hx) as [E | (m & e & Hm & He & E)]; [lra |].
  rewrite (round_pos_comp Hpos E), (round_pos_fixes Hm He). symmetry. exact E.
Qed.

(** Rounding yields a binary64 value: rounding again changes nothing. *)
Theorem round_representable (x : Q) : representable (round x).
Proof.
  unfold representable.
  destruct (Qcompare_spec x 0) as [E | E | E].
  - rewrite (round_of_zero E). reflexivity.
  - assert (Hx : 0 < - x) by lra.
    rewrite (round_of_neg E).
    pose proof (round_pos_nonneg Hx) as Hnn.
    destruct (Qle_lt_or_eq _ _ Hnn) as [Hpos | Hz].
    + assert (Hneg : - round_pos (- x) < 0) by lra.
      rewrite (round_of_neg Hneg).
      assert (Hopp : - - round_pos (- x) == round_pos (- x)) by ring.
      assert (Hpos' : 0 < - - round_pos (- x)) by lra.
      rewrite (round_pos_comp Hpos' Hopp), (round_pos_idem Hx Hpos).
      reflexivity.
    + assert (Hz' : - round_pos (- x) == 0) by lra.
      rewrite (round_of_zero Hz'). lra.
  - rewrite (round_of_pos E).
    pose proof (round_pos_nonneg E) as Hnn.
    destruct (Qle_lt_or_eq _ _ Hnn) as [Hpos | Hz].
    + rewrite (round_of_pos Hpos). now apply round_pos_idem.
    + assert (Hz' : round_pos x == 0) by lra.
      rewrite (round_of_zero Hz'). lra.
Qed.

(** Rounding moves a positive value by at most half a unit in the last
    place. *)
Lemma rne_near (q : Q) :
  inject_Z (rne q) - q <= 1 # 2 /\ q - inject_Z (rne q) <= 1 # 2.
Proof.
  unfold rne.
  pose proof (Qfloor_le q) as Hlo. pose proof (Qlt_floor q) as Hhi.
  rewrite inject_Z_plus in Hhi. change (inject_Z 1) with 1 in Hhi.
  destruct (Qcompare_spec (q - inject_Z (Qfloor q)) (1 # 2)) as [E | E | E];
    [destruct (Z.even (Qfloor q)) | |];
    rewrite ?inject_Z_plus; change (inject_Z 1) with 1; split; lra.
Qed.

Theorem round_pos_near (x : Q) :
  0 < x ->
  round_pos x - x <= pow2 (fexp x - 1) /\ x - round_pos x <= pow2 (fexp x - 1).
Proof.
  intros Hx. unfold round_pos.
  set (e := fexp x). pose proof (pow2_pos e) as Hpe.
  destruct (rne_near (x / pow2 e)) as [H1 H2].
  assert (Hhalf : pow2 (e - 1) == (1 # 2) * pow2 e).
  { assert (H : pow2 e == 2 * pow2 (e - 1)).
    { rewrite <- pow2_succ. replace (e - 1 + 1)%Z with e by lia. reflexivity. }
    rewrite H. ring. }
  assert (Hx' : x == (x / pow2 e) * pow2 e) by (field; lra).
  rewrite Hhalf. set (q := x / pow2 e) in *.
  assert (Hup : (inject_Z (rne q) - q) * pow2 e <= (1 # 2) * pow2 e)
    by (apply Qmult_le_compat_r; lra).
  assert (Hdn : (q - inject_Z (rne q)) * pow2 e <= (1 # 2) * pow2 e)
    by (apply Qmult_le_compat_r; lra).
  split; rewrite Hx' at 1; [lra | lra].
Qed.

(** *** The model against known binary64 results *)

Example tenth : lit (1 # 10) == 3602879701896397 # 36028797018963968.
Proof. vm_compute. reflexivity. Qed.

(** [0.1 + 0.2] is [0.30000000000000004]. *)
Example tenth_plus_fifth :
  add (lit (1 # 10)) (lit (2 # 10)) == 1351079888211149 # 4503599627370496.
Proof. vm_compute. reflexivity. Qed.

(** [0.05 + 0.10] is [0.15000000000000002], above the literal [0.15]:
    the upper end of an interval is kept only because a draw is below
    one. *)
Example sum_of_ends_exceeds :
  lit (15 # 100) < add (lit (5 # 100)) (lit (10 # 100)).
Proof. vm_compute. reflexivity. Qed.

Example largest_draw_reaches_end :
  add (lit (5 # 100)) (mul pred_one (lit (10 # 100))) == lit (15 # 100).
Proof. vm_compute. reflexivity. Qed.

Example pred_one_representable : representable pred_one.
Proof. unfold representable. vm_compute. reflexivity. Qed.

End B64Facts.

(** ** Facts about the string operations *)

Module JSFacts.
Import JS.

Lemma eqb_eq (s t : jsstring) : eqb s t = true <-> s = t.
Proof.
  revert t. induction s as [| c s IH]; intros [| d t]; simpl;
    try (split; [discriminate | congruence]); try tauto.
  unfold char_eqb. rewrite andb_true_iff, N.eqb_eq, IH.
  split; [intros [-> ->]; reflexivity | intros E; inversion E; auto].
Qed.

Lemma eqb_refl (s : jsstring) : eqb s s = true.
Proof. now apply eqb_eq. Qed.

Lemma startsWith_spec (s pat : jsstring) :
  startsWith s pat = true <-> exists post, s = pat ++ post.
Proof.
  revert s. induction pat as [| p pat IH]; intros s.
  - destruct s; simpl; split; eauto.
  - destruct s as [| c s]; simpl.
    + split; [discriminate | intros [post E]; discriminate].
    + unfold char_eqb. rewrite andb_true_iff, N.eqb_eq, IH. split.
      * intros [-> [post ->]]. now exists post.
      * intros [post E]. inversion E; subst. split; eauto.
Qed.

Lemma includes_spec (s pat : jsstring) :
  includes s pat = true <-> occursIn pat s.
Proof.
  unfold occursIn. induction s as [| c s IH].
  - cbn [includes]. rewrite orb_false_r, startsWith_spec. split.
    + intros [post E]. exists [], post. exact E.
    + intros [pre [post E]]. destruct pre; [now exists post |].
      discriminate.
  - cbn [includes]. rewrite orb_true_iff, startsWith_spec, IH. split.
    + intros [[post E] | [pre [post E]]].
      * exists [], post. exact E.
      * exists (c :: pre), post. simpl. now rewrite E.
    + intros [pre [post E]]. destruct pre as [| c' pre].
      * left. now exists post.
      * right. inversion E. now exists pre, post.
Qed.

Lemma existsb_rev {A} (f : A -> bool) (l : list A) :
  existsb f (rev l) = existsb f l.
Proof.
  induction l as [| a l IH]; simpl; [reflexivity |].
  rewrite existsb_app, IH. simpl. rewrite orb_false_r. apply orb_comm.
Qed.

Lemma trimStart_visible (s : jsstring) :
  existsb visible (trimStart s) = existsb visible s.
Proof.
  induction s as [| c s IH]; simpl; [reflexivity |].
  unfold visible at 2. destruct (isWhiteSpace c) eqn:E; simpl.
  - exact IH.
  - unfold visible at 1. now rewrite E.
Qed.

Lemma truthy_trimStart (s : jsstring) :
  truthy (trimStart s) = existsb visible s.
Proof.
  induction s as [| c s IH]; simpl; [reflexivity |].
  unfold visible at 1. destruct (isWhiteSpace c); simpl; auto.
Qed.

Lemma truthy_rev (s : jsstring) : truthy (rev s) = truthy s.
Proof.
  destruct s as [| c s]; simpl; [reflexivity |].
  destruct (rev s); reflexivity.
Qed.

(** A string survives [trim] exactly when it has a visible code unit. *)
Lemma truthy_trim (s : jsstring) : truthy (trim s) = existsb visible s.
Proof.
  unfold trim, trimEnd.
  now rewrite truthy_rev, truthy_trimStart, existsb_rev, trimStart_visible.
Qed.

Lemma split_nonempty (sep : char16) (s : jsstring) : split sep s <> [].
Proof.
  destruct s as [| c s]; simpl; [discriminate |].
  destruct (char_eqb c sep); [discriminate |].
  destruct (split sep s); discriminate.
Qed.

Lemma orElse_truthy (a b : jsstring) :
  truthy b = true -> truthy (orElse a b) = true.
Proof. unfold orElse. destruct (truthy a) eqn:E; auto. Qed.

Lemma filter_head {A} (p : A -> bool) (l : list A) :
  hd_error (filter p l) = find p l.
Proof.
  induction l as [| a l IH]; simpl; [reflexivity |].
  destruct (p a); simpl; auto.
Qed.

Lemma isAscii_check (s : jsstring) :
  forallb (fun c => (c <? 128)%N) s = true -> isAscii s.
Proof.
  unfold isAscii. rewrite forallb_forall, Forall_forall.
  intros H c Hc. apply N.ltb_lt. auto.
Qed.

End JSFacts.

(** ** Further facts about the string operations *)

Module TextFacts.
Import JS JSFacts FlowSpec.

Lemma split_length (sep : char16) (s : jsstring) :
  List.length (split sep s) = S (count_occ N.eq_dec s sep).
Proof.
  induction s as [| c s IH]; [reflexivity |].
  cbn [split count_occ]. unfold char_eqb.
  destruct (N.eqb_spec c sep) as [-> | Hne].
  - destruct (N.eq_dec sep sep); [| congruence]. cbn [List.length]. now rewrite IH.
  - destruct (N.eq_dec c sep); [congruence |].
    destruct (split sep s); [discriminate IH | exact IH].
Qed.

Lemma split_no_separator (sep : char16) (s : jsstring) :
  Forall (fun piece => ~ In sep piece) (split sep s).
Proof.
  induction s as [| c s IH]; [repeat constructor; auto |].
  cbn [split]. unfold char_eqb.
  destruct (N.eqb_spec c sep) as [-> | Hne].
  - constructor; auto.
  - destruct (split sep s) as [| p ps].
    + repeat constructor. intros [E | []]. congruence.
    + inversion IH; subst. constructor; auto.
      intros [E | Hin]; [congruence | contradiction].
Qed.

(** *** Trimming *)

Lemma trimStart_decomposes (s : jsstring) :
  exists ws, s = ws ++ trimStart s /\ forallb isWhiteSpace ws = true.
Proof.
  induction s as [| c s (ws & E & Hws)]; [now exists [] |].
  cbn [trimStart]. destruct (isWhiteSpace c) eqn:Hc.
  - exists (c :: ws). cbn [app forallb]. rewrite Hc, Hws. now rewrite <- E.
  - now exists [].
Qed.

Lemma trimStart_startsVisible (s : jsstring) : startsVisible (trimStart s) = true.
Proof.
  induction s as [| c s IH]; [reflexivity |].
  cbn [trimStart]. destruct (isWhiteSpace c) eqn:Hc; [exact IH |].
  cbn [startsVisible]. unfold visible. now rewrite Hc.
Qed.

Lemma trimStart_white (ws s : jsstring) :
  forallb isWhiteSpace ws = true -> trimStart (ws ++ s) = trimStart s.
Proof.
  induction ws as [| c ws IH]; [reflexivity |].
  cbn [forallb app trimStart]. intros H. apply andb_true_iff in H as [-> H]. auto.
Qed.

Lemma trimStart_fixes (s : jsstring) :
  startsVisible s = true -> trimStart s = s.
Proof.
  destruct s as [| c s]; [reflexivity |].
  cbn [startsVisible trimStart]. unfold visible.
  now destruct (isWhiteSpace c).
Qed.

Lemma trimEnd_decomposes (s : jsstring) :
  exists ws, s = trimEnd s ++ ws /\ forallb isWhiteSpace ws = true.
Proof.
  destruct (trimStart_decomposes (rev s)) as (ws & E & Hws).
  exists (rev ws). split.
  - unfold trimEnd. rewrite <- rev_app_distr, <- E. now rewrite rev_involutive.
  - rewrite forallb_forall in *. intros c Hc. apply Hws. now apply in_rev.
Qed.

(** What [trim] returns is a contiguous part of its argument, between
    two runs of white space. *)
Lemma trim_decomposes (s : jsstring) :
  exists ws1 ws2,
    s = ws1 ++ trim s ++ ws2 /\
    forallb isWhiteSpace ws1 = true /\ forallb isWhiteSpace ws2 = true.
Proof.
  destruct (trimStart_decomposes s) as (ws1 & E1 & H1).
  destruct (trimEnd_decomposes (trimStart s)) as (ws2 & E2 & H2).
  exists ws1, ws2. unfold trim. now rewrite <- E2.
Qed.

Lemma startsVisible_prefix (s t : jsstring) :
  s <> [] -> startsVisible (s ++ t) = startsVisible s.
Proof. destruct s; [congruence | reflexivity]. Qed.

Lemma trim_trimmed (s : jsstring) : trimmed (trim s).
Proof.
  unfold trimmed, trim. split.
  - destruct (trimEnd_decomposes (trimStart s)) as (ws & E & _).
    pose proof (trimStart_startsVisible s) as Hv.
    destruct (trimEnd (trimStart s)) as [| c t] eqn:Et; [reflexivity |].
    rewrite E in Hv. exact Hv.
  - unfold trimEnd. rewrite rev_involutive. apply trimStart_startsVisible.
Qed.

Lemma trim_exact (ws1 body ws2 : jsstring) :
  forallb isWhiteSpace ws1 = true -> forallb isWhiteSpace ws2 = true ->
  trimmed body ->
  trim (ws1 ++ body ++ ws2) = body.
Proof.
  intros H1 H2 [Hs He].
  destruct body as [| c body'] eqn:Eb.
  - cbn [app]. unfold trim. rewrite trimStart_white by exact H1.
    destruct (trimStart_decomposes ws2) as (ws & E & _).
    assert (Hnil : trimStart ws2 = []).
    { clear - H2. induction ws2 as [| d ws2 IH]; [reflexivity |].
      cbn [forallb trimStart] in *. apply andb_true_iff in H2 as [-> H2]. auto. }
    now rewrite Hnil.
  - rewrite <- Eb in *. unfold trim.
    rewrite trimStart_white by exact H1.
    rewrite trimStart_fixes
      by (rewrite startsVisible_prefix; [exact Hs | subst; discriminate]).
    unfold trimEnd. rewrite rev_app_distr.
    rewrite trimStart_white.
    + rewrite trimStart_fixes by exact He. apply rev_involutive.
    + rewrite forallb_forall in *. intros d Hd. apply H2. now apply in_rev.
Qed.

Lemma trim_keeps_members (s : jsstring) (c : char16) :
  In c (trim s) -> In c s.
Proof.
  destruct (trim_decomposes s) as (ws1 & ws2 & E & _).
  intros H. rewrite E. apply in_or_app. right. apply in_or_app. now left.
Qed.

(** *** Replacing the first occurrence *)

Lemma startsWith_append (pat post : jsstring) : startsWith (pat ++ post) pat = true.
Proof. apply startsWith_spec. now exists post. Qed.

Lemma skipn_append (pat post : jsstring) :
  skipn (List.length pat) (pat ++ post) = post.
Proof. induction pat; [reflexivity | exact IHpat]. Qed.

Lemma replace_first (p : char16) (pat rep pre post : jsstring) :
  ~ In p pre ->
  replace (p :: pat) rep (pre ++ (p :: pat) ++ post) = pre ++ rep ++ post.
Proof.
  induction pre as [| c pre IH]; intros Hp.
  - cbn [app]. change (p :: pat ++ post) with ((p :: pat) ++ post).
    destruct ((p :: pat) ++ post) eqn:E; [discriminate |].
    cbn [replace]. rewrite <- E, startsWith_append.
    now rewrite skipn_append.
  - cbn [app replace startsWith]. unfold char_eqb.
    destruct (N.eqb_spec c p) as [-> | Hne]; [destruct Hp; now left |].
    cbn [andb]. f_equal. apply IH. intros H. apply Hp. now right.
Qed.

(** Where the pattern occurs, [replace] rewrites its first occurrence:
    the one with the shortest text before it. *)
Lemma replace_first_occurrence (pat rep s : jsstring) :
  includes s pat = true ->
  exists pre post,
    s = pre ++ pat ++ post /\
    (forall pre' post', s = pre' ++ pat ++ post' ->
       (List.length pre <= List.length pre')%nat) /\
    replace pat rep s = pre ++ rep ++ post.
Proof.
  induction s as [| c s IH]; cbn [includes replace].
  - rewrite orb_false_r. intros H. rewrite H.
    apply startsWith_spec in H as [post E].
    exists [], post. split; [exact E |]. split; [intros; cbn; lia |].
    rewrite E at 1. now rewrite skipn_append.
  - destruct (startsWith (c :: s) pat) eqn:Hs.
    + intros _. apply startsWith_spec in Hs as [post E].
      exists [], post. split; [exact E |]. split; [intros; cbn; lia |].
      rewrite E at 1. now rewrite skipn_append.
    + cbn [orb]. intros H. destruct (IH H) as (pre & post & E & Hmin & Hrep).
      exists (c :: pre), post. split; [cbn; now rewrite <- E |]. split.
      * intros pre' post' E'. destruct pre' as [| c' pre'].
        -- assert (Hs' : startsWith (c :: s) pat = true)
             by (apply startsWith_spec; now exists post').
           congruence.
        -- cbn in E'. inversion E'; subst c'. cbn.
           apply le_n_S. eapply Hmin. eassumption.
      * cbn. now rewrite Hrep.
Qed.

(** Two splittings of a text at the same pattern with texts of the same
    length before it are the same. *)
Lemma same_occurrence (pat pre post pre' post' : jsstring) :
  pre ++ pat ++ post = pre' ++ pat ++ post' ->
  List.length pre = List.length pre' ->
  pre = pre' /\ post = post'.
Proof.
  revert pre'. induction pre as [| c pre IH]; intros [| c' pre'] E Hlen;
    try discriminate Hlen.
  - cbn in E. apply app_inv_head in E. auto.
  - cbn in E. inversion E; subst c'. cbn in Hlen. inversion Hlen as [Hlen'].
    destruct (IH pre' H1 Hlen') as [-> ->]. auto.
Qed.

Lemma replace_absent (pat rep s : jsstring) :
  includes s pat = false -> replace pat rep s = s.
Proof.
  induction s as [| c s IH]; cbn [includes replace]; intros H;
    apply orb_false_iff in H as [-> H]; [reflexivity |].
  f_equal. auto.
Qed.

(** *** Occurrences and white space *)

Lemma split_members (sep : char16) (s piece : jsstring) (c : char16) :
  In piece (split sep s) -> In c piece -> In c s.
Proof.
  revert piece. induction s as [| d s IH]; intros piece.
  - cbn. intros [<- | []] [].
  - cbn [split]. destruct (char_eqb d sep).
    + intros [<- | Hin] Hc; [destruct Hc |]. right. eauto.
    + destruct (split sep s) as [| p ps] eqn:E.
      * intros [<- | []] [<- | []]. now left.
      * intros [<- | Hin] Hc.
        -- destruct Hc as [<- | Hc]; [now left |]. right.
           apply (IH p); [now left | exact Hc].
        -- right. apply (IH piece); [now right | exact Hc].
Qed.

Lemma white_is_not_upper (c : char16) :
  isWhiteSpace c = true -> asciiLowerChar c = c.
Proof.
  unfold isWhiteSpace, asciiLowerChar. cbn [existsb].
  rewrite !orb_true_iff, andb_true_iff, !N.eqb_eq, !N.leb_le.
  intros H.
  destruct ((65 <=? c) && (c <=? 90))%N eqn:E; [| reflexivity].
  apply andb_true_iff in E as [E1 E2]. apply N.leb_le in E1, E2. lia.
Qed.

Lemma asciiLower_white (ws : jsstring) :
  forallb isWhiteSpace ws = true -> asciiLower ws = ws.
Proof.
  induction ws as [| c ws IH]; [reflexivity |].
  cbn [forallb asciiLower map]. intros H. apply andb_true_iff in H as [Hc H].
  rewrite (white_is_not_upper _ Hc). f_equal. now apply IH.
Qed.

(** An occurrence of a pattern without white space lies clear of the
    white space around a text. *)
Lemma occursIn_between (pat ws1 t ws2 : jsstring) :
  pat <> [] -> forallb visible pat = true ->
  forallb isWhiteSpace ws1 = true -> forallb isWhiteSpace ws2 = true ->
  occursIn pat (ws1 ++ t ++ ws2) <-> occursIn pat t.
Proof.
  intros Hne Hvis H1 H2. split.
  - intros H.
    assert (Hfront : occursIn pat (t ++ ws2)).
    { clear H2. induction ws1 as [| c ws1 IH]; [exact H |].
      cbn [forallb] in H1. apply andb_true_iff in H1 as [Hc H1].
      apply IH; [exact H1 |].
      destruct H as (pre & post & E). destruct pre as [| d pre].
      - destruct pat as [| p pat]; [congruence |].
        cbn in E. inversion E; subst.
        cbn [forallb] in Hvis. apply andb_true_iff in Hvis as [Hp _].
        unfold visible in Hp. rewrite Hc in Hp. discriminate.
      - cbn in E. inversion E. now exists pre, post. }
    clear H H1. induction ws2 as [| c ws2 IH] using rev_ind.
    + now rewrite app_nil_r in Hfront.
    + rewrite forallb_app in H2. apply andb_true_iff in H2 as [H2 Hc].
      cbn [forallb] in Hc. rewrite andb_true_r in Hc.
      apply IH; [exact H2 |].
      destruct Hfront as (pre & post & E).
      destruct post as [| d post] using rev_ind.
      * rewrite app_nil_r, !app_assoc in E.
        destruct pat as [| p pat] using rev_ind; [congruence |].
        rewrite !app_assoc in E. apply app_inj_tail in E as [_ <-].
        rewrite forallb_app in Hvis. apply andb_true_iff in Hvis as [_ Hp].
        cbn [forallb] in Hp. rewrite andb_true_r in Hp.
        unfold visible in Hp. rewrite Hc in Hp. discriminate.
      * rewrite !app_assoc in E. apply app_inj_tail in E as [E _].
        exists pre, post. now rewrite E, <- !app_assoc.
  - intros (pre & post & ->). exists (ws1 ++ pre), (post ++ ws2).
    now rewrite <- !app_assoc.
Qed.

End TextFacts.

(** ** Facts about requests and the joint wait *)

Module RunFacts.
Import JS Db Run.

Lemma length_snoc {A} (l : list A) (x : A) :
  List.length (l ++ [x]) = S (List.length l).
Proof. rewrite length_app. cbn. apply Nat.add_1_r. Qed.

(** The three requests of a joint wait are sent one after the other,
    each settled on its own; the wait throws exactly when one of them
    rejects. *)
Lemma awaitAll3_send {St} (r1 r2 r3 : Request) (env : Env) (s : St) (w : World) :
  let k := List.length (requests w) in
  let o1 := net env k in
  let o2 := net env (1 + k) in
  let o3 := net env (2 + k) in
  let st1 := settle r1 o1 (store w) in
  let st2 := settle r2 o2 st1 in
  awaitAll3 (send r1) (send r2) (send r3) env s w =
  (match settled r1 o1 (store w), settled r2 o2 st1, settled r3 o3 st2 with
   | Fulfilled a, Fulfilled b, Fulfilled c => Ok (a, b, c)
   | Rejected e, _, _ => Threw e
   | _, Rejected e, _ => Threw e
   | _, _, Rejected e => Threw e
   end,
   s,
   {| store := settle r3 o3 st2;
      requests := requests w ++ [r1; r2; r3];
      timers := timers w;
      downloads := downloads w;
      clock_reads := clock_reads w;
      rng_draws := rng_draws w |}).
Proof.
  intros k o1 o2 o3 st1 st2. subst o1 o2 o3 st1 st2.
  unfold awaitAll3, send, bind, ret, throw.
  cbn [store requests timers downloads clock_reads rng_draws].
  rewrite !length_snoc. fold k. rewrite <- !app_assoc. cbn [app Nat.add].
  repeat match goal with
         | |- context [match settled ?r ?o ?st with _ => _ end] =>
             destruct (settled r o st)
         end; reflexivity.
Qed.

Lemma joint_wait_rejects (r1 r2 r3 : Request) (o1 o2 o3 : Outcome)
    (s1 s2 s3 : Store) (e : JsError) :
  firstRejection o1 o2 o3 = Some e ->
  match settled r1 o1 s1, settled r2 o2 s2, settled r3 o3 s3 with
  | Fulfilled a, Fulfilled b, Fulfilled c => Ok (a, b, c)
  | Rejected e, _, _ => Threw e
  | _, Rejected e, _ => Threw e
  | _, _, Rejected e => Threw e
  end = Threw e.
Proof.
  destruct o1, o2, o3; cbn; intros H; inversion H; reflexivity.
Qed.

Lemma joint_wait_resolves (r1 r2 r3 : Request) (o1 o2 o3 : Outcome)
    (s1 s2 s3 : Store) :
  firstRejection o1 o2 o3 = None ->
  exists a b c,
    match settled r1 o1 s1, settled r2 o2 s2, settled r3 o3 s3 with
    | Fulfilled a, Fulfilled b, Fulfilled c => Ok (a, b, c)
    | Rejected e, _, _ => Threw e
    | _, Rejected e, _ => Threw e
    | _, _, Rejected e => Threw e
    end = Ok (a, b, c).
Proof.
  destruct o1, o2, o3; cbn; intros H; inversion H; eauto.
Qed.

(** The rows a settled request adds to each table. *)
Lemma settle_privacy (req : Request) (o : Outcome) (s : Store) :
  privacy_metrics (settle req o s) =
  privacy_metrics s ++
  match req, o with
  | InsertPrivacyMetrics row, Served nid => [{| id := nid; fields := row |}]
  | _, _ => []
  end.
Proof. destruct req, o; cbn; now rewrite ?app_nil_r. Qed.

Lemma settle_utility (req : Request) (o : Outcome) (s : Store) :
  utility_metrics (settle req o s) =
  utility_metrics s ++
  match req, o with
  | InsertUtilityMetrics row, Served nid => [{| id := nid; fields := row |}]
  | _, _ => []
  end.
Proof. destruct req, o; cbn; now rewrite ?app_nil_r. Qed.

Lemma settle_compliance (req : Request) (o : Outcome) (s : Store) :
  compliance_reports (settle req o s) =
  compliance_reports s ++
  match req, o with
  | InsertComplianceReport row, Served nid => [{| id := nid; fields := row |}]
  | _, _ => []
  end.
Proof. destruct req, o; cbn; now rewrite ?app_nil_r. Qed.

Lemma settle_generations (req : Request) (o : Outcome) (s : Store) :
  synthetic_generations (settle req o s) =
  synthetic_generations s ++
  match req, o with
  | InsertGeneration row, Served nid => [{| id := nid; fields := row |}]
  | _, _ => []
  end.
Proof. destruct req, o; cbn; now rewrite ?app_nil_r. Qed.

Lemma settle_datasets (req : Request) (o : Outcome) (s : Store) :
  datasets (settle req o s) =
  datasets s ++
  match req, o with
  | InsertDataset row, Served nid => [{| id := nid; fields := row |}]
  | _, _ => []
  end.
Proof. destruct req, o; cbn; now rewrite ?app_nil_r. Qed.

End RunFacts.

(** ** The dataset uploader: file selection, row count, schema *)

Module UploadFacts.
Import JS Db Run JSFacts RunFacts DatasetUpload UploadSpec.

Ltac run_monad :=
  cbv beta iota zeta delta
    [bind get ret throw modify tryCatchFinally await send setTimeout
     setUploading setError setSuccess setFile setDatasetName headersOf
     worldAfter stateAfter resultOf];
  cbn [fst snd store requests timers downloads clock_reads rng_draws
       file uploading error success datasetName description
       Run.error data message].

Lemma rowsOf_nonBlankLines (text : jsstring) : rowsOf text = nonBlankLines text.
Proof.
  unfold rowsOf, nonBlankLines. apply filter_ext. intros row.
  apply truthy_trim.
Qed.

Lemma firstNonBlankLine_rowsOf (text row0 : jsstring) :
  firstNonBlankLine text = Some row0 -> exists rest, rowsOf text = row0 :: rest.
Proof.
  unfold firstNonBlankLine. rewrite <- filter_head, rowsOf_nonBlankLines.
  unfold nonBlankLines.
  destruct (filter (existsb visible) (split newline text)) as [| r rest]; simpl;
    [discriminate |].
  intros E. inversion E. now exists rest.
Qed.

Lemma allBlank_rowsOf (text : jsstring) : allBlank text -> rowsOf text = [].
Proof.
  unfold allBlank. rewrite rowsOf_nonBlankLines. unfold nonBlankLines.
  induction (split newline text) as [| l ls IH]; intros H; [reflexivity |].
  inversion H as [| ? ? Hl Hls]; subst. simpl.
  assert (E : existsb visible l = false).
  { clear -Hl. induction l as [| c l IHl]; [reflexivity |].
    simpl in *. apply andb_true_iff in Hl as [Hc Hl].
    unfold visible at 1. rewrite Hc. simpl. auto. }
  rewrite E. auto.
Qed.

(** The error text set by the catch clause is never empty. *)
Lemma fallback_truthy (msg : jsstring) :
  truthy (orElse msg (str "Upload failed")) = true.
Proof. now apply orElse_truthy. Qed.

Section WithPlatform.
Context {P : Platform}.

(** *** What one run of [handleUpload] leaves behind *)

Lemma handleUpload_store (props : Props) (env : Env) (st : State) (w : World) :
  store (worldAfter (handleUpload props env st w)) =
  match file st, projectId props, user props with
  | Some f, Some pid, Some _ =>
      if truthy pid then
        match rowsOf (text f) with
        | [] => store w
        | row0 :: rest =>
            settle (InsertDataset
                      (newDataset pid st (map schemaEntry (split comma row0))
                         (row0 :: rest)))
              (net env (List.length (requests w))) (store w)
        end
      else store w
  | _, _, _ => store w
  end.
Proof.
  unfold handleUpload. run_monad.
  destruct (file st) as [f |]; [| reflexivity].
  destruct (projectId props) as [pid |]; [| reflexivity].
  destruct (user props) as [u |]; [| reflexivity].
  destruct (truthy pid); [| reflexivity].
  run_monad.
  destruct (rowsOf (text f)) as [| row0 rest]; [reflexivity |].
  cbn [nth_error]. run_monad.
  destruct (net env (List.length (requests w))); cbn [settled settle];
    run_monad; reflexivity.
Qed.

Lemma handleUpload_requests (props : Props) (env : Env) (st : State) (w : World) :
  requests (worldAfter (handleUpload props env st w)) =
  match file st, projectId props, user props with
  | Some f, Some pid, Some _ =>
      if truthy pid then
        match rowsOf (text f) with
        | [] => requests w
        | row0 :: rest =>
            requests w ++
            [InsertDataset
               (newDataset pid st (map schemaEntry (split comma row0))
                  (row0 :: rest))]
        end
      else requests w
  | _, _, _ => requests w
  end.
Proof.
  unfold handleUpload. run_monad.
  destruct (file st) as [f |]; [| reflexivity].
  destruct (projectId props) as [pid |]; [| reflexivity].
  destruct (user props) as [u |]; [| reflexivity].
  destruct (truthy pid); [| reflexivity].
  run_monad.
  destruct (rowsOf (text f)) as [| row0 rest]; [reflexivity |].
  cbn [nth_error]. run_monad.
  destruct (net env (List.length (requests w))); cbn [settled settle];
    run_monad; reflexivity.
Qed.

(** With no row to read the headers from, the run ends in the catch
    clause. *)
Lemma handleUpload_no_rows (props : Props) (env : Env) (st : State) (w : World)
    (f : File) (pid : jsstring) (u : Auth.User) :
  file st = Some f -> projectId props = Some pid -> truthy pid = true ->
  user props = Some u -> rowsOf (text f) = [] ->
  handleUpload props env st w =
  (Ok tt,
   {| file := Some f; uploading := false;
      error := orElse (typeErrorMessage (str "undefined") (str "split"))
                 (str "Upload failed");
      success := success st; datasetName := datasetName st;
      description := description st |},
   w).
Proof.
  intros Hf Hp Ht Hu Hr.
  unfold handleUpload. run_monad. rewrite Hf, Hp, Hu, Ht. run_monad.
  rewrite Hr. cbn [nth_error]. run_monad. now rewrite Hf.
Qed.

Lemma schemaEntry_describes (header : jsstring) :
  describes header (schemaEntry header).
Proof.
  unfold describes, schemaEntry. cbn [Column.name Column.type Column.sensitive].
  repeat split; auto.
  - rewrite !orb_true_iff, !includes_spec. tauto.
  - rewrite !orb_true_iff, !includes_spec. tauto.
Qed.

Lemma schema_describes (headers : list jsstring) :
  Forall2 describes headers (map schemaEntry headers).
Proof.
  induction headers; simpl; constructor; auto using schemaEntry_describes.
Qed.

(** C3: for every uploaded text file, the row_count of the Dataset row
    that [handleUpload] stores equals the number of non-blank lines
    (lines with a code unit other than white space, after splitting on
    newline) minus one.  Every row the run adds to the table has that
    count, and a served run over a file with a non-blank line adds
    exactly one such row. *)
Theorem upload_row_count (props : Props) (env : Env) (st : State) (w : World)
    (f : File) :
  file st = Some f ->
  let w' := worldAfter (handleUpload props env st w) in
  let n := (Z.of_nat (List.length (nonBlankLines (text f))) - 1)%Z in
  (forall row, In row (datasets (store w')) ->
     In row (datasets (store w)) \/ Dataset.row_count (fields row) = n) /\
  (forall nid, ready props st -> nonBlankLines (text f) <> [] ->
     net env (List.length (requests w)) = Served nid ->
     exists d, datasets (store w') = datasets (store w) ++ [{| id := nid; fields := d |}]
               /\ Dataset.row_count d = n).
Proof.
  intros Hf w' n. subst w' n. rewrite handleUpload_store, Hf.
  rewrite <- rowsOf_nonBlankLines. split.
  - intros row.
    destruct (projectId props) as [pid |]; auto.
    destruct (user props) as [u |]; auto.
    destruct (truthy pid); auto.
    destruct (rowsOf (text f)) as [| row0 rest]; auto.
    rewrite settle_datasets, in_app_iff. intros [H | H]; auto.
    destruct (net env (List.length (requests w))); cbn in H; try contradiction.
    destruct H as [<- | []]. right. reflexivity.
  - intros nid (f' & pid & u & Hf' & Hp & Ht & Hu) Hne Hnet.
    rewrite Hp, Hu, Ht, Hnet.
    destruct (rowsOf (text f)) as [| row0 rest]; [congruence |].
    cbn [settle commit datasets]. eexists. split; reflexivity.
Qed.

(** C4: for every uploaded file, the derived schema has exactly one
    entry per comma-separated header of the first non-blank line, with
    the trimmed header as name, "string" as type, and sensitive exactly
    when the lowercased header contains "id", "name" or "phone"; the
    header line "a,b,id" gives the flags false, false, true. *)
Theorem upload_schema (props : Props) (env : Env) (st : State) (w : World)
    (f : File) (header_line : jsstring) :
  file st = Some f -> ready props st ->
  firstNonBlankLine (text f) = Some header_line ->
  let w' := worldAfter (handleUpload props env st w) in
  exists d,
    requests w' = requests w ++ [InsertDataset d] /\
    (forall nid, net env (List.length (requests w)) = Served nid ->
       datasets (store w') = datasets (store w) ++ [{| id := nid; fields := d |}]) /\
    Forall2 describes (split comma header_line) (Dataset.schema_json d) /\
    (lowercasesAscii P -> header_line = str "a,b,id" ->
       map Column.sensitive (Dataset.schema_json d) = [false; false; true]).
Proof.
  intros Hf (f' & pid & u & Hf' & Hp & Ht & Hu) Hfirst w'. subst w'.
  destruct (firstNonBlankLine_rowsOf _ Hfirst) as [rest Hrows].
  rewrite handleUpload_store, handleUpload_requests, Hf, Hp, Hu, Ht, Hrows.
  eexists. split; [reflexivity |]. split; [| split].
  - intros nid Hnet. rewrite Hnet. reflexivity.
  - apply schema_describes.
  - intros Hlow ->. cbn [newDataset Dataset.schema_json].
    change (split comma (str "a,b,id")) with [str "a"; str "b"; str "id"].
    cbn [map]. unfold schemaEntry. cbn [Column.sensitive].
    rewrite !Hlow by (apply isAscii_check; reflexivity). reflexivity.
Qed.

(** C10: if every line of the uploaded file is empty or white space
    only, reading the header row of the empty line list throws, the
    error is caught and shown, no insert is issued and no Dataset row is
    created: the store is unchanged. *)
Theorem upload_blank_file (props : Props) (env : Env) (st : State) (w : World)
    (f : File) :
  file st = Some f -> allBlank (text f) ->
  let r := handleUpload props env st w in
  resultOf (headersOf (rowsOf (text f)) env st w)
    = Threw {| message := typeErrorMessage (str "undefined") (str "split") |} /\
  store (worldAfter r) = store w /\
  requests (worldAfter r) = requests w /\
  (ready props st ->
     resultOf r = Ok tt /\
     error (stateAfter r)
       = orElse (typeErrorMessage (str "undefined") (str "split"))
           (str "Upload failed") /\
     truthy (error (stateAfter r)) = true /\
     success (stateAfter r) = success st /\
     uploading (stateAfter r) = false /\
     worldAfter r = w).
Proof.
  intros Hf Hblank r. subst r.
  pose proof (allBlank_rowsOf Hblank) as Hrows.
  split; [now rewrite Hrows |].
  split; [rewrite handleUpload_store, Hf, Hrows;
          destruct (projectId props), (user props); try destruct (truthy _);
          reflexivity |].
  split; [rewrite handleUpload_requests, Hf, Hrows;
          destruct (projectId props), (user props); try destruct (truthy _);
          reflexivity |].
  intros (f' & pid & u & Hf' & Hp & Ht & Hu).
  assert (f' = f) by congruence. subst f'.
  rewrite (@handleUpload_no_rows props env st w f pid u Hf Hp Ht Hu Hrows).
  cbn [resultOf stateAfter worldAfter fst snd error success uploading].
  repeat split. apply fallback_truthy.
Qed.

End WithPlatform.

(** C8: when a file whose MIME type is not "text/csv" is selected, the
    message "Please upload a CSV file" is set, the file does not become
    the pending upload, and the selection causes no network call and no
    Dataset insert: the world is left as it was. *)
Theorem reject_non_csv (selectedFile : File) (rest : list File) (env : Env)
    (st : State) (w : World) :
  type selectedFile <> str "text/csv" ->
  let r := handleFileChange (Some (selectedFile :: rest)) env st w in
  error (stateAfter r) = str "Please upload a CSV file" /\
  file (stateAfter r) = file st /\
  datasetName (stateAfter r) = datasetName st /\
  requests (worldAfter r) = requests w /\
  store (worldAfter r) = store w /\
  worldAfter r = w.
Proof.
  intros Hty. cbv zeta. unfold handleFileChange.
  destruct (eqb (type selectedFile) (str "text/csv")) eqn:E.
  - apply eqb_eq in E. contradiction.
  - cbn [negb]. run_monad. repeat split.
Qed.

(** A CSV file becomes the pending upload, named after the file. *)
Lemma accept_csv (selectedFile : File) (rest : list File) (env : Env)
    (st : State) (w : World) :
  type selectedFile = str "text/csv" ->
  let r := handleFileChange (Some (selectedFile :: rest)) env st w in
  file (stateAfter r) = Some selectedFile /\
  datasetName (stateAfter r) = replace (str ".csv") [] (name selectedFile) /\
  error (stateAfter r) = [] /\
  worldAfter r = w.
Proof.
  intros Hty. cbv zeta. unfold handleFileChange.
  rewrite Hty, eqb_refl. cbn [negb]. run_monad. repeat split.
Qed.

Lemma upload_ready_sample (file : File) :
  ready Sample.uploadProps (Sample.uploadState (Some file)).
Proof.
  exists file, (str "project-1"), Sample.alice. repeat split.
Qed.

Lemma upload_row_count_witness :
  file (Sample.uploadState (Some Sample.csvFile)) = Some Sample.csvFile /\
  exists d,
    datasets (store (worldAfter Sample.uploaded))
    = [{| id := str "row-0"; fields := d |}] /\
    Dataset.row_count d = 2%Z.
Proof.
  split; [reflexivity |].
  destruct (@upload_row_count Sample.host Sample.uploadProps
              Sample.calm (Sample.uploadState (Some Sample.csvFile))
              (initial Db.empty) Sample.csvFile eq_refl)
    as [_ Hadd].
  apply (Hadd (str "row-0")).
  - apply upload_ready_sample.
  - vm_compute. discriminate.
  - reflexivity.
Defined.

Lemma upload_schema_witness :
  file (Sample.uploadState (Some Sample.csvFile)) = Some Sample.csvFile /\
  ready Sample.uploadProps (Sample.uploadState (Some Sample.csvFile)) /\
  firstNonBlankLine (DatasetUpload.text Sample.csvFile) = Some (str "a,b,id") /\
  exists d,
    requests (worldAfter Sample.uploaded) = [InsertDataset d] /\
    map Column.sensitive (Dataset.schema_json d) = [false; false; true].
Proof.
  split; [reflexivity |]. split; [apply upload_ready_sample |].
  split; [reflexivity |].
  destruct (@upload_schema Sample.host Sample.uploadProps Sample.calm
              (Sample.uploadState (Some Sample.csvFile)) (initial Db.empty)
              Sample.csvFile (str "a,b,id")
              eq_refl (upload_ready_sample Sample.csvFile) eq_refl)
    as (d & Hreq & _ & _ & Hflags).
  exists d. split; [exact Hreq |].
  apply Hflags; [| reflexivity].
  intros s _. reflexivity.
Defined.

Lemma upload_blank_file_witness :
  file (Sample.uploadState (Some Sample.blankFile)) = Some Sample.blankFile /\
  allBlank (DatasetUpload.text Sample.blankFile) /\
  store (worldAfter Sample.uploadedBlank) = Db.empty /\
  requests (worldAfter Sample.uploadedBlank) = [].
Proof.
  assert (Hb : allBlank (DatasetUpload.text Sample.blankFile)).
  { unfold allBlank. vm_compute. repeat constructor. }
  split; [reflexivity |]. split; [exact Hb |].
  destruct (@upload_blank_file Sample.host Sample.uploadProps Sample.calm
              (Sample.uploadState (Some Sample.blankFile)) (initial Db.empty)
              Sample.blankFile eq_refl Hb) as (_ & Hstore & Hreq & _).
  split; [exact Hstore | exact Hreq].
Defined.

Lemma reject_non_csv_witness :
  type Sample.pdfFile <> str "text/csv" /\
  error (stateAfter Sample.selectedPdf) = str "Please upload a CSV file" /\
  file (stateAfter Sample.selectedPdf) = Some Sample.csvFile.
Proof.
  assert (Hty : type Sample.pdfFile <> str "text/csv") by (vm_compute; discriminate).
  split; [exact Hty |].
  destruct (@reject_non_csv Sample.pdfFile [] Sample.calm
              (Sample.uploadState (Some Sample.csvFile)) (initial Db.empty) Hty)
    as (He & Hf & _).
  split; [exact He | exact Hf].
Defined.

End UploadFacts.

(** ** The uploader: outcomes of a run, names, and templates *)

Module UploadMore.
Import JS Db Run JSFacts RunFacts TextFacts DatasetUpload UploadSpec FlowSpec.
Import UploadFacts TemplateUpload.

Ltac run_monad :=
  lazy beta iota zeta delta
    [bind get ret throw modify tryCatchFinally await send setTimeout
     setUploading setError setSuccess setFile setDatasetName headersOf
     worldAfter stateAfter resultOf
     fst snd store requests timers downloads clock_reads rng_draws
     file uploading error success datasetName description
     Run.error data message].

Lemma settle_projects (req : Request) (o : Outcome) (s : Store) :
  projects (settle req o s) = projects s.
Proof. destruct req, o; reflexivity. Qed.

Section WithPlatform.
Context {P : Platform}.

(** One run of [handleUpload] over a file with a header line, by the
    outcome of the insert. *)
Lemma handleUpload_run (props : Props) (env : Env) (st : State) (w : World)
    (f : File) (pid : jsstring) (u : Auth.User) (row0 : jsstring)
    (rest : list jsstring) :
  file st = Some f -> projectId props = Some pid -> truthy pid = true ->
  user props = Some u -> rowsOf (text f) = row0 :: rest ->
  let d := newDataset pid st (map schemaEntry (split comma row0)) (row0 :: rest) in
  handleUpload props env st w =
  match net env (List.length (requests w)) with
  | Served nid =>
      (Ok tt,
       {| file := Some f; uploading := false; error := []; success := true;
          datasetName := datasetName st; description := description st |},
       {| store := commit (InsertDataset d) nid (store w);
          requests := requests w ++ [InsertDataset d];
          timers := timers w ++ [uploadRedirect nid];
          downloads := downloads w;
          clock_reads := clock_reads w; rng_draws := rng_draws w |})
  | ErrorResponse e | Reject e =>
      (Ok tt,
       {| file := Some f; uploading := false;
          error := orElse (message e) (str "Upload failed");
          success := success st;
          datasetName := datasetName st; description := description st |},
       {| store := store w;
          requests := requests w ++ [InsertDataset d];
          timers := timers w;
          downloads := downloads w;
          clock_reads := clock_reads w; rng_draws := rng_draws w |})
  end.
Proof.
  intros Hf Hp Ht Hu Hr. cbv zeta.
  unfold handleUpload, uploadRedirect.
  destruct w as [sto reqs tms dls cr rd], st as [fl up er sc dn ds].
  cbn [file] in Hf. subst fl.
  run_monad. rewrite Hp, Hu, Ht. run_monad. rewrite Hr. cbn [nth_error].
  run_monad.
  destruct (net env (List.length reqs)); cbn [settled settle]; run_monad;
    reflexivity.
Qed.

(** Every run is one of three: the guard stops it, the file has no
    header line, or the insert is sent. *)
Lemma handleUpload_cases (props : Props) (env : Env) (st : State) (w : World) :
  (handleUpload props env st w = (Ok tt, st, w) /\ ~ ready props st) \/
  (exists f pid u,
     file st = Some f /\ projectId props = Some pid /\ truthy pid = true /\
     user props = Some u /\ rowsOf (text f) = []) \/
  (exists f pid u row0 rest,
     file st = Some f /\ projectId props = Some pid /\ truthy pid = true /\
     user props = Some u /\ rowsOf (text f) = row0 :: rest).
Proof.
  unfold handleUpload, ready. cbv beta iota delta [bind get].
  destruct (file st) as [f |] eqn:Hf;
    [| left; split; [reflexivity | intros (? & ? & ? & ? & _); discriminate]].
  destruct (projectId props) as [pid |];
    [| left; split; [reflexivity | intros (? & ? & ? & _ & ? & _); discriminate]].
  destruct (user props) as [u |];
    [| left; split;
       [reflexivity | intros (? & ? & ? & _ & _ & _ & ?); discriminate]].
  destruct (truthy pid) eqn:Ht;
    [| left; split;
       [reflexivity | intros (? & ? & ? & _ & H & H' & _); congruence]].
  right. destruct (rowsOf (text f)) as [| row0 rest] eqn:Hr.
  - left. exists f, pid, u. auto.
  - right. exists f, pid, u, row0, rest. auto.
Qed.

(** X1: when the Dataset insert fails, whether it is answered with an
    error or its promise rejects, [handleUpload] reports it: the handler
    returns normally, success is not set, the message of the error (or
    "Upload failed") is shown and is not empty, the busy flag is
    cleared, no redirect is scheduled, and the store is as before. *)
Theorem upload_failure_is_reported (props : Props) (env : Env) (st : State)
    (w : World) (f : File) (header_line : jsstring) (e : JsError) :
  file st = Some f -> ready props st ->
  firstNonBlankLine (text f) = Some header_line ->
  net env (List.length (requests w)) = ErrorResponse e \/
  net env (List.length (requests w)) = Reject e ->
  let r := handleUpload props env st w in
  resultOf r = Ok tt /\
  success (stateAfter r) = success st /\
  error (stateAfter r) = orElse (message e) (str "Upload failed") /\
  truthy (error (stateAfter r)) = true /\
  uploading (stateAfter r) = false /\
  store (worldAfter r) = store w /\
  timers (worldAfter r) = timers w /\
  List.length (requests (worldAfter r)) = S (List.length (requests w)).
Proof.
  intros Hf (f' & pid & u & Hf' & Hp & Ht & Hu) Hfirst Hnet. cbv zeta.
  destruct (firstNonBlankLine_rowsOf _ Hfirst) as [rest Hrows].
  rewrite (@handleUpload_run props env st w f pid u header_line rest
             Hf Hp Ht Hu Hrows).
  destruct Hnet as [-> | ->];
    cbn [resultOf stateAfter worldAfter fst snd success error uploading
         store timers requests];
    rewrite length_snoc;
    repeat split; apply fallback_truthy.
Qed.

(** X2: when the Dataset insert is served, [handleUpload] stores one
    row for the selected project, named and described as the form says,
    with data_type "tabular" and status "uploaded"; it shows success,
    clears the error and the busy flag, and schedules onUploadComplete
    after 1500 ms with the id of the very row that was stored. *)
Theorem upload_hands_over_the_stored_row (props : Props) (env : Env)
    (st : State) (w : World) (f : File) (header_line nid : jsstring) :
  file st = Some f -> ready props st ->
  firstNonBlankLine (text f) = Some header_line ->
  net env (List.length (requests w)) = Served nid ->
  let r := handleUpload props env st w in
  exists d,
    datasets (store (worldAfter r))
      = datasets (store w) ++ [{| id := nid; fields := d |}] /\
    timers (worldAfter r)
      = timers w ++ [{| callback := OnUploadComplete (Some nid); delay := 1500 |}] /\
    projectId props = Some (Dataset.project_id d) /\
    Dataset.name d = datasetName st /\
    Dataset.description d = description st /\
    Dataset.data_type d = str "tabular" /\
    Dataset.status d = str "uploaded" /\
    success (stateAfter r) = true /\
    error (stateAfter r) = [] /\
    uploading (stateAfter r) = false.
Proof.
  intros Hf (f' & pid & u & Hf' & Hp & Ht & Hu) Hfirst Hnet. cbv zeta.
  destruct (firstNonBlankLine_rowsOf _ Hfirst) as [rest Hrows].
  rewrite (@handleUpload_run props env st w f pid u header_line rest
             Hf Hp Ht Hu Hrows), Hnet.
  cbn [resultOf stateAfter worldAfter fst snd success error uploading
       store timers requests commit datasets].
  eexists. split; [reflexivity |].
  cbn [newDataset Dataset.project_id Dataset.name Dataset.description
       Dataset.data_type Dataset.status].
  repeat split. exact Hp.
Qed.

(** X3: the schema has one column more than the header line has
    commas, whatever the line holds: quotes do not protect a comma.  No
    column name contains a comma, and none begins or ends with white
    space. *)
Theorem upload_column_per_comma (props : Props) (env : Env) (st : State)
    (w : World) (f : File) (header_line : jsstring) :
  file st = Some f -> ready props st ->
  firstNonBlankLine (text f) = Some header_line ->
  let w' := worldAfter (handleUpload props env st w) in
  exists d,
    requests w' = requests w ++ [InsertDataset d] /\
    List.length (Dataset.schema_json d) = S (commas header_line) /\
    Forall (fun c => ~ In comma (Column.name c) /\ trimmed (Column.name c))
      (Dataset.schema_json d).
Proof.
  intros Hf (f' & pid & u & Hf' & Hp & Ht & Hu) Hfirst. cbv zeta.
  destruct (firstNonBlankLine_rowsOf _ Hfirst) as [rest Hrows].
  rewrite (@handleUpload_run props env st w f pid u header_line rest
             Hf Hp Ht Hu Hrows).
  eexists. split.
  { destruct (net env (List.length (requests w))); reflexivity. }
  cbn [newDataset Dataset.schema_json].
  split; [rewrite length_map; apply split_length |].
  apply Forall_map.
  eapply Forall_impl; [| apply (split_no_separator comma header_line)].
  intros header Hno. cbn [schemaEntry Column.name]. split.
  - intros Hin. apply Hno. eapply trim_keeps_members. exact Hin.
  - apply trim_trimmed.
Qed.

(** X4: a stored row_count is never negative: every row a run adds
    counts the non-blank lines after the header, and the count is 0
    exactly when the header is the only non-blank line. *)
Theorem upload_row_count_not_negative (props : Props) (env : Env) (st : State)
    (w : World) (f : File) :
  file st = Some f ->
  let w' := worldAfter (handleUpload props env st w) in
  forall row, In row (datasets (store w')) ->
    In row (datasets (store w)) \/
    ((0 <= Dataset.row_count (fields row))%Z /\
     Dataset.row_count (fields row)
       = Z.of_nat (List.length (tl (nonBlankLines (text f)))) /\
     (Dataset.row_count (fields row) = 0%Z <->
      exists header_line, nonBlankLines (text f) = [header_line])).
Proof.
  intros Hf w' row. subst w'. rewrite handleUpload_store, Hf.
  rewrite <- rowsOf_nonBlankLines.
  destruct (projectId props) as [pid |]; auto.
  destruct (user props) as [u |]; auto.
  destruct (truthy pid); auto.
  destruct (rowsOf (text f)) as [| row0 rest]; auto.
  rewrite settle_datasets, in_app_iff. intros [H | H]; auto.
  destruct (net env (List.length (requests w))); cbn in H; try contradiction.
  destruct H as [<- | []]. right.
  cbn [fields newDataset Dataset.row_count tl List.length].
  split; [lia |]. split; [lia |]. split.
  - intros E. destruct rest; [eauto | cbn [List.length] in E; lia].
  - intros [h E]. inversion E. cbn. lia.
Qed.

(** X5: a run of [handleUpload] never touches a table other than
    datasets, and there it only appends, at most one row. *)
Theorem upload_touches_only_datasets (props : Props) (env : Env) (st : State)
    (w : World) :
  let s' := store (worldAfter (handleUpload props env st w)) in
  projects s' = projects (store w) /\
  synthetic_generations s' = synthetic_generations (store w) /\
  privacy_metrics s' = privacy_metrics (store w) /\
  utility_metrics s' = utility_metrics (store w) /\
  compliance_reports s' = compliance_reports (store w) /\
  exists added,
    datasets s' = datasets (store w) ++ added /\ (List.length added <= 1)%nat.
Proof.
  cbv zeta. rewrite handleUpload_store.
  assert (Hsame :
    projects (store w) = projects (store w) /\
    synthetic_generations (store w) = synthetic_generations (store w) /\
    privacy_metrics (store w) = privacy_metrics (store w) /\
    utility_metrics (store w) = utility_metrics (store w) /\
    compliance_reports (store w) = compliance_reports (store w) /\
    exists added,
      datasets (store w) = datasets (store w) ++ added /\
      (List.length added <= 1)%nat).
  { repeat split. exists []. rewrite app_nil_r. cbn. auto. }
  destruct (file st) as [f |]; [| exact Hsame].
  destruct (projectId props) as [pid |]; [| exact Hsame].
  destruct (user props) as [u |]; [| exact Hsame].
  destruct (truthy pid); [| exact Hsame].
  destruct (rowsOf (text f)) as [| row0 rest]; [exact Hsame |].
  rewrite settle_projects, settle_generations, settle_privacy, settle_utility,
    settle_compliance, settle_datasets.
  rewrite !app_nil_r. repeat split.
  eexists. split; [reflexivity |].
  destruct (net env (List.length (requests w))); cbn; lia.
Qed.

(** X6: selecting a file that is refused does not withdraw the file
    that was pending: a submission after it sends the same request and
    leaves the same store as a submission without it, and, when the
    guard passes, the same component state. *)
Theorem refused_selection_keeps_pending_upload (props : Props) (env : Env)
    (st : State) (w : World) (selectedFile : File) (others : list File) :
  type selectedFile <> str "text/csv" ->
  let st1 := stateAfter (handleFileChange (Some (selectedFile :: others)) env st w) in
  worldAfter (handleUpload props env st1 w)
    = worldAfter (handleUpload props env st w) /\
  (ready props st ->
   stateAfter (handleUpload props env st1 w)
     = stateAfter (handleUpload props env st w)).
Proof.
  intros Hty. cbv zeta. unfold handleFileChange.
  destruct (eqb (type selectedFile) (str "text/csv")) eqn:E;
    [apply eqb_eq in E; contradiction |].
  cbn [negb]. destruct st as [fl up er sc dn ds], w as [sto reqs tms dls cr rd].
  unfold handleUpload, ready. run_monad.
  destruct fl as [f |];
    [| split; [reflexivity | intros (? & ? & ? & ? & _); discriminate]].
  destruct (projectId props) as [pid |];
    [| split; [reflexivity | intros (? & ? & ? & _ & ? & _); discriminate]].
  destruct (user props) as [u |];
    [| split; [reflexivity | intros (? & ? & ? & _ & _ & _ & ?); discriminate]].
  destruct (truthy pid) eqn:Ht;
    [| split; [reflexivity | intros (? & ? & ? & _ & ? & ? & _); congruence]].
  run_monad.
  destruct (rowsOf (text f)) as [| row0 rest]; cbn [nth_error]; run_monad;
    [split; reflexivity |].
  destruct (net env (List.length reqs)); cbn [settled settle]; run_monad;
    split; reflexivity.
Qed.

(** The flag of a header is the flag of its trimmed form. *)
Lemma flag_of_trimmed (header : jsstring) :
  lowercasesAscii P -> isAscii header ->
  (Column.sensitive (schemaEntry header) = true <->
   personal (toLowerCase (trim header))).
Proof.
  intros Hlow Hascii.
  assert (Htrim : isAscii (trim header)).
  { unfold isAscii in *. rewrite Forall_forall in *.
    intros c Hc. apply Hascii. now apply trim_keeps_members. }
  unfold schemaEntry, personal. cbn [Column.sensitive].
  rewrite (Hlow _ Hascii), (Hlow _ Htrim).
  rewrite !orb_true_iff, !includes_spec.
  destruct (trim_decomposes header) as (ws1 & ws2 & E & H1 & H2).
  remember (trim header) as t eqn:Et. clear Et Htrim.
  rewrite E. unfold asciiLower. rewrite !map_app.
  fold (asciiLower ws1) (asciiLower ws2) (asciiLower t).
  rewrite (asciiLower_white _ H1), (asciiLower_white _ H2).
  rewrite !occursIn_between by (discriminate || reflexivity || assumption).
  tauto.
Qed.

(** X7: the sensitivity flag of a stored column can be read off its
    stored name: for a header line of ASCII characters, on a platform
    whose toLowerCase folds ASCII case, a column is flagged exactly
    when its name, in lower case, mentions "id", "name" or "phone";
    the white space that trimming removed from the header plays no
    part. *)
Theorem flag_follows_stored_name (props : Props) (env : Env) (st : State)
    (w : World) (f : File) (header_line : jsstring) :
  lowercasesAscii P -> isAscii header_line ->
  file st = Some f -> ready props st ->
  firstNonBlankLine (text f) = Some header_line ->
  let w' := worldAfter (handleUpload props env st w) in
  exists d,
    requests w' = requests w ++ [InsertDataset d] /\
    Forall (fun c => Column.sensitive c = true <->
                     personal (toLowerCase (Column.name c)))
      (Dataset.schema_json d).
Proof.
  intros Hlow Hascii Hf (f' & pid & u & Hf' & Hp & Ht & Hu) Hfirst. cbv zeta.
  destruct (firstNonBlankLine_rowsOf _ Hfirst) as [rest Hrows].
  rewrite (@handleUpload_run props env st w f pid u header_line rest
             Hf Hp Ht Hu Hrows).
  eexists. split.
  { destruct (net env (List.length (requests w))); reflexivity. }
  cbn [newDataset Dataset.schema_json].
  apply Forall_map. apply Forall_forall. intros header Hin.
  change (Column.name (schemaEntry header)) with (trim header).
  apply flag_of_trimmed; [exact Hlow |].
  unfold isAscii in *. rewrite Forall_forall in *.
  intros c Hc. apply Hascii. eapply split_members; eassumption.
Qed.

End WithPlatform.

(** X8: the dataset name proposed for an accepted file is the file
    name without its first ".csv", wherever that stands.  A name in
    which ".csv" occurs splits at its first occurrence, the one with
    the shortest text before it, and the proposed name is the text
    before followed by the text after; dots before it do not matter
    (sales.2024.csv gives sales.2024), and text after it is kept
    (people.csv.csv gives people.csv).  A name without ".csv" is taken
    whole.  The file becomes the pending upload. *)
Theorem dataset_name_from_file_name (selectedFile : File) (others : list File)
    (env : Env) (st : State) (w : World) :
  type selectedFile = str "text/csv" ->
  let r := handleFileChange (Some (selectedFile :: others)) env st w in
  let first pre post :=
    name selectedFile = pre ++ str ".csv" ++ post /\
    forall pre' post', name selectedFile = pre' ++ str ".csv" ++ post' ->
      (List.length pre <= List.length pre')%nat in
  file (stateAfter r) = Some selectedFile /\
  (occursIn (str ".csv") (name selectedFile) -> exists pre post, first pre post) /\
  (forall pre post, first pre post -> datasetName (stateAfter r) = pre ++ post) /\
  (forall stem post,
     name selectedFile = stem ++ str ".csv" ++ post -> ~ In dot stem ->
     datasetName (stateAfter r) = stem ++ post) /\
  (~ occursIn (str ".csv") (name selectedFile) ->
   datasetName (stateAfter r) = name selectedFile).
Proof.
  intros Hty. cbv zeta. unfold handleFileChange.
  rewrite Hty, eqb_refl. cbn [negb]. run_monad.
  split; [reflexivity |]. split; [| split; [| split]].
  - intros Hocc. apply includes_spec in Hocc.
    destruct (replace_first_occurrence (str ".csv") [] _ Hocc)
      as (pre & post & E & Hmin & _).
    exists pre, post. auto.
  - intros pre post [E Hmin].
    assert (Hocc : includes (name selectedFile) (str ".csv") = true)
      by (apply includes_spec; now exists pre, post).
    destruct (replace_first_occurrence (str ".csv") [] _ Hocc)
      as (pre0 & post0 & E0 & Hmin0 & ->).
    assert (Hlen : List.length pre0 = List.length pre).
    { apply Nat.le_antisymm; [eapply Hmin0 | eapply Hmin]; eassumption. }
    rewrite E in E0. symmetry in E0.
    destruct (same_occurrence _ _ _ _ _ E0 Hlen) as [-> ->]. reflexivity.
  - intros stem rest -> Hdot.
    exact (@replace_first dot (str "csv") [] stem rest Hdot).
  - intros Habsent. apply replace_absent.
    destruct (includes (name selectedFile) (str ".csv")) eqn:E; [| reflexivity].
    apply includes_spec in E. contradiction.
Qed.

(** *** Templates *)

(** One run of [handleTemplateSelect] past its guard, by the outcome of
    the insert. *)
Lemma handleTemplateSelect_run (props : Props) (template : Template.t)
    (env : Env) (st : State) (w : World) (pid : jsstring) :
  templateReady props pid ->
  let d := templateDataset pid template in
  handleTemplateSelect props template env st w =
  match net env (List.length (requests w)) with
  | Served nid =>
      (Ok tt,
       {| file := file st; uploading := false; error := error st;
          success := true;
          datasetName := datasetName st; description := description st |},
       {| store := commit (InsertDataset d) nid (store w);
          requests := requests w ++ [InsertDataset d];
          timers := timers w ++ [uploadRedirect nid];
          downloads := downloads w;
          clock_reads := clock_reads w; rng_draws := rng_draws w |})
  | ErrorResponse e | Reject e =>
      (Ok tt,
       {| file := file st; uploading := false;
          error := orElse (message e) (str "Template creation failed");
          success := success st;
          datasetName := datasetName st; description := description st |},
       {| store := store w;
          requests := requests w ++ [InsertDataset d];
          timers := timers w;
          downloads := downloads w;
          clock_reads := clock_reads w; rng_draws := rng_draws w |})
  end.
Proof.
  intros (Hp & Ht & u & Hu). cbv zeta.
  unfold handleTemplateSelect, uploadRedirect.
  destruct w as [sto reqs tms dls cr rd], st as [fl up er sc dn ds].
  rewrite Hp, Hu, Ht. run_monad.
  destruct (net env (List.length reqs)); cbn [settled settle]; run_monad;
    reflexivity.
Qed.

(** X9: choosing a template stores one Dataset row for the selected
    project, with the template's schema as it is, the name of the
    template followed by " Template", its description, and a row_count
    of 1000 whatever the template; success is shown and
    onUploadComplete is scheduled with the id of the new row.  The
    pending file and the form are not read, and an error message
    shown earlier stays in the state. *)
Theorem template_creates_dataset (props : Props) (template : Template.t)
    (env : Env) (st : State) (w : World) (pid nid : jsstring) :
  templateReady props pid ->
  net env (List.length (requests w)) = Served nid ->
  let r := handleTemplateSelect props template env st w in
  exists d,
    datasets (store (worldAfter r))
      = datasets (store w) ++ [{| id := nid; fields := d |}] /\
    Dataset.project_id d = pid /\
    Dataset.schema_json d = Template.schema_json template /\
    Dataset.name d = Template.name template ++ str " Template" /\
    Dataset.description d = Template.description template /\
    Dataset.row_count d = 1000%Z /\
    timers (worldAfter r)
      = timers w ++ [{| callback := OnUploadComplete (Some nid); delay := 1500 |}] /\
    success (stateAfter r) = true /\
    uploading (stateAfter r) = false /\
    error (stateAfter r) = error st /\
    file (stateAfter r) = file st /\
    datasetName (stateAfter r) = datasetName st.
Proof.
  intros Hready Hnet. cbv zeta.
  rewrite (handleTemplateSelect_run template env st w Hready), Hnet.
  cbn [stateAfter worldAfter fst snd store timers commit datasets
       success uploading error file datasetName].
  eexists. split; [reflexivity |]. repeat split.
Qed.

(** X10: when the insert of a template dataset fails, by an error
    answer or a rejection, [handleTemplateSelect] returns normally,
    shows the message of the error or "Template creation failed",
    leaves success as it was, clears the busy flag, schedules nothing
    and stores nothing. *)
Theorem template_failure_is_reported (props : Props) (template : Template.t)
    (env : Env) (st : State) (w : World) (pid : jsstring) (e : JsError) :
  templateReady props pid ->
  net env (List.length (requests w)) = ErrorResponse e \/
  net env (List.length (requests w)) = Reject e ->
  let r := handleTemplateSelect props template env st w in
  resultOf r = Ok tt /\
  error (stateAfter r) = orElse (message e) (str "Template creation failed") /\
  truthy (error (stateAfter r)) = true /\
  success (stateAfter r) = success st /\
  uploading (stateAfter r) = false /\
  timers (worldAfter r) = timers w /\
  store (worldAfter r) = store w.
Proof.
  intros Hready Hnet. cbv zeta.
  rewrite (handleTemplateSelect_run template env st w Hready).
  destruct Hnet as [-> | ->];
    cbn [resultOf stateAfter worldAfter fst snd store timers
         success uploading error];
    repeat split; now apply orElse_truthy.
Qed.

(** *** Closed runs *)

Lemma template_ready_sample : templateReady Sample.uploadProps (str "project-1").
Proof. split; [reflexivity |]. split; [reflexivity |]. now exists Sample.alice. Qed.

Lemma upload_failure_is_reported_witness :
  ready Sample.uploadProps (Sample.uploadState (Some Sample.csvFile)) /\
  firstNonBlankLine (text Sample.csvFile) = Some (str "a,b,id") /\
  let r := handleUpload (P := Sample.host) Sample.uploadProps Scenario.refusing
             (Sample.uploadState (Some Sample.csvFile)) (initial Db.empty) in
  error (stateAfter r) = str "permission denied" /\
  success (stateAfter r) = false /\
  store (worldAfter r) = Db.empty.
Proof.
  split; [apply upload_ready_sample |]. split; [reflexivity |].
  destruct (@upload_failure_is_reported Sample.host Sample.uploadProps
              Scenario.refusing (Sample.uploadState (Some Sample.csvFile))
              (initial Db.empty) Sample.csvFile (str "a,b,id")
              {| message := str "permission denied" |}
              eq_refl (upload_ready_sample Sample.csvFile) eq_refl
              (or_introl eq_refl))
    as (_ & Hs & He & _ & _ & Hst & _).
  cbv zeta. split; [exact He |]. split; [exact Hs | exact Hst].
Defined.

Lemma upload_hands_over_the_stored_row_witness :
  ready Sample.uploadProps (Sample.uploadState (Some Sample.csvFile)) /\
  net Sample.calm 0 = Served (str "row-0") /\
  exists d,
    datasets (store (worldAfter Sample.uploaded))
      = [{| id := str "row-0"; fields := d |}] /\
    timers (worldAfter Sample.uploaded)
      = [{| callback := OnUploadComplete (Some (str "row-0")); delay := 1500 |}].
Proof.
  split; [apply upload_ready_sample |]. split; [reflexivity |].
  destruct (@upload_hands_over_the_stored_row Sample.host Sample.uploadProps
              Sample.calm (Sample.uploadState (Some Sample.csvFile))
              (initial Db.empty) Sample.csvFile (str "a,b,id") (str "row-0")
              eq_refl (upload_ready_sample Sample.csvFile) eq_refl eq_refl)
    as (d & Hd & Ht & _).
  exists d. split; [exact Hd | exact Ht].
Defined.

Lemma upload_column_per_comma_witness :
  ready Sample.uploadProps (Sample.uploadState (Some Scenario.quotedFile)) /\
  exists d,
    requests (worldAfter
      (handleUpload (P := Sample.host) Sample.uploadProps Sample.calm
         (Sample.uploadState (Some Scenario.quotedFile)) (initial Db.empty)))
      = [InsertDataset d] /\
    List.length (Dataset.schema_json d) = 3%nat.
Proof.
  split; [apply upload_ready_sample |].
  destruct (@upload_column_per_comma Sample.host Sample.uploadProps
              Sample.calm (Sample.uploadState (Some Scenario.quotedFile))
              (initial Db.empty) Scenario.quotedFile
              (str " city , " ++ [34%N] ++ str "last, first" ++ [34%N; 13%N])
              eq_refl (upload_ready_sample Scenario.quotedFile) eq_refl)
    as (d & Hreq & Hlen & _).
  exists d. split; [exact Hreq | exact Hlen].
Defined.

Lemma upload_row_count_not_negative_witness :
  file (Sample.uploadState (Some Sample.csvFile)) = Some Sample.csvFile /\
  forall row, In row (datasets (store (worldAfter Sample.uploaded))) ->
    Dataset.row_count (fields row) = 2%Z.
Proof.
  split; [reflexivity |]. intros row Hrow.
  destruct (@upload_row_count_not_negative Sample.host Sample.uploadProps
              Sample.calm (Sample.uploadState (Some Sample.csvFile))
              (initial Db.empty) Sample.csvFile eq_refl row Hrow)
    as [[] | (_ & Hcount & _)].
  exact Hcount.
Defined.

Lemma refused_selection_keeps_pending_upload_witness :
  type Sample.pdfFile <> str "text/csv" /\
  worldAfter
    (handleUpload (P := Sample.host) Sample.uploadProps Sample.calm
       (stateAfter Sample.selectedPdf) (initial Db.empty))
  = worldAfter Sample.uploaded.
Proof.
  assert (Hty : type Sample.pdfFile <> str "text/csv")
    by (vm_compute; discriminate).
  split; [exact Hty |].
  destruct (@refused_selection_keeps_pending_upload Sample.host
              Sample.uploadProps Sample.calm
              (Sample.uploadState (Some Sample.csvFile)) (initial Db.empty)
              Sample.pdfFile [] Hty) as [Hw _].
  exact Hw.
Defined.

Lemma dataset_name_from_file_name_witness :
  type Scenario.datedFile = str "text/csv" /\
  name Scenario.datedFile = str "sales.2024" ++ str ".csv" ++ [] /\
  datasetName
    (stateAfter (handleFileChange (Some [Scenario.datedFile]) Sample.calm
                   (Sample.uploadState None) (initial Db.empty)))
  = str "sales.2024".
Proof.
  split; [reflexivity |]. split; [reflexivity |].
  destruct (@dataset_name_from_file_name Scenario.datedFile [] Sample.calm
              (Sample.uploadState None) (initial Db.empty) eq_refl)
    as (_ & _ & Hname & _).
  rewrite (Hname (str "sales.2024") []); [reflexivity |].
  split; [reflexivity |].
  intros pre' post' E.
  destruct (Nat.le_gt_cases (List.length (str "sales.2024")) (List.length pre'))
    as [Hle | Hgt]; [exact Hle | exfalso].
  change (List.length (str "sales.2024")) with 10%nat in Hgt.
  do 10 (destruct pre' as [| ? pre'];
         [cbv in E; discriminate E
         | cbn [List.length] in Hgt; cbn [app] in E;
           apply (f_equal (@tl _)) in E; cbn [tl name Scenario.datedFile] in E]).
  cbn [List.length] in Hgt. lia.
Defined.

Lemma template_creates_dataset_witness :
  templateReady Sample.uploadProps (str "project-1") /\
  net Sample.calm 0 = Served (str "row-0") /\
  exists d,
    datasets (store (worldAfter
      (handleTemplateSelect Sample.uploadProps Scenario.loansTemplate
         Sample.calm (Sample.uploadState None) (initial Db.empty))))
      = [{| id := str "row-0"; fields := d |}] /\
    Dataset.name d = str "Mobile Loans Template" /\
    Dataset.row_count d = 1000%Z.
Proof.
  split; [exact template_ready_sample |]. split; [reflexivity |].
  destruct (@template_creates_dataset Sample.uploadProps
              Scenario.loansTemplate Sample.calm (Sample.uploadState None)
              (initial Db.empty) (str "project-1") (str "row-0")
              template_ready_sample eq_refl)
    as (d & Hd & _ & _ & Hname & _ & Hcount & _).
  exists d. split; [exact Hd |]. split; [exact Hname | exact Hcount].
Defined.

Lemma template_failure_is_reported_witness :
  templateReady Sample.uploadProps (str "project-1") /\
  let r := handleTemplateSelect Sample.uploadProps Scenario.loansTemplate
             Scenario.unreachable (Sample.uploadState None) (initial Db.empty) in
  error (stateAfter r) = str "Failed to fetch" /\
  store (worldAfter r) = Db.empty.
Proof.
  split; [exact template_ready_sample |].
  destruct (@template_failure_is_reported Sample.uploadProps
              Scenario.loansTemplate Scenario.unreachable
              (Sample.uploadState None) (initial Db.empty) (str "project-1")
              {| message := str "Failed to fetch" |}
              template_ready_sample (or_intror eq_refl))
    as (_ & He & _ & _ & _ & _ & Hst).
  cbv zeta. split; [exact He | exact Hst].
Defined.

Lemma flag_follows_stored_name_witness :
  lowercasesAscii Sample.host /\
  isAscii (str "a,b,id") /\
  exists d,
    requests (worldAfter Sample.uploaded) = [InsertDataset d] /\
    Forall (fun c => Column.sensitive c = true <->
                     personal (asciiLower (Column.name c)))
      (Dataset.schema_json d).
Proof.
  assert (Hlow : lowercasesAscii Sample.host) by (intros s _; reflexivity).
  assert (Hascii : isAscii (str "a,b,id")) by (apply isAscii_check; reflexivity).
  split; [exact Hlow |]. split; [exact Hascii |].
  exact (@flag_follows_stored_name Sample.host Sample.uploadProps Sample.calm
           (Sample.uploadState (Some Sample.csvFile)) (initial Db.empty)
           Sample.csvFile (str "a,b,id") Hlow Hascii
           eq_refl (upload_ready_sample Sample.csvFile) eq_refl).
Defined.

End UploadMore.

(** ** The generation trigger *)

Module GeneratorFacts.
Import JS Db Run JSFacts RunFacts SyntheticGenerator GeneratorSpec.

(** Straight-line reduction of a handler body; requests and the joint
    wait are kept folded and handled by their lemmas. *)
Ltac run_monad :=
  lazy beta iota zeta delta
    [bind get ret throw modify tryCatchFinally await setTimeout
     Date_now Math_random setGenerating setError setSuccess toISOString
     worldAfter stateAfter resultOf
     fst snd store requests timers downloads clock_reads rng_draws
     dataset loading generating success error params
     Run.error data message].

Section WithPlatform.
Context {P : Platform}.

Section Run.
Variables (props : Props) (env : Env) (st : State) (w : World).
Variables (did : jsstring) (u : Auth.User).

(** A served Generation insert, at a time from which valid_until can
    be printed: the three inserts are sent, each is settled on its own,
    and only a rejection reaches the catch clause. *)
Lemma handleGenerate_served (gid : jsstring) :
  ready props did u ->
  net env (List.length (requests w)) = Served gid ->
  inTime env w ->
  let k := List.length (requests w) in
  let o1 := net env (1 + k) in
  let o2 := net env (2 + k) in
  let o3 := net env (3 + k) in
  handleGenerate props env st w =
  (Ok tt,
   {| dataset := dataset st; loading := loading st; generating := false;
      success := match firstRejection o1 o2 o3 with
                 | None => true
                 | Some _ => success st
                 end;
      error := match firstRejection o1 o2 o3 with
               | None => []
               | Some e => orElse (message e) (str "Generation failed")
               end;
      params := params st |},
   {| store :=
        settle (InsertComplianceReport (complianceOf env st w gid)) o3
          (settle (InsertUtilityMetrics (utilityOf env w gid)) o2
             (settle (InsertPrivacyMetrics (privacyOf env st w gid)) o1
                (commit (InsertGeneration (generationOf env st w did u)) gid
                   (store w))));
      requests :=
        requests w ++
        [InsertGeneration (generationOf env st w did u);
         InsertPrivacyMetrics (privacyOf env st w gid);
         InsertUtilityMetrics (utilityOf env w gid);
         InsertComplianceReport (complianceOf env st w gid)];
      timers := match firstRejection o1 o2 o3 with
                | None => timers w ++ [redirect]
                | Some _ => timers w
                end;
      downloads := downloads w;
      clock_reads := 4 + clock_reads w;
      rng_draws := 7 + rng_draws w |}).
Proof.
  intros (Hd & Ht & Hu) Hnet Htime k o1 o2 o3. subst k o1 o2 o3.
  unfold handleGenerate. rewrite Hd, Hu, Ht.
  unfold generationOf, privacyOf, utilityOf, complianceOf, redirect.
  unfold inTime in Htime. unfold validUntilOf in *.
  destruct w as [sto reqs tms dls cr rd], st as [ds ld gn sc er pr].
  cbn [requests] in Hnet. cbn [clock_reads Nat.add] in Htime.
  unfold send at 1. run_monad. rewrite Hnet. cbn [settled settle]. run_monad.
  rewrite Htime. run_monad.
  match goal with
  | |- context [awaitAll3 (send ?r1) (send ?r2) (send ?r3) ?e ?s ?w0] =>
      pose proof (awaitAll3_send r1 r2 r3 e s w0) as Hall
  end.
  cbv zeta in Hall.
  cbn [store requests timers downloads clock_reads rng_draws] in Hall.
  rewrite Hall. clear Hall.
  rewrite length_snoc, <- !app_assoc.
  cbn [app Nat.add].
  set (o1 := net env (S (List.length reqs))).
  set (o2 := net env (S (S (List.length reqs)))).
  set (o3 := net env (S (S (S (List.length reqs))))).
  clearbody o1 o2 o3.
  destruct o1, o2, o3; cbn [settled firstRejection]; run_monad; reflexivity.
Qed.

(** A served Generation insert at a time from which 365 days on is
    past the last date: printing valid_until throws, after the draws
    and before the three inserts, and the run ends in the catch clause
    with the Generation row committed. *)
Lemma handleGenerate_expired (gid : jsstring) :
  ready props did u ->
  net env (List.length (requests w)) = Served gid ->
  isTimeValue (validUntilOf env w) = false ->
  handleGenerate props env st w =
  (Ok tt,
   {| dataset := dataset st; loading := loading st; generating := false;
      success := success st;
      error := orElse rangeErrorMessage (str "Generation failed");
      params := params st |},
   {| store := commit (InsertGeneration (generationOf env st w did u)) gid
                 (store w);
      requests := requests w ++ [InsertGeneration (generationOf env st w did u)];
      timers := timers w;
      downloads := downloads w;
      clock_reads := 4 + clock_reads w;
      rng_draws := 7 + rng_draws w |}).
Proof.
  intros (Hd & Ht & Hu) Hnet Htime.
  unfold handleGenerate. rewrite Hd, Hu, Ht.
  unfold generationOf. unfold validUntilOf in Htime.
  destruct w as [sto reqs tms dls cr rd], st as [ds ld gn sc er pr].
  cbn [requests] in Hnet. cbn [clock_reads Nat.add] in Htime.
  unfold send at 1. run_monad. rewrite Hnet. cbn [settled settle]. run_monad.
  rewrite Htime. run_monad. reflexivity.
Qed.

(** A Generation insert that is answered with an error or rejects ends
    the run in the catch clause, before any metrics are drawn. *)
Lemma handleGenerate_refused (e : JsError) :
  ready props did u ->
  net env (List.length (requests w)) = ErrorResponse e \/
  net env (List.length (requests w)) = Reject e ->
  handleGenerate props env st w =
  (Ok tt,
   {| dataset := dataset st; loading := loading st; generating := false;
      success := success st;
      error := orElse (message e) (str "Generation failed");
      params := params st |},
   {| store := store w;
      requests := requests w ++ [InsertGeneration (generationOf env st w did u)];
      timers := timers w;
      downloads := downloads w;
      clock_reads := 2 + clock_reads w;
      rng_draws := rng_draws w |}).
Proof.
  intros (Hd & Ht & Hu) Hnet.
  unfold handleGenerate. rewrite Hd, Hu, Ht.
  unfold generationOf.
  destruct w as [sto reqs tms dls cr rd], st as [ds ld gn sc er pr].
  cbn [requests] in Hnet.
  unfold send at 1. run_monad.
  destruct Hnet as [-> | ->]; cbn [settled settle]; run_monad; reflexivity.
Qed.

(** Outside the guard nothing happens. *)
Lemma handleGenerate_cases :
  handleGenerate props env st w = (Ok tt, st, w) \/
  exists did' u', ready props did' u'.
Proof.
  unfold handleGenerate, ready.
  destruct (datasetId props) as [did' |]; [| now left].
  destruct (user props) as [u' |]; [| now left].
  destruct (truthy did') eqn:Ht; [| now left].
  right. eauto.
Qed.

End Run.

(** *** C2: the metric intervals *)

(** The value of [base + Math.random() * width] is smallest at the draw
    0 and largest at the largest draw below 1, because rounding is
    monotone. *)
Lemma scaled_bounds (base width hi r : Q) :
  validDraw r ->
  (0 <= base)%Q -> (0 <= width)%Q ->
  (B64.round base == base)%Q ->
  (B64.add base (B64.mul B64.pred_one width) <= hi)%Q ->
  (base <= scaled base width r)%Q /\ (scaled base width r <= hi)%Q.
Proof.
  intros (Hrep & H0 & H1) Hb Hw Hfix Hhi.
  pose proof (B64Facts.representable_below_one Hrep H0 H1) as Hr.
  unfold scaled, B64.add, B64.mul in *.
  assert (Hz : (0 <= B64.round (r * width))%Q).
  { change 0%Q with (B64.round 0).
    apply B64Facts.round_mono; [apply Qle_refl |].
    apply Qmult_le_0_compat; assumption. }
  split.
  - rewrite <- Hfix at 1. apply B64Facts.round_mono; [exact Hb |].
    rewrite <- (Qplus_0_r base) at 1. apply Qplus_le_r. exact Hz.
  - eapply Qle_trans; [| exact Hhi].
    apply B64Facts.round_mono.
    + rewrite <- (Qplus_0_r 0). apply Qplus_le_compat; assumption.
    + apply Qplus_le_r. apply B64Facts.round_mono.
      * apply Qmult_le_0_compat; assumption.
      * apply Qmult_le_compat_r; assumption.
Qed.

Ltac literal_bounds :=
  apply scaled_bounds;
  [ assumption
  | vm_compute; discriminate
  | vm_compute; discriminate
  | vm_compute; reflexivity
  | vm_compute; discriminate ].

Lemma privacyMetrics_in_range (params : Params.t) (gid : jsstring) (r1 r2 : Q) :
  validDraw r1 -> validDraw r2 ->
  privacyInRange (privacyMetrics params gid r1 r2).
Proof.
  intros H1 H2. unfold privacyInRange, within, privacyMetrics.
  cbn [PrivacyMetrics.privacy_risk_score PrivacyMetrics.leakage_probability].
  split; literal_bounds.
Qed.

Lemma utilityMetrics_in_range (gid : jsstring) (r1 r2 r3 r4 r5 : Q) :
  validDraw r1 -> validDraw r2 -> validDraw r3 -> validDraw r4 ->
  validDraw r5 ->
  utilityInRange (utilityMetrics gid r1 r2 r3 r4 r5).
Proof.
  intros H1 H2 H3 H4 H5. unfold utilityInRange, within, utilityMetrics.
  cbn [UtilityMetrics.fidelity_score UtilityMetrics.similarity_score
       UtilityMetrics.correlation_preservation
       UtilityMetrics.distribution_similarity
       UtilityMetrics.ml_efficacy_score].
  split; [| split; [| split; [| split]]]; literal_bounds.
Qed.

(** The metric and report tables after a run, whatever path it took:
    either they are as before, or the Generation insert was served at a
    time from which valid_until can be printed, and each of the three
    further inserts added its row if it was served too. *)
Lemma handleGenerate_tables (props : Props) (env : Env) (st : State) (w : World) :
  let w' := worldAfter (handleGenerate props env st w) in
  let k := List.length (requests w) in
  (privacy_metrics (store w') = privacy_metrics (store w) /\
   utility_metrics (store w') = utility_metrics (store w) /\
   compliance_reports (store w') = compliance_reports (store w)) \/
  exists gid,
    net env k = Served gid /\ inTime env w /\
    privacy_metrics (store w') =
      privacy_metrics (store w) ++
      match net env (1 + k) with
      | Served nid => [{| id := nid; fields := privacyOf env st w gid |}]
      | _ => []
      end /\
    utility_metrics (store w') =
      utility_metrics (store w) ++
      match net env (2 + k) with
      | Served nid => [{| id := nid; fields := utilityOf env w gid |}]
      | _ => []
      end /\
    compliance_reports (store w') =
      compliance_reports (store w) ++
      match net env (3 + k) with
      | Served nid => [{| id := nid; fields := complianceOf env st w gid |}]
      | _ => []
      end.
Proof.
  intros w' k. subst w' k.
  destruct (handleGenerate_cases props env st w) as [E | (did & u & Hready)].
  { left. rewrite E. auto. }
  destruct (net env (List.length (requests w))) as [gid | e | e] eqn:Hnet.
  - destruct (isTimeValue (validUntilOf env w)) eqn:Htime.
    + right. exists gid. split; [reflexivity |]. split; [exact Htime |].
      rewrite (@handleGenerate_served props env st w did u gid Hready Hnet Htime).
      cbn [worldAfter snd store].
      rewrite !settle_compliance, !settle_utility, !settle_privacy.
      cbn [commit privacy_metrics utility_metrics compliance_reports].
      cbv beta iota. rewrite !app_nil_r. repeat split; reflexivity.
    + left.
      rewrite (@handleGenerate_expired props env st w did u gid Hready Hnet Htime).
      cbn [worldAfter snd store commit privacy_metrics utility_metrics
           compliance_reports]. auto.
  - left. rewrite (@handleGenerate_refused props env st w did u e Hready) by auto.
    auto.
  - left. rewrite (@handleGenerate_refused props env st w did u e Hready) by auto.
    auto.
Qed.

(** C2: on every invocation of the generation trigger, each stored
    metric lies within its documented interval, for any binary64 draws
    in [0, 1): privacy_risk_score in [0.05, 0.15], leakage_probability in
    [0.001, 0.006], fidelity_score in [0.85, 0.95], similarity_score in
    [0.88, 0.96], correlation_preservation in [0.90, 0.98],
    distribution_similarity in [0.87, 0.96] and ml_efficacy_score in
    [0.82, 0.94].  Every row a run adds to the two metrics tables is in
    range, and a run whose inserts are served, at a time from which
    valid_until can be printed, adds one row to each. *)
Theorem generate_metric_bounds (props : Props) (env : Env) (st : State)
    (w : World) :
  (forall n, validDraw (rng env n)) ->
  let w' := worldAfter (handleGenerate props env st w) in
  let k := List.length (requests w) in
  (forall row, In row (privacy_metrics (store w')) ->
     In row (privacy_metrics (store w)) \/ privacyInRange (fields row)) /\
  (forall row, In row (utility_metrics (store w')) ->
     In row (utility_metrics (store w)) \/ utilityInRange (fields row)) /\
  (forall did u gid pid uid,
     ready props did u -> inTime env w -> net env k = Served gid ->
     net env (1 + k) = Served pid -> net env (2 + k) = Served uid ->
     exists pm um,
       privacy_metrics (store w') =
         privacy_metrics (store w) ++ [{| id := pid; fields := pm |}] /\
       utility_metrics (store w') =
         utility_metrics (store w) ++ [{| id := uid; fields := um |}] /\
       privacyInRange pm /\ utilityInRange um).
Proof.
  intros Hdraw. cbv zeta.
  assert (Hp : forall gid, privacyInRange (privacyOf env st w gid))
    by (intros; apply privacyMetrics_in_range; apply Hdraw).
  assert (Hu : forall gid, utilityInRange (utilityOf env w gid))
    by (intros; apply utilityMetrics_in_range; apply Hdraw).
  pose proof (handleGenerate_tables props env st w) as Ht. cbv zeta in Ht.
  split; [| split].
  - intros row. destruct Ht as [(-> & _) | (gid & _ & _ & -> & _)]; [auto |].
    rewrite in_app_iff. intros [H | H]; [now left | right].
    destruct (net env (1 + _)); cbn in H; try contradiction.
    destruct H as [<- | []]. apply Hp.
  - intros row. destruct Ht as [(_ & -> & _) | (gid & _ & _ & _ & -> & _)]; [auto |].
    rewrite in_app_iff. intros [H | H]; [now left | right].
    destruct (net env (2 + _)); cbn in H; try contradiction.
    destruct H as [<- | []]. apply Hu.
  - intros did u gid pid uid Hready Htime Hnet H1 H2. clear Ht.
    rewrite (@handleGenerate_served props env st w did u gid Hready Hnet Htime).
    cbn [worldAfter snd store].
    rewrite !settle_utility, !settle_privacy, H1, H2.
    cbn [commit privacy_metrics utility_metrics]. cbv beta iota.
    rewrite !app_nil_r. eauto 6.
Qed.

(** The compliance row of a served run. *)
Lemma handleGenerate_compliance (props : Props) (env : Env) (st : State)
    (w : World) (did : jsstring) (u : Auth.User) (gid : jsstring) :
  ready props did u ->
  net env (List.length (requests w)) = Served gid ->
  inTime env w ->
  let w' := worldAfter (handleGenerate props env st w) in
  let k := List.length (requests w) in
  In (InsertComplianceReport (complianceOf env st w gid)) (requests w') /\
  (forall cid, net env (3 + k) = Served cid ->
     compliance_reports (store w') =
     compliance_reports (store w) ++
     [{| id := cid; fields := complianceOf env st w gid |}]).
Proof.
  intros Hready Hnet Htime. cbv zeta.
  rewrite (@handleGenerate_served props env st w did u gid Hready Hnet Htime).
  cbn [worldAfter snd store requests].
  split; [apply in_or_app; right; cbn; auto |].
  intros cid Hc. rewrite Hc, !settle_compliance.
  cbn [commit compliance_reports]. cbv beta iota. now rewrite !app_nil_r.
Qed.

(** The compliance rows a run adds: none, or the one row of a run whose
    Generation insert was served in time and whose report insert was
    served too. *)
Lemma handleGenerate_reports (props : Props) (env : Env) (st : State)
    (w : World) :
  let w' := worldAfter (handleGenerate props env st w) in
  let k := List.length (requests w) in
  exists added,
    compliance_reports (store w') = compliance_reports (store w) ++ added /\
    (added = [] \/
     exists gid cid,
       net env k = Served gid /\ inTime env w /\ net env (3 + k) = Served cid /\
       added = [{| id := cid; fields := complianceOf env st w gid |}]) /\
    (forall did u gid cid,
       ready props did u -> inTime env w -> net env k = Served gid ->
       net env (3 + k) = Served cid ->
       added = [{| id := cid; fields := complianceOf env st w gid |}] /\
       In (InsertComplianceReport (complianceOf env st w gid)) (requests w')).
Proof.
  cbv zeta.
  destruct (handleGenerate_tables props env st w)
    as [(_ & _ & Hsame) | (gid & Hnet & Htime & _ & _ & Hrows)];
    cbv zeta in *.
  - exists []. rewrite app_nil_r. split; [exact Hsame |]. split; [now left |].
    intros did u gid cid Hready Htime Hnet Hc. exfalso.
    destruct (@handleGenerate_compliance props env st w did u gid
                Hready Hnet Htime) as [_ Hrow].
    rewrite (Hrow cid Hc) in Hsame.
    apply (f_equal (@List.length _)) in Hsame.
    rewrite length_app in Hsame. cbn in Hsame. lia.
  - eexists. split; [exact Hrows |]. split.
    + destruct (net env (3 + List.length (requests w))) as [cid | |] eqn:Hc;
        [right; exists gid, cid; auto | now left | now left].
    + intros did u gid' cid Hready _ Hnet' Hc.
      assert (gid' = gid) by congruence. subst gid'. rewrite Hc.
      split; [reflexivity |].
      apply (@handleGenerate_compliance props env st w did u gid
               Hready Hnet Htime).
Qed.

(** C5: for every epsilon e and k-anonymity k submitted, every
    compliance report a run stores carries the epsilon sign, "=" and e
    in privacy_guarantees and "k=" and k in anonymization, with the
    numbers as the template literal prints them, and its
    compliance_status is "compliant".  A run stores at most one report,
    and it stores one when the Generation insert and the report insert
    are served at a time from which valid_until can be printed. *)
Theorem generate_compliance_text (props : Props) (env : Env) (st : State)
    (w : World) :
  let w' := worldAfter (handleGenerate props env st w) in
  let k := List.length (requests w) in
  let e := numberToString (Params.epsilon (params st)) in
  let kk := numberToString (Params.k_anonymity (params st)) in
  exists added,
    compliance_reports (store w') = compliance_reports (store w) ++ added /\
    Forall (fun row =>
      let report := fields row in
      ComplianceReport.privacy_guarantees (ComplianceReport.report_data report)
        = [epsilonChar] ++ str "-differential privacy with " ++
          [epsilonChar] ++ str "=" ++ e /\
      occursIn ([epsilonChar] ++ str "=" ++ e)
        (ComplianceReport.privacy_guarantees (ComplianceReport.report_data report)) /\
      ComplianceReport.anonymization (ComplianceReport.report_data report)
        = str "k-anonymity with k=" ++ kk /\
      occursIn (str "k=" ++ kk)
        (ComplianceReport.anonymization (ComplianceReport.report_data report)) /\
      ComplianceReport.compliance_status report = str "compliant") added /\
    (forall did u gid cid,
       ready props did u -> inTime env w -> net env k = Served gid ->
       net env (3 + k) = Served cid ->
       exists report,
         added = [{| id := cid; fields := report |}] /\
         In (InsertComplianceReport report) (requests w')).
Proof.
  cbv zeta.
  destruct (handleGenerate_reports props env st w) as (added & Hrows & Hadded & Hone).
  cbv zeta in *.
  exists added. split; [exact Hrows |]. split.
  - destruct Hadded as [-> | (gid & cid & _ & _ & _ & ->)]; [constructor |].
    constructor; [| constructor].
    unfold complianceOf, complianceData.
    cbn [fields ComplianceReport.report_data ComplianceReport.privacy_guarantees
         ComplianceReport.anonymization ComplianceReport.compliance_status].
    split; [reflexivity |]. split.
    { exists ([epsilonChar] ++ str "-differential privacy with "), [].
      now rewrite app_nil_r, <- !app_assoc. }
    split; [reflexivity |]. split; [| reflexivity].
    exists (str "k-anonymity with "), []. now rewrite app_nil_r.
  - intros did u gid cid Hready Htime Hnet Hc.
    destruct (Hone did u gid cid Hready Htime Hnet Hc) as [E Hin].
    eexists. split; [exact E | exact Hin].
Qed.

(** C7, as the code has it: the valid_until of every compliance report
    a run stores is exactly 365 * 24 * 60 * 60 * 1000 ms after the
    reading [Date.now()] returns when the field is built.  That reading
    is taken after the one stamped as generated_at, so the stored window
    from generated_at to valid_until is 365 days plus whatever the clock
    advanced between the two readings, and it is exactly 365 days just
    when they coincide.  A run whose Generation and report inserts are
    served stores one report when that instant is a time value of a
    Date; when it is past the last date, printing it throws and the run
    stores none. *)
Theorem generate_valid_until (props : Props) (env : Env) (st : State)
    (w : World) :
  let w' := worldAfter (handleGenerate props env st w) in
  let k := List.length (requests w) in
  let generated := clock env (2 + clock_reads w) in
  let now := clock env (3 + clock_reads w) in
  exists added,
    compliance_reports (store w') = compliance_reports (store w) ++ added /\
    Forall (fun row =>
      let d := ComplianceReport.report_data (fields row) in
      ComplianceReport.generated_at d = ISO generated /\
      ComplianceReport.valid_until d = ISO (now + 365 * 24 * 60 * 60 * 1000) /\
      (epoch_ms (ComplianceReport.valid_until d)
       = epoch_ms (ComplianceReport.generated_at d)
         + 31536000000 + (now - generated))%Z /\
      (epoch_ms (ComplianceReport.valid_until d)
       = epoch_ms (ComplianceReport.generated_at d) + 31536000000
       <-> now = generated)%Z) added /\
    (forall did u gid cid,
       ready props did u ->
       isTimeValue (now + 365 * 24 * 60 * 60 * 1000) = true ->
       net env k = Served gid -> net env (3 + k) = Served cid ->
       exists report,
         added = [{| id := cid; fields := report |}] /\
         In (InsertComplianceReport report) (requests w')) /\
    (isTimeValue (now + 365 * 24 * 60 * 60 * 1000) = false -> added = []).
Proof.
  cbv zeta.
  destruct (handleGenerate_reports props env st w) as (added & Hrows & Hadded & Hone).
  cbv zeta in *.
  exists added. split; [exact Hrows |]. split; [| split].
  - destruct Hadded as [-> | (gid & cid & _ & _ & _ & ->)]; [constructor |].
    constructor; [| constructor].
    unfold complianceOf, complianceData, validUntilOf, validityWindow.
    cbn [fields ComplianceReport.report_data ComplianceReport.generated_at
         ComplianceReport.valid_until epoch_ms].
    repeat split; lia.
  - intros did u gid cid Hready Htime Hnet Hc.
    destruct (Hone did u gid cid Hready Htime Hnet Hc) as [E Hin].
    eexists. split; [exact E | exact Hin].
  - intros Htime.
    destruct Hadded as [-> | (gid & cid & _ & Hin & _)]; [reflexivity |].
    unfold inTime, validUntilOf, validityWindow in Hin. congruence.
Qed.

(** *** C1: the joint wait on the three inserts *)

(** In a run that reaches them, a rejection of one of the three inserts
    does abort the success transition, and the inserts that were served
    stay committed. *)
Corollary rejection_aborts_success (props : Props) (env : Env) (st : State)
    (w : World) (did : jsstring) (u : Auth.User) (gid : jsstring) (e : JsError) :
  ready props did u ->
  net env (List.length (requests w)) = Served gid ->
  inTime env w ->
  let k := List.length (requests w) in
  firstRejection (net env (1 + k)) (net env (2 + k)) (net env (3 + k)) = Some e ->
  let r := handleGenerate props env st w in
  success (stateAfter r) = success st /\
  error (stateAfter r) = orElse (message e) (str "Generation failed") /\
  timers (worldAfter r) = timers w /\
  store (worldAfter r) =
    settle (InsertComplianceReport (complianceOf env st w gid)) (net env (3 + k))
      (settle (InsertUtilityMetrics (utilityOf env w gid)) (net env (2 + k))
         (settle (InsertPrivacyMetrics (privacyOf env st w gid)) (net env (1 + k))
            (commit (InsertGeneration (generationOf env st w did u)) gid (store w)))).
Proof.
  intros Hready Hnet Htime k Hrej. subst k. cbv zeta.
  rewrite (@handleGenerate_served props env st w did u gid Hready Hnet Htime).
  cbn [stateAfter worldAfter fst snd success error timers store].
  rewrite Hrej. auto.
Qed.

(** An insert that is answered with an error, and does not reject, goes
    unnoticed: nothing reads the resolved values of the joint wait. *)
Corollary error_response_unnoticed (props : Props) (env : Env) (st : State)
    (w : World) (did : jsstring) (u : Auth.User) (gid : jsstring) :
  ready props did u ->
  net env (List.length (requests w)) = Served gid ->
  inTime env w ->
  let k := List.length (requests w) in
  firstRejection (net env (1 + k)) (net env (2 + k)) (net env (3 + k)) = None ->
  let r := handleGenerate props env st w in
  success (stateAfter r) = true /\
  error (stateAfter r) = [] /\
  timers (worldAfter r) = timers w ++ [redirect].
Proof.
  intros Hready Hnet Htime k Hrej. subst k. cbv zeta.
  rewrite (@handleGenerate_served props env st w did u gid Hready Hnet Htime).
  cbn [stateAfter worldAfter fst snd success error timers].
  rewrite Hrej. auto.
Qed.

End WithPlatform.

Lemma generator_ready_sample :
  ready Sample.generatorProps (str "dataset-1") Sample.alice.
Proof. repeat split. Qed.

Lemma calm_draws : forall n, validDraw (rng Sample.calm n).
Proof.
  intros n. unfold validDraw, B64.representable. cbn [rng Sample.calm].
  repeat split; vm_compute; (reflexivity || discriminate).
Qed.

(** C1 says that a failure of any one of the three metrics/report
    inserts keeps the run from declaring success.  Here the
    privacy_metrics insert is answered with an error while the other
    two are served: the run still sets success, schedules
    onGenerationComplete and shows no error, and the store holds the
    Generation with its utility metrics and compliance report but no
    privacy metrics. *)
Theorem failed_insert_still_succeeds :
  net Sample.flaky 1 = ErrorResponse {| message := str "permission denied" |} /\
  success (stateAfter Sample.generatedFlaky) = true /\
  error (stateAfter Sample.generatedFlaky) = [] /\
  timers (worldAfter Sample.generatedFlaky) = [redirect] /\
  List.length (synthetic_generations (store (worldAfter Sample.generatedFlaky)))
    = 1%nat /\
  privacy_metrics (store (worldAfter Sample.generatedFlaky)) = [] /\
  List.length (utility_metrics (store (worldAfter Sample.generatedFlaky)))
    = 1%nat /\
  List.length (compliance_reports (store (worldAfter Sample.generatedFlaky)))
    = 1%nat.
Proof. vm_compute. repeat split. Qed.

(** The same run with a rejection in place of the error answer: no
    success, the message is shown, and the other rows stay. *)
Example rejected_insert_aborts :
  success (stateAfter Sample.generatedOffline) = false /\
  error (stateAfter Sample.generatedOffline) = str "Failed to fetch" /\
  timers (worldAfter Sample.generatedOffline) = [] /\
  List.length (synthetic_generations (store (worldAfter Sample.generatedOffline)))
    = 1%nat /\
  privacy_metrics (store (worldAfter Sample.generatedOffline)) = [] /\
  List.length (utility_metrics (store (worldAfter Sample.generatedOffline)))
    = 1%nat /\
  List.length (compliance_reports (store (worldAfter Sample.generatedOffline)))
    = 1%nat.
Proof. vm_compute. repeat split. Qed.

(** C7 as stated fails: with a clock that advances between the two
    readings, the stored valid_until is not generated_at plus 365 days,
    nor the Generation row's started_at or completed_at plus 365 days. *)
Lemma valid_until_is_not_generated_at_plus_window :
  exists generation report,
    synthetic_generations (store (worldAfter Sample.generated)) = [generation] /\
    compliance_reports (store (worldAfter Sample.generated)) = [report] /\
    (epoch_ms (ComplianceReport.valid_until
                 (ComplianceReport.report_data (fields report)))
     <> epoch_ms (ComplianceReport.generated_at
                    (ComplianceReport.report_data (fields report)))
        + 365 * 24 * 60 * 60 * 1000)%Z /\
    (epoch_ms (ComplianceReport.valid_until
                 (ComplianceReport.report_data (fields report)))
     <> epoch_ms (Generation.started_at (fields generation))
        + 365 * 24 * 60 * 60 * 1000)%Z /\
    (epoch_ms (ComplianceReport.valid_until
                 (ComplianceReport.report_data (fields report)))
     <> epoch_ms (Generation.completed_at (fields generation))
        + 365 * 24 * 60 * 60 * 1000)%Z.
Proof.
  do 2 eexists. split; [vm_compute; reflexivity |].
  split; [vm_compute; reflexivity |].
  vm_compute. repeat split; discriminate.
Qed.

(** A second short of the last date, valid_until cannot be printed: the
    run stops on the RangeError with the Generation row committed, no
    further request sent, and no metrics or report stored. *)
Example run_past_the_last_date :
  isTimeValue (validUntilOf Scenario.lastDay (initial Db.empty)) = false /\
  resultOf Scenario.generatedLastDay = Ok tt /\
  success (stateAfter Scenario.generatedLastDay) = false /\
  error (stateAfter Scenario.generatedLastDay) = str "Invalid time value" /\
  timers (worldAfter Scenario.generatedLastDay) = [] /\
  List.length (requests (worldAfter Scenario.generatedLastDay)) = 1%nat /\
  List.length (synthetic_generations (store (worldAfter Scenario.generatedLastDay)))
    = 1%nat /\
  privacy_metrics (store (worldAfter Scenario.generatedLastDay)) = [] /\
  utility_metrics (store (worldAfter Scenario.generatedLastDay)) = [] /\
  compliance_reports (store (worldAfter Scenario.generatedLastDay)) = [].
Proof. vm_compute. repeat split. Qed.

Lemma generate_metric_bounds_witness :
  (forall n, validDraw (rng Sample.calm n)) /\
  exists pm um,
    privacy_metrics (store (worldAfter Sample.generated))
      = [{| id := str "row-1"; fields := pm |}] /\
    utility_metrics (store (worldAfter Sample.generated))
      = [{| id := str "row-2"; fields := um |}] /\
    privacyInRange pm /\ utilityInRange um.
Proof.
  split; [exact calm_draws |].
  destruct (@generate_metric_bounds Sample.host Sample.generatorProps
              Sample.calm Sample.generatorState (initial Db.empty)
              calm_draws) as (_ & _ & Hadd).
  apply (Hadd (str "dataset-1") Sample.alice (str "row-0"));
    [exact generator_ready_sample | reflexivity | reflexivity | reflexivity
    | reflexivity].
Defined.

Lemma generate_compliance_text_witness :
  ready Sample.generatorProps (str "dataset-1") Sample.alice /\
  inTime Sample.calm (initial Db.empty) /\
  net Sample.calm 0 = Served (str "row-0") /\
  exists report,
    compliance_reports (store (worldAfter Scenario.generatedStrict))
      = [{| id := str "row-3"; fields := report |}] /\
    occursIn ([epsilonChar] ++ str "=0.1")
      (ComplianceReport.privacy_guarantees (ComplianceReport.report_data report)) /\
    occursIn (str "k=5")
      (ComplianceReport.anonymization (ComplianceReport.report_data report)) /\
    ComplianceReport.compliance_status report = str "compliant".
Proof.
  split; [exact generator_ready_sample |]. split; [reflexivity |].
  split; [reflexivity |].
  destruct (@generate_compliance_text Sample.host Sample.generatorProps
              Sample.calm Scenario.strictState (initial Db.empty))
    as (added & Hrows & Htext & Hone).
  destruct (Hone (str "dataset-1") Sample.alice (str "row-0") (str "row-3")
              generator_ready_sample eq_refl eq_refl eq_refl)
    as (report & -> & _).
  exists report. split; [exact Hrows |].
  inversion Htext as [| ? ? (_ & Heps & _ & Hk & Hstatus) _]; subst.
  split; [exact Heps |]. split; [exact Hk | exact Hstatus].
Defined.

Lemma generate_valid_until_witness :
  ready Sample.generatorProps (str "dataset-1") Sample.alice /\
  isTimeValue (clock Sample.calm 3 + 365 * 24 * 60 * 60 * 1000) = true /\
  net Sample.calm 0 = Served (str "row-0") /\
  exists report,
    compliance_reports (store (worldAfter Sample.generated))
      = [{| id := str "row-3"; fields := report |}] /\
    ComplianceReport.valid_until (ComplianceReport.report_data report)
      = ISO (1700000000003 + 31536000000).
Proof.
  split; [exact generator_ready_sample |]. split; [reflexivity |].
  split; [reflexivity |].
  destruct (@generate_valid_until Sample.host Sample.generatorProps
              Sample.calm Sample.generatorState (initial Db.empty))
    as (added & Hrows & Hvalid & Hone & _).
  destruct (Hone (str "dataset-1") Sample.alice (str "row-0") (str "row-3")
              generator_ready_sample eq_refl eq_refl eq_refl)
    as (report & -> & _).
  exists report. split; [exact Hrows |].
  inversion Hvalid as [| ? ? (_ & Huntil & _) _]; subst.
  exact Huntil.
Defined.

End GeneratorFacts.

(** ** The generation trigger: failed runs, the rows of a run, repeats *)

Module GeneratorMore.
Import JS Db Run JSFacts RunFacts SyntheticGenerator GeneratorSpec FlowSpec.
Import GeneratorFacts GeneratorLoad.

(** [base + draw * width] does not decrease when the draw grows. *)
Lemma scaled_monotone (base width r1 r2 : Q) :
  (0 <= base)%Q -> (0 <= width)%Q -> (0 <= r1)%Q -> (r1 <= r2)%Q ->
  (scaled base width r1 <= scaled base width r2)%Q.
Proof.
  intros Hb Hw H1 H12. unfold scaled, B64.add, B64.mul.
  assert (Hz : (0 <= B64.round (r1 * width))%Q).
  { change 0%Q with (B64.round 0).
    apply B64Facts.round_mono; [apply Qle_refl |].
    apply Qmult_le_0_compat; assumption. }
  apply B64Facts.round_mono.
  - rewrite <- (Qplus_0_r 0). apply Qplus_le_compat; assumption.
  - apply Qplus_le_r. apply B64Facts.round_mono.
    + apply Qmult_le_0_compat; assumption.
    + apply Qmult_le_compat_r; assumption.
Qed.

Ltac literal_monotone :=
  apply scaled_monotone;
  [ vm_compute; discriminate | vm_compute; discriminate
  | assumption | assumption ].

Section WithPlatform.
Context {P : Platform}.

(** A served Generation insert commits its row, at any time. *)
Lemma handleGenerate_generation_row (props : Props) (env : Env) (st : State)
    (w : World) (did : jsstring) (u : Auth.User) (gid : jsstring) :
  ready props did u ->
  net env (List.length (requests w)) = Served gid ->
  synthetic_generations (store (worldAfter (handleGenerate props env st w)))
  = synthetic_generations (store w) ++
    [{| id := gid; fields := generationOf env st w did u |}].
Proof.
  intros Hready Hnet.
  destruct (isTimeValue (validUntilOf env w)) eqn:Htime.
  - rewrite (@handleGenerate_served P props env st w did u gid Hready Hnet Htime).
    cbn [worldAfter snd store]. rewrite !settle_generations.
    cbn [commit synthetic_generations]. cbv beta iota.
    now rewrite !app_nil_r.
  - rewrite (@handleGenerate_expired P props env st w did u gid Hready Hnet Htime).
    reflexivity.
Qed.

(** No run changes the loaded dataset, the loading flag or the
    parameters of the form. *)
Lemma handleGenerate_keeps_form (props : Props) (env : Env) (st : State)
    (w : World) :
  let st' := stateAfter (handleGenerate props env st w) in
  dataset st' = dataset st /\ loading st' = loading st /\ params st' = params st.
Proof.
  cbv zeta.
  destruct (handleGenerate_cases props env st w) as [E | (did & u & Hready)].
  { rewrite E. auto. }
  destruct (net env (List.length (requests w))) as [gid | e | e] eqn:Hnet.
  - destruct (isTimeValue (validUntilOf env w)) eqn:Htime.
    + rewrite (@handleGenerate_served P props env st w did u gid Hready Hnet Htime).
      auto.
    + rewrite (@handleGenerate_expired P props env st w did u gid Hready Hnet Htime).
      auto.
  - rewrite (@handleGenerate_refused P props env st w did u e Hready) by auto.
    auto.
  - rewrite (@handleGenerate_refused P props env st w did u e Hready) by auto.
    auto.
Qed.

(** X11: when the Generation insert fails, by an error answer or a
    rejection, the run ends there: the handler returns normally with
    the message shown, success is not set, nothing is scheduled, no
    random number is drawn, the only request sent is that insert, and
    the store is as before. *)
Theorem refused_generation_ends_the_run (props : Props) (env : Env)
    (st : State) (w : World) (did : jsstring) (u : Auth.User) (e : JsError) :
  ready props did u ->
  net env (List.length (requests w)) = ErrorResponse e \/
  net env (List.length (requests w)) = Reject e ->
  let r := handleGenerate props env st w in
  resultOf r = Ok tt /\
  success (stateAfter r) = success st /\
  error (stateAfter r) = orElse (message e) (str "Generation failed") /\
  truthy (error (stateAfter r)) = true /\
  generating (stateAfter r) = false /\
  store (worldAfter r) = store w /\
  (exists g, requests (worldAfter r) = requests w ++ [InsertGeneration g]) /\
  rng_draws (worldAfter r) = rng_draws w /\
  timers (worldAfter r) = timers w.
Proof.
  intros Hready Hnet. cbv zeta.
  rewrite (@handleGenerate_refused P props env st w did u e Hready Hnet).
  cbn [resultOf stateAfter worldAfter fst snd success error generating
       store requests rng_draws timers].
  repeat split; eauto. now apply orElse_truthy.
Qed.

(** X12: in a run whose four inserts are served, at a time from which
    valid_until can be printed, the three metric and report rows carry
    the id the server gave the Generation row of the same run, and that
    row records the dataset, the signed-in user, the submitted
    parameters, and the status "completed". *)
Theorem generated_rows_reference_the_generation (props : Props) (env : Env)
    (st : State) (w : World) (did : jsstring) (u : Auth.User)
    (gid pid uid cid : jsstring) :
  ready props did u -> inTime env w ->
  let k := List.length (requests w) in
  net env k = Served gid -> net env (1 + k) = Served pid ->
  net env (2 + k) = Served uid -> net env (3 + k) = Served cid ->
  let s' := store (worldAfter (handleGenerate props env st w)) in
  exists g pm um cr,
    synthetic_generations s'
      = synthetic_generations (store w) ++ [{| id := gid; fields := g |}] /\
    privacy_metrics s'
      = privacy_metrics (store w) ++ [{| id := pid; fields := pm |}] /\
    utility_metrics s'
      = utility_metrics (store w) ++ [{| id := uid; fields := um |}] /\
    compliance_reports s'
      = compliance_reports (store w) ++ [{| id := cid; fields := cr |}] /\
    PrivacyMetrics.generation_id pm = gid /\
    UtilityMetrics.generation_id um = gid /\
    ComplianceReport.generation_id cr = gid /\
    Generation.dataset_id g = did /\
    Generation.user_id g = Auth.id u /\
    Generation.status g = str "completed" /\
    Generation.parameters g = params st /\
    Generation.row_count g = Params.row_count (params st) /\
    Generation.model_type g = Params.model_type (params st) /\
    PrivacyMetrics.epsilon pm = Params.epsilon (params st) /\
    PrivacyMetrics.k_anonymity pm = Params.k_anonymity (params st).
Proof.
  intros Hready Htime k Hg Hp Hu Hc. subst k. cbv zeta.
  rewrite (@handleGenerate_served P props env st w did u gid Hready Hg Htime).
  cbn [worldAfter snd store]. rewrite Hp, Hu, Hc.
  cbn [settle commit synthetic_generations privacy_metrics utility_metrics
       compliance_reports].
  do 4 eexists. repeat split.
Qed.

(** X13: with a clock that never runs backwards, at a time from which
    valid_until can be printed, the timestamps of a run are in order:
    started_at, completed_at, the report's generated_at, and
    valid_until at least 365 days after generated_at. *)
Theorem generation_timestamps_in_order (props : Props) (env : Env)
    (st : State) (w : World) (did : jsstring) (u : Auth.User)
    (gid cid : jsstring) :
  monotone env ->
  ready props did u -> inTime env w ->
  let k := List.length (requests w) in
  net env k = Served gid -> net env (3 + k) = Served cid ->
  let s' := store (worldAfter (handleGenerate props env st w)) in
  exists g cr,
    synthetic_generations s'
      = synthetic_generations (store w) ++ [{| id := gid; fields := g |}] /\
    compliance_reports s'
      = compliance_reports (store w) ++ [{| id := cid; fields := cr |}] /\
    (epoch_ms (Generation.started_at g)
       <= epoch_ms (Generation.completed_at g))%Z /\
    (epoch_ms (Generation.completed_at g)
       <= epoch_ms (ComplianceReport.generated_at
                      (ComplianceReport.report_data cr)))%Z /\
    (epoch_ms (ComplianceReport.generated_at (ComplianceReport.report_data cr))
       + 365 * 24 * 60 * 60 * 1000
       <= epoch_ms (ComplianceReport.valid_until
                      (ComplianceReport.report_data cr)))%Z.
Proof.
  intros Hmono Hready Htime k Hg Hc. subst k. cbv zeta.
  rewrite (@handleGenerate_served P props env st w did u gid Hready Hg Htime).
  cbn [worldAfter snd store]. rewrite Hc.
  rewrite !settle_compliance, !settle_generations.
  cbn [commit synthetic_generations compliance_reports]. cbv beta iota.
  rewrite !app_nil_r.
  do 2 eexists. split; [reflexivity |]. split; [reflexivity |].
  unfold generationOf, complianceOf, newGeneration, complianceData,
    validUntilOf, validityWindow.
  cbn [Generation.started_at Generation.completed_at
       ComplianceReport.report_data ComplianceReport.generated_at
       ComplianceReport.valid_until epoch_ms].
  pose proof (Hmono (clock_reads w)) as H0.
  pose proof (Hmono (S (clock_reads w))) as H1.
  pose proof (Hmono (S (S (clock_reads w)))) as H2.
  cbn [Nat.add]. repeat split; lia.
Qed.

(** X14: every score grows with its draw: of two runs' metrics, the
    one built from the larger draws has the larger or equal scores,
    rounding included. *)
Theorem scores_grow_with_the_draws (params : Params.t) (gid : jsstring)
    (p1 p2 u1 u2 u3 u4 u5 p1' p2' u1' u2' u3' u4' u5' : Q) :
  (0 <= p1 <= p1')%Q -> (0 <= p2 <= p2')%Q ->
  (0 <= u1 <= u1')%Q -> (0 <= u2 <= u2')%Q -> (0 <= u3 <= u3')%Q ->
  (0 <= u4 <= u4')%Q -> (0 <= u5 <= u5')%Q ->
  let pm := privacyMetrics params gid p1 p2 in
  let pm' := privacyMetrics params gid p1' p2' in
  let um := utilityMetrics gid u1 u2 u3 u4 u5 in
  let um' := utilityMetrics gid u1' u2' u3' u4' u5' in
  (PrivacyMetrics.privacy_risk_score pm
     <= PrivacyMetrics.privacy_risk_score pm')%Q /\
  (PrivacyMetrics.leakage_probability pm
     <= PrivacyMetrics.leakage_probability pm')%Q /\
  (UtilityMetrics.fidelity_score um <= UtilityMetrics.fidelity_score um')%Q /\
  (UtilityMetrics.similarity_score um <= UtilityMetrics.similarity_score um')%Q /\
  (UtilityMetrics.correlation_preservation um
     <= UtilityMetrics.correlation_preservation um')%Q /\
  (UtilityMetrics.distribution_similarity um
     <= UtilityMetrics.distribution_similarity um')%Q /\
  (UtilityMetrics.ml_efficacy_score um <= UtilityMetrics.ml_efficacy_score um')%Q.
Proof.
  intros [? ?] [? ?] [? ?] [? ?] [? ?] [? ?] [? ?]. cbv zeta.
  unfold privacyMetrics, utilityMetrics.
  cbn [PrivacyMetrics.privacy_risk_score PrivacyMetrics.leakage_probability
       UtilityMetrics.fidelity_score UtilityMetrics.similarity_score
       UtilityMetrics.correlation_preservation
       UtilityMetrics.distribution_similarity
       UtilityMetrics.ml_efficacy_score].
  split; [| split; [| split; [| split; [| split; [| split]]]]];
    literal_monotone.
Qed.

(** X15: nothing keeps a failed submission from being repeated.  When
    the Generation insert of a run is served and the run then fails, by
    a rejected insert or by the RangeError of valid_until, its
    Generation row stays, the form is shown again, and a second
    submission whose Generation insert is served leaves two Generation
    rows for the same dataset and user with the same parameters. *)
Theorem repeated_submission_duplicates (props : Props) (env : Env)
    (st : State) (w : World) (did : jsstring) (u : Auth.User)
    (gid1 gid2 : jsstring) :
  ready props did u ->
  loading st = false ->
  net env (List.length (requests w)) = Served gid1 ->
  let r1 := handleGenerate props env st w in
  success (stateAfter r1) = false ->
  net env (List.length (requests (worldAfter r1))) = Served gid2 ->
  let r2 := handleGenerate props env (stateAfter r1) (worldAfter r1) in
  screen props (stateAfter r1) = GenerationForm /\
  exists g1 g2,
    synthetic_generations (store (worldAfter r1))
      = synthetic_generations (store w) ++ [{| id := gid1; fields := g1 |}] /\
    synthetic_generations (store (worldAfter r2))
      = synthetic_generations (store w) ++
        [{| id := gid1; fields := g1 |}; {| id := gid2; fields := g2 |}] /\
    Generation.dataset_id g1 = did /\ Generation.dataset_id g2 = did /\
    Generation.user_id g1 = Auth.id u /\ Generation.user_id g2 = Auth.id u /\
    Generation.parameters g1 = Generation.parameters g2.
Proof.
  intros Hready Hload Hg1 r1 Hfail Hg2 r2. subst r1 r2.
  destruct (handleGenerate_keeps_form props env st w) as (_ & Hl & Hp).
  cbv zeta in Hl, Hp. split.
  - unfold screen. destruct Hready as (-> & -> & _).
    now rewrite Hl, Hload, Hfail.
  - rewrite (@handleGenerate_generation_row props env _ _ did u gid2 Hready Hg2).
    rewrite (@handleGenerate_generation_row props env st w did u gid1 Hready Hg1).
    rewrite <- app_assoc. cbn [app].
    do 2 eexists. split; [reflexivity |]. split; [reflexivity |].
    unfold generationOf, newGeneration.
    cbn [Generation.dataset_id Generation.user_id Generation.parameters].
    rewrite Hp. repeat split.
Qed.

(** X16: the scores do not look at the request: two runs at the same
    point of the environment, at a time from which valid_until can be
    printed, for whatever datasets, users and parameters, store the
    same privacy risk score and leakage probability and the same
    utility scores; only the epsilon and k that the privacy row repeats
    differ. *)
Theorem scores_ignore_the_request (props props' : Props) (env : Env)
    (st st' : State) (w : World) (did did' : jsstring) (u u' : Auth.User)
    (gid pid uid : jsstring) :
  ready props did u -> ready props' did' u' -> inTime env w ->
  let k := List.length (requests w) in
  net env k = Served gid -> net env (1 + k) = Served pid ->
  net env (2 + k) = Served uid ->
  let s1 := store (worldAfter (handleGenerate props env st w)) in
  let s2 := store (worldAfter (handleGenerate props' env st' w)) in
  exists pm pm' um,
    privacy_metrics s1
      = privacy_metrics (store w) ++ [{| id := pid; fields := pm |}] /\
    privacy_metrics s2
      = privacy_metrics (store w) ++ [{| id := pid; fields := pm' |}] /\
    utility_metrics s1
      = utility_metrics (store w) ++ [{| id := uid; fields := um |}] /\
    utility_metrics s2
      = utility_metrics (store w) ++ [{| id := uid; fields := um |}] /\
    PrivacyMetrics.privacy_risk_score pm = PrivacyMetrics.privacy_risk_score pm' /\
    PrivacyMetrics.leakage_probability pm = PrivacyMetrics.leakage_probability pm'.
Proof.
  intros Hready Hready' Htime k Hg Hp Hu. subst k. cbv zeta.
  rewrite (@handleGenerate_served P props env st w did u gid Hready Hg Htime).
  rewrite (@handleGenerate_served P props' env st' w did' u' gid Hready' Hg Htime).
  cbn [worldAfter snd store]. rewrite Hp, Hu.
  rewrite !settle_privacy, !settle_utility.
  cbn [commit privacy_metrics utility_metrics]. cbv beta iota.
  rewrite !app_nil_r.
  do 3 eexists. repeat split.
Qed.

End WithPlatform.

Lemma monotone_calm : monotone Sample.calm.
Proof. intros n. cbn [clock Sample.calm]. lia. Qed.

Lemma refused_generation_ends_the_run_witness :
  ready Sample.generatorProps (str "dataset-1") Sample.alice /\
  let r := handleGenerate (P := Sample.host) Sample.generatorProps
             Scenario.refusing Sample.generatorState (initial Db.empty) in
  error (stateAfter r) = str "permission denied" /\
  store (worldAfter r) = Db.empty /\
  rng_draws (worldAfter r) = 0%nat.
Proof.
  split; [exact generator_ready_sample |].
  destruct (@refused_generation_ends_the_run Sample.host Sample.generatorProps
              Scenario.refusing Sample.generatorState (initial Db.empty)
              (str "dataset-1") Sample.alice
              {| message := str "permission denied" |}
              generator_ready_sample (or_introl eq_refl))
    as (_ & _ & He & _ & _ & Hst & _ & Hrng & _).
  cbv zeta. split; [exact He |]. split; [exact Hst | exact Hrng].
Defined.

Lemma generated_rows_reference_the_generation_witness :
  ready Sample.generatorProps (str "dataset-1") Sample.alice /\
  inTime Sample.calm (initial Db.empty) /\
  exists g pm,
    synthetic_generations (store (worldAfter Sample.generated))
      = [{| id := str "row-0"; fields := g |}] /\
    privacy_metrics (store (worldAfter Sample.generated))
      = [{| id := str "row-1"; fields := pm |}] /\
    PrivacyMetrics.generation_id pm = str "row-0" /\
    Generation.dataset_id g = str "dataset-1".
Proof.
  split; [exact generator_ready_sample |]. split; [reflexivity |].
  destruct (@generated_rows_reference_the_generation Sample.host
              Sample.generatorProps Sample.calm Sample.generatorState
              (initial Db.empty) (str "dataset-1") Sample.alice
              (str "row-0") (str "row-1") (str "row-2") (str "row-3")
              generator_ready_sample eq_refl eq_refl eq_refl eq_refl eq_refl)
    as (g & pm & um & cr & Hg & Hpm & _ & _ & Hid & _ & _ & Hd & _).
  exists g, pm. repeat split; assumption.
Defined.

Lemma generation_timestamps_in_order_witness :
  monotone Sample.calm /\
  inTime Sample.calm (initial Db.empty) /\
  exists g cr,
    synthetic_generations (store (worldAfter Sample.generated))
      = [{| id := str "row-0"; fields := g |}] /\
    compliance_reports (store (worldAfter Sample.generated))
      = [{| id := str "row-3"; fields := cr |}] /\
    (epoch_ms (Generation.started_at g)
       <= epoch_ms (ComplianceReport.generated_at
                      (ComplianceReport.report_data cr)))%Z.
Proof.
  split; [exact monotone_calm |]. split; [reflexivity |].
  destruct (@generation_timestamps_in_order Sample.host
              Sample.generatorProps Sample.calm Sample.generatorState
              (initial Db.empty) (str "dataset-1") Sample.alice
              (str "row-0") (str "row-3")
              monotone_calm generator_ready_sample eq_refl eq_refl eq_refl)
    as (g & cr & Hg & Hcr & H1 & H2 & _).
  exists g, cr. split; [exact Hg |]. split; [exact Hcr | lia].
Defined.

Lemma scores_grow_with_the_draws_witness :
  (0 <= 1 # 4 <= 1 # 2)%Q /\
  (PrivacyMetrics.privacy_risk_score
     (privacyMetrics (params Sample.generatorState)
        (str "row-0") (1 # 4) (1 # 4))
   <= PrivacyMetrics.privacy_risk_score
        (privacyMetrics (params Sample.generatorState)
           (str "row-0") (1 # 2) (1 # 2)))%Q.
Proof.
  assert (H : (0 <= 1 # 4 <= 1 # 2)%Q) by (split; discriminate).
  split; [exact H |].
  destruct (@scores_grow_with_the_draws
              (params Sample.generatorState) (str "row-0")
              (1 # 4) (1 # 4) (1 # 4) (1 # 4) (1 # 4) (1 # 4) (1 # 4)
              (1 # 2) (1 # 2) (1 # 2) (1 # 2) (1 # 2) (1 # 2) (1 # 2)
              H H H H H H H) as (Hp & _).
  exact Hp.
Defined.

Lemma repeated_submission_duplicates_witness :
  ready Sample.generatorProps (str "dataset-1") Sample.alice /\
  success (stateAfter Sample.generatedOffline) = false /\
  net Sample.offline (List.length (requests (worldAfter Sample.generatedOffline)))
    = Served (str "row-4") /\
  List.length
    (synthetic_generations
       (store (worldAfter
          (handleGenerate (P := Sample.host) Sample.generatorProps Sample.offline
             (stateAfter Sample.generatedOffline)
             (worldAfter Sample.generatedOffline)))))
  = 2%nat.
Proof.
  split; [exact generator_ready_sample |]. split; [reflexivity |].
  split; [reflexivity |].
  destruct (@repeated_submission_duplicates Sample.host
              Sample.generatorProps Sample.offline Sample.generatorState
              (initial Db.empty) (str "dataset-1") Sample.alice
              (str "row-0") (str "row-4")
              generator_ready_sample eq_refl eq_refl eq_refl eq_refl)
    as (_ & g1 & g2 & _ & Hrows & _).
  unfold Sample.generatedOffline.
  rewrite Hrows. reflexivity.
Defined.

Lemma scores_ignore_the_request_witness :
  ready Sample.generatorProps (str "dataset-1") Sample.alice /\
  inTime Sample.calm (initial Db.empty) /\
  exists pm pm',
    privacy_metrics (store (worldAfter Sample.generated))
      = [{| id := str "row-1"; fields := pm |}] /\
    privacy_metrics
      (store (worldAfter
         (handleGenerate (P := Sample.host)
            {| datasetId := Some (str "dataset-2"); user := Some Sample.bob |}
            Sample.calm Sample.generatorState (initial Db.empty))))
      = [{| id := str "row-1"; fields := pm' |}] /\
    PrivacyMetrics.privacy_risk_score pm = PrivacyMetrics.privacy_risk_score pm'.
Proof.
  split; [exact generator_ready_sample |]. split; [reflexivity |].
  destruct (@scores_ignore_the_request Sample.host Sample.generatorProps
              {| datasetId := Some (str "dataset-2"); user := Some Sample.bob |}
              Sample.calm Sample.generatorState Sample.generatorState
              (initial Db.empty) (str "dataset-1") (str "dataset-2")
              Sample.alice Sample.bob (str "row-0") (str "row-1") (str "row-2")
              generator_ready_sample (conj eq_refl (conj eq_refl eq_refl))
              eq_refl eq_refl eq_refl eq_refl)
    as (pm & pm' & um & H1 & H2 & _ & _ & Hscore & _).
  exists pm, pm'. split; [exact H1 |]. split; [exact H2 | exact Hscore].
Defined.

End GeneratorMore.

(** ** The metrics viewer: the exported file *)

Module ViewerFacts.
Import JS Db Run JSFacts PrivacyMetricsView.

Section WithPlatform.
Context {P : Platform}.

(** C9: the export produces a plain-text file named
    "compliance-report-" followed by exactly the first 8 characters of
    the generation's id and ".txt", and involves no server endpoint: no
    request is sent and the store is not touched. *)
Theorem export_file_name (gen : Generation) (report : Report) (env : Env)
    (st : State) (w : World) :
  nth_error (compliance_reports gen) 0 = Some report ->
  let r := downloadComplianceReport gen env st w in
  exists file prefix rest,
    downloads (worldAfter r) = downloads w ++ [file] /\
    download file = str "compliance-report-" ++ prefix ++ str ".txt" /\
    id gen = prefix ++ rest /\
    List.length prefix = Nat.min 8 (List.length (id gen)) /\
    mime file = str "text/plain" /\
    content file = trim (reportTemplate gen report) /\
    requests (worldAfter r) = requests w /\
    store (worldAfter r) = store w /\
    stateAfter r = st.
Proof.
  intros Hrep r. subst r. unfold downloadComplianceReport. rewrite Hrep.
  unfold offerDownload.
  cbn [worldAfter stateAfter fst snd downloads requests store].
  eexists. exists (slice0 8 (id gen)), (skipn 8 (id gen)).
  split; [reflexivity |].
  cbn [download mime content]. unfold slice0.
  repeat split.
  - symmetry. apply firstn_skipn.
  - apply length_firstn.
Qed.

(** Without a report nothing is offered. *)
Lemma export_without_report (gen : Generation) (env : Env) (st : State)
    (w : World) :
  nth_error (compliance_reports gen) 0 = None ->
  downloadComplianceReport gen env st w = (Ok tt, st, w).
Proof. intros H. unfold downloadComplianceReport. now rewrite H. Qed.

End WithPlatform.

Lemma export_file_name_witness :
  nth_error (compliance_reports Sample.viewedGeneration) 0 <> None /\
  exists file,
    downloads (worldAfter Sample.exported) = [file] /\
    download file = str "compliance-report-3f2b8c1e.txt".
Proof.
  split; [discriminate |].
  destruct (@export_file_name Sample.host Sample.viewedGeneration _
              Sample.calm Sample.viewerState (initial Db.empty) eq_refl)
    as (file & prefix & rest & Hd & Hname & Hid & Hlen & _).
  exists file. split; [exact Hd |].
  rewrite Hname. do 2 f_equal.
  assert (Hlen' : List.length prefix = 8%nat) by exact Hlen.
  clear - Hid Hlen'.
  do 8 (destruct prefix as [| ? prefix]; [discriminate Hlen' |]).
  destruct prefix; [| discriminate Hlen'].
  cbv in Hid. now inversion Hid.
Defined.

End ViewerFacts.

(** ** The dashboard shell: aggregate counts *)

Module DashboardFacts.
Import JS Db Run JSFacts RunFacts Dashboard DashboardSpec.

Lemma count_own_projects (s : Store) (u : Auth.User) :
  countRows s Projects [{| column := str "user_id"; value := Auth.id u |}]
  = Z.of_nat (List.length (ownProjects s u)).
Proof.
  unfold countRows, ownProjects. do 2 f_equal. apply filter_ext.
  intros p. unfold satisfies. cbn [forallb column value].
  change (projectColumn p (str "user_id"))
    with (Some (Project.user_id (fields p))).
  now rewrite andb_true_r.
Qed.

Lemma count_own_generations (s : Store) (u : Auth.User) :
  countRows s SyntheticGenerations
    [{| column := str "user_id"; value := Auth.id u |}]
  = Z.of_nat (List.length (ownGenerations s u)).
Proof.
  unfold countRows, ownGenerations. do 2 f_equal. apply filter_ext.
  intros g. unfold satisfies. cbn [forallb column value].
  change (generationColumn g (str "user_id"))
    with (Some (Generation.user_id (fields g))).
  now rewrite andb_true_r.
Qed.

Lemma count_all_datasets (s : Store) :
  countRows s Datasets [] = Z.of_nat (List.length (datasets s)).
Proof.
  unfold countRows. do 2 f_equal.
  induction (datasets s) as [| d l IH]; [reflexivity |].
  cbn [filter satisfies forallb]. now f_equal.
Qed.

(** The counts a served run stores. *)
Lemma loadStats_served (u : Auth.User) (env : Env) (st : State) (w : World) :
  served env w ->
  stats (stateAfter (loadStats (Some u) env st w)) =
  {| totalProjects := Z.of_nat (List.length (ownProjects (store w) u));
     totalDatasets := Z.of_nat (List.length (datasets (store w)));
     totalGenerations := Z.of_nat (List.length (ownGenerations (store w) u));
     recentActivity := Z.of_nat (List.length (ownGenerations (store w) u)) |}.
Proof.
  intros ((i1 & H1) & (i2 & H2) & (i3 & H3)).
  unfold loadStats, bind.
  match goal with
  | |- context [awaitAll3 (send ?r1) (send ?r2) (send ?r3) ?e ?s ?w0] =>
      pose proof (awaitAll3_send r1 r2 r3 e s w0) as Hall
  end.
  cbv zeta in Hall. rewrite Hall, H1, H2, H3. clear Hall.
  cbn [settled settle commit setStats modify stateAfter fst snd stats
       count orZero].
  now rewrite count_own_projects, count_own_generations, count_all_datasets.
Qed.

(** A rejected query leaves the counts as they were. *)
Lemma loadStats_rejected (u : Auth.User) (env : Env) (st : State) (w : World)
    (e : JsError) :
  let k := List.length (requests w) in
  firstRejection (net env k) (net env (1 + k)) (net env (2 + k)) = Some e ->
  resultOf (loadStats (Some u) env st w) = Threw e /\
  stateAfter (loadStats (Some u) env st w) = st.
Proof.
  intros k Hrej. subst k. unfold loadStats, bind.
  match goal with
  | |- context [awaitAll3 (send ?r1) (send ?r2) (send ?r3) ?e ?s ?w0] =>
      pose proof (awaitAll3_send r1 r2 r3 e s w0) as Hall
  end.
  cbv zeta in Hall. rewrite Hall. clear Hall.
  rewrite (joint_wait_rejects _ _ _ _ _ _ _ _ _ Hrej). split; reflexivity.
Qed.

(** Datasets of other users do not enter the user's own datasets. *)
Lemma ownDatasets_unchanged (s : Store) (u : Auth.User)
    (extra : list (Row Dataset.t)) :
  Forall (ownedByAnother s u) extra ->
  ownDatasets (withDatasets extra s) u = ownDatasets s u.
Proof.
  intros Hother. unfold ownDatasets. cbn [withDatasets datasets].
  rewrite filter_app.
  change (fun d => match ownerOf (withDatasets extra s) d with
                   | Some v => eqb v (Auth.id u)
                   | None => false
                   end)
    with (fun d => match ownerOf s d with
                   | Some v => eqb v (Auth.id u)
                   | None => false
                   end).
  rewrite <- app_nil_r. f_equal.
  induction Hother as [| d l (v & Hv & Hne) _ IH]; [reflexivity |].
  cbn [filter]. rewrite Hv.
  destruct (eqb v (Auth.id u)) eqn:E; [| exact IH].
  apply eqb_eq in E. contradiction.
Qed.

Lemma foreign_spec (s : Store) (u : Auth.User) (d : Row Dataset.t) :
  foreign s u d = true <-> ownedByAnother s u d.
Proof.
  unfold foreign, ownedByAnother. destruct (ownerOf s d) as [v |].
  - rewrite negb_true_iff. split.
    + intros E. exists v. split; [reflexivity |].
      intros ->. now rewrite eqb_refl in E.
    + intros (v' & Hv & Hne). inversion Hv; subst v'.
      destruct (eqb v (Auth.id u)) eqn:E; [| reflexivity].
      apply eqb_eq in E. contradiction.
  - split; [discriminate | intros (v & Hv & _); discriminate].
Qed.

(** The datasets are those of other users and the rest. *)
Lemma datasets_split (s : Store) (u : Auth.User) :
  List.length (datasets s)
  = (List.length (foreignDatasets s u)
     + List.length (filter (fun d => negb (foreign s u d)) (datasets s)))%nat.
Proof. unfold foreignDatasets. symmetry. apply filter_length. Qed.

(** The user's own datasets are among the rest. *)
Lemma ownDatasets_rest (s : Store) (u : Auth.User) :
  ownDatasets s u
  = filter (fun d => match ownerOf s d with
                     | Some v => eqb v (Auth.id u)
                     | None => false
                     end)
      (filter (fun d => negb (foreign s u d)) (datasets s)).
Proof.
  unfold ownDatasets.
  induction (datasets s) as [| d l IH]; [reflexivity |].
  cbn [filter]. unfold foreign at 1.
  destruct (ownerOf s d) as [v |] eqn:Hv.
  - destruct (eqb v (Auth.id u)) eqn:E; cbn [negb filter].
    + rewrite Hv, E. now f_equal.
    + exact IH.
  - cbn [negb filter]. rewrite Hv. exact IH.
Qed.

Lemma ownerOf_projects (s1 s2 : Store) (d : Row Dataset.t) :
  projects s1 = projects s2 -> ownerOf s1 d = ownerOf s2 d.
Proof. unfold ownerOf. now intros ->. Qed.

(** C6, as the code has it: the project count and the generation count
    are taken over the rows whose user_id is the signed-in user's id,
    and the dataset count over all rows, whoever owns them.  Two store
    states that differ only in datasets owned by other users give the
    same project and generation counts, although the user's own
    datasets are the same in both, and dataset counts whose difference
    is the difference in the number of those datasets: the counts are
    different exactly when the two states hold different numbers of
    other users' datasets. *)
Theorem dataset_count_ignores_owner (u : Auth.User) (env : Env) (st : State)
    (w1 w2 : World) :
  served env w1 -> served env w2 ->
  differOnlyInForeign u (store w1) (store w2) ->
  let s1 := stats (stateAfter (loadStats (Some u) env st w1)) in
  let s2 := stats (stateAfter (loadStats (Some u) env st w2)) in
  totalProjects s1 = Z.of_nat (List.length (ownProjects (store w1) u)) /\
  totalGenerations s1 = Z.of_nat (List.length (ownGenerations (store w1) u)) /\
  totalDatasets s1 = Z.of_nat (List.length (datasets (store w1))) /\
  totalDatasets s2 = Z.of_nat (List.length (datasets (store w2))) /\
  ownDatasets (store w2) u = ownDatasets (store w1) u /\
  totalProjects s2 = totalProjects s1 /\
  totalGenerations s2 = totalGenerations s1 /\
  (totalDatasets s2 - totalDatasets s1
   = Z.of_nat (List.length (foreignDatasets (store w2) u))
     - Z.of_nat (List.length (foreignDatasets (store w1) u)))%Z /\
  (totalDatasets s2 <> totalDatasets s1 <->
   List.length (foreignDatasets (store w2) u)
   <> List.length (foreignDatasets (store w1) u)).
Proof.
  intros Hserved1 Hserved2 (Hp & Hg & _ & _ & _ & Hrest). cbv zeta.
  rewrite (loadStats_served u st Hserved1), (loadStats_served u st Hserved2).
  cbn [totalProjects totalGenerations totalDatasets].
  pose proof (datasets_split (store w1) u) as H1.
  pose proof (datasets_split (store w2) u) as H2.
  rewrite Hrest in H1.
  assert (Hown : ownDatasets (store w2) u = ownDatasets (store w1) u).
  { rewrite !ownDatasets_rest, Hrest. apply filter_ext.
    intros d. now rewrite (@ownerOf_projects (store w1) (store w2) d Hp). }
  unfold ownProjects, ownGenerations. rewrite Hp, Hg.
  repeat split; try assumption; try lia.
Qed.

Lemma served_calm (w : World) : served Sample.calm w.
Proof. repeat split; eexists; reflexivity. Qed.

Lemma differ_in_bobs (s : Store) :
  s = Scenario.withBobs \/ s = Scenario.withBobsOther ->
  differOnlyInForeign Sample.alice Sample.sharedStore s.
Proof. intros [-> | ->]; repeat split. Qed.

(** C6 says that two store states that differ only in datasets owned by
    other users give different dataset counts.  Here the two states
    hold each one dataset of Bob's, not the same one: they differ only
    in datasets owned by another user, and Alice's dashboard counts two
    datasets in both. *)
Lemma replaced_foreign_dataset_keeps_count :
  differOnlyInForeign Sample.alice Scenario.withBobs Scenario.withBobsOther /\
  datasets Scenario.withBobs <> datasets Scenario.withBobsOther /\
  foreignDatasets Scenario.withBobs Sample.alice = [Sample.bobsDataset] /\
  foreignDatasets Scenario.withBobsOther Sample.alice
    = [Scenario.bobsOtherDataset] /\
  ownedByAnother Scenario.withBobs Sample.alice Sample.bobsDataset /\
  ownedByAnother Scenario.withBobsOther Sample.alice Scenario.bobsOtherDataset /\
  totalDatasets
    (stats (stateAfter (loadStats (Some Sample.alice) Sample.calm
                          Sample.dashboardState (initial Scenario.withBobs))))
  = 2%Z /\
  totalDatasets
    (stats (stateAfter (loadStats (Some Sample.alice) Sample.calm
                          Sample.dashboardState (initial Scenario.withBobsOther))))
  = 2%Z.
Proof.
  split; [repeat split |].
  split; [vm_compute; discriminate |].
  split; [reflexivity |]. split; [reflexivity |].
  split; [apply foreign_spec; reflexivity |].
  split; [apply foreign_spec; reflexivity |].
  split; reflexivity.
Qed.

Lemma dataset_count_ignores_owner_witness :
  differOnlyInForeign Sample.alice Sample.sharedStore Scenario.withBobs /\
  stats (stateAfter (loadStats (Some Sample.alice) Sample.calm
                       Sample.dashboardState (initial Sample.sharedStore)))
  = {| totalProjects := 1; totalDatasets := 1;
       totalGenerations := 0; recentActivity := 0 |} /\
  totalDatasets
    (stats (stateAfter
       (loadStats (Some Sample.alice) Sample.calm Sample.dashboardState
          (initial Scenario.withBobs))))
  <> 1%Z.
Proof.
  assert (Hdiff : differOnlyInForeign Sample.alice Sample.sharedStore
                    Scenario.withBobs) by (apply differ_in_bobs; now left).
  split; [exact Hdiff |]. split; [reflexivity |].
  destruct (@dataset_count_ignores_owner Sample.alice Sample.calm
              Sample.dashboardState (initial Sample.sharedStore)
              (initial Scenario.withBobs)
              (served_calm _) (served_calm _) Hdiff)
    as (_ & _ & _ & _ & _ & _ & _ & _ & Hiff).
  apply Hiff. vm_compute. discriminate.
Defined.

End DashboardFacts.

(** ** The metrics viewer: the text of the exported report *)

Module ViewerMore.
Import JS Db Run JSFacts TextFacts PrivacyMetricsView FlowSpec.

Lemma existsb_app_r {A} (f : A -> bool) (a b : list A) :
  existsb f b = true -> existsb f (a ++ b) = true.
Proof. intros H. rewrite existsb_app, H. apply orb_true_r. Qed.

(** Trimming the end of a text reaches no further than its last visible
    code unit. *)
Lemma trimEnd_app (a b : jsstring) :
  existsb visible b = true -> trimEnd (a ++ b) = a ++ trimEnd b.
Proof.
  intros Hb. unfold trimEnd. rewrite rev_app_distr.
  assert (H : forall x y, existsb visible x = true ->
                          trimStart (x ++ y) = trimStart x ++ y).
  { induction x as [| c x IH]; cbn [existsb app trimStart]; [discriminate |].
    intros y. unfold visible at 1. destruct (isWhiteSpace c); cbn [negb orb].
    - intros Hx. now apply IH.
    - reflexivity. }
  rewrite H by now rewrite existsb_rev.
  now rewrite rev_app_distr, rev_involutive.
Qed.

Lemma occursIn_here (pat post : jsstring) : occursIn pat (pat ++ post).
Proof. now exists [], post. Qed.

Lemma occursIn_label (label value post : jsstring) :
  occursIn (label ++ value) (label ++ value ++ post).
Proof. exists [], post. now rewrite <- app_assoc. Qed.

Lemma occursIn_app_r (pat a b : jsstring) : occursIn pat b -> occursIn pat (a ++ b).
Proof.
  intros (pre & post & ->). exists (a ++ pre), post. now rewrite <- app_assoc.
Qed.

Lemma closing_visible :
  existsb visible (closing ++ nl ++ str "    ") = true.
Proof. reflexivity. Qed.

Lemma closing_trimmed : trimEnd (closing ++ nl ++ str "    ") = closing.
Proof. reflexivity. Qed.

Ltac tail_visible :=
  first [ exact closing_visible | apply existsb_app_r; tail_visible ].

Ltac find_occurrence :=
  first [ apply occursIn_here | apply occursIn_label
        | apply occursIn_app_r; find_occurrence ].

Section WithPlatform.
Context {P : Platform}.

(** X17: the exported text is the template without its first line
    break and without the line break and four spaces after its last
    sentence, and nothing else is lost, whatever the fields hold: it
    begins with the title, and the report's privacy guarantees, its
    anonymization line and the dataset name appear in it as stored. *)
Theorem export_text_is_the_template (gen : Generation) (report : Report)
    (env : Env) (st : State) (w : World) :
  nth_error (compliance_reports gen) 0 = Some report ->
  let r := downloadComplianceReport gen env st w in
  exists file,
    downloads (worldAfter r) = downloads w ++ [file] /\
    reportTemplate gen report = nl ++ content file ++ nl ++ str "    " /\
    startsWith (content file)
      (str "KENYA DATA PROTECTION ACT COMPLIANCE REPORT") = true /\
    occursIn (ComplianceReport.privacy_guarantees (report_data report))
      (content file) /\
    occursIn (str "Anonymization: " ++
              ComplianceReport.anonymization (report_data report))
      (content file) /\
    occursIn (str "Name: " ++ dataset_name gen) (content file).
Proof.
  intros Hrep r. subst r. unfold downloadComplianceReport. rewrite Hrep.
  unfold offerDownload.
  cbn [worldAfter snd downloads].
  eexists. split; [reflexivity |]. cbn [content].
  unfold reportTemplate. cbv zeta. fold closing.
  unfold trim.
  change (trimStart (nl ++ ?x)) with (trimStart x).
  rewrite trimStart_fixes by reflexivity.
  repeat (rewrite trimEnd_app by tail_visible).
  rewrite closing_trimmed.
  split; [now rewrite <- !app_assoc |].
  split; [apply startsWith_append |].
  repeat split; find_occurrence.
Qed.

End WithPlatform.

Lemma export_text_is_the_template_witness :
  nth_error (compliance_reports Sample.viewedGeneration) 0 <> None /\
  exists file,
    downloads (worldAfter Sample.exported) = [file] /\
    occursIn ([SyntheticGenerator.epsilonChar] ++ str "=1") (content file).
Proof.
  split; [discriminate |].
  destruct (@export_text_is_the_template Sample.host Sample.viewedGeneration _
              Sample.calm Sample.viewerState (initial Db.empty) eq_refl)
    as (file & Hd & _ & _ & (pre & post & Hpg) & _).
  exists file. split; [exact Hd |].
  exists (pre ++ [SyntheticGenerator.epsilonChar] ++
          str "-differential privacy with "), post.
  rewrite Hpg. rewrite <- !app_assoc. reflexivity.
Defined.

End ViewerMore.

(** ** The metrics viewer: loading and badges *)

Module ViewerLoadFacts.
Import JS Db Run JSFacts PrivacyMetricsView ViewerLoad GeneratorSpec.

(** X18: what the viewer shows after its load, starting from a state
    that is loading with no generations, as the mounted component is.
    Without a user, and when the query rejects, it keeps showing
    "Loading metrics..."; when the query resolves without data, by an
    error or with an empty list, it shows "No Data Generated Yet", so a
    failed query looks like an empty history; otherwise it shows the
    history with its first entry selected. *)
Theorem viewer_load_outcomes (env : Env) (st : State) (w : World) :
  loading st = true -> generations st = [] ->
  let after user query := loadGenerations user query env st w in
  (forall query, screen (stateAfter (after None query)) = LoadingMetrics) /\
  (forall u e,
     resultOf (after (Some u) (Rejected e)) = Threw e /\
     screen (stateAfter (after (Some u) (Rejected e))) = LoadingMetrics) /\
  (forall u,
     screen (stateAfter (after (Some u) (Fulfilled None))) = NoDataGeneratedYet /\
     screen (stateAfter (after (Some u) (Fulfilled (Some []))))
       = NoDataGeneratedYet) /\
  (forall u first rest,
     screen (stateAfter (after (Some u) (Fulfilled (Some (first :: rest)))))
       = MetricsShown (first :: rest) (Some first)).
Proof.
  intros Hl Hg. cbv zeta. destruct st as [gs sel ld].
  cbn [loading generations] in Hl, Hg. subst ld gs.
  repeat split.
Qed.

(** X19: for metrics built by the generation trigger from draws in
    [0, 1), the two badges are hidden only at the very ends of the
    intervals: "High Privacy" is missing exactly when the privacy risk
    score is the binary64 value of 0.15, and "High Fidelity" exactly
    when the fidelity score is the binary64 value of 0.85. *)
Theorem badges_hide_only_at_the_ends (gen : Generation) (params : Params.t)
    (gid : jsstring) (p1 p2 u1 u2 u3 u4 u5 : Q)
    (more_p : list PrivacyMetrics.t) (more_u : list UtilityMetrics.t) :
  validDraw p1 -> validDraw u1 ->
  privacy_metrics gen
    = SyntheticGenerator.privacyMetrics params gid p1 p2 :: more_p ->
  utility_metrics gen
    = SyntheticGenerator.utilityMetrics gid u1 u2 u3 u4 u5 :: more_u ->
  (highPrivacy gen = false <->
   (PrivacyMetrics.privacy_risk_score
      (SyntheticGenerator.privacyMetrics params gid p1 p2)
    == B64.lit (15 # 100))%Q) /\
  (highFidelity gen = false <->
   (UtilityMetrics.fidelity_score
      (SyntheticGenerator.utilityMetrics gid u1 u2 u3 u4 u5)
    == B64.lit (85 # 100))%Q).
Proof.
  intros Hp Hu Epm Eum. unfold highPrivacy, highFidelity.
  rewrite Epm, Eum. cbn [nth_error].
  cbn [SyntheticGenerator.privacyMetrics PrivacyMetrics.privacy_risk_score
       SyntheticGenerator.utilityMetrics UtilityMetrics.fidelity_score].
  assert (Hpb : (SyntheticGenerator.scaled (B64.lit (5 # 100)) (B64.lit (10 # 100)) p1
                 <= B64.lit (15 # 100))%Q).
  { apply (@GeneratorFacts.scaled_bounds (B64.lit (5 # 100)) (B64.lit (10 # 100))
             (B64.lit (15 # 100)) p1);
      [ assumption | vm_compute; discriminate | vm_compute; discriminate
      | vm_compute; reflexivity | vm_compute; discriminate ]. }
  assert (Hub : (B64.lit (85 # 100)
                 <= SyntheticGenerator.scaled (B64.lit (85 # 100))
                      (B64.lit (10 # 100)) u1)%Q).
  { apply (@GeneratorFacts.scaled_bounds (B64.lit (85 # 100)) (B64.lit (10 # 100))
             (B64.lit (95 # 100)) u1);
      [ assumption | vm_compute; discriminate | vm_compute; discriminate
      | vm_compute; reflexivity | vm_compute; discriminate ]. }
  rewrite !negb_false_iff, !Qle_bool_iff. split; split; intros H.
  - apply Qle_antisym; assumption.
  - rewrite H. apply Qle_refl.
  - apply Qle_antisym; assumption.
  - rewrite H. apply Qle_refl.
Qed.

Lemma viewer_load_outcomes_witness :
  loading mounted = true /\ generations mounted = [] /\
  screen (stateAfter
            (loadGenerations (Some Sample.alice) (Fulfilled None) Sample.calm
               mounted (initial Db.empty)))
  = NoDataGeneratedYet /\
  screen (stateAfter
            (loadGenerations (Some Sample.alice)
               (Fulfilled (Some [Sample.viewedGeneration])) Sample.calm
               mounted (initial Db.empty)))
  = MetricsShown [Sample.viewedGeneration] (Some Sample.viewedGeneration).
Proof.
  split; [reflexivity |]. split; [reflexivity |].
  destruct (@viewer_load_outcomes Sample.calm mounted (initial Db.empty)
              eq_refl eq_refl) as (_ & _ & Hnone & Hsome).
  split; [exact (proj1 (Hnone Sample.alice)) |].
  exact (Hsome Sample.alice Sample.viewedGeneration []).
Defined.

Lemma end_draws_valid : validDraw B64.pred_one /\ validDraw 0%Q.
Proof.
  split; (split; [| split]); try (vm_compute; reflexivity);
    vm_compute; discriminate.
Qed.

Lemma badges_hide_only_at_the_ends_witness :
  validDraw B64.pred_one /\ validDraw 0%Q /\
  highPrivacy Scenario.atTheEnds = false /\
  highFidelity Scenario.atTheEnds = false.
Proof.
  destruct end_draws_valid as [Hp Hu].
  split; [exact Hp |]. split; [exact Hu |].
  destruct (@badges_hide_only_at_the_ends Scenario.atTheEnds
              (SyntheticGenerator.params Sample.generatorState)
              (id Sample.viewedGeneration)
              B64.pred_one B64.pred_one 0%Q 0%Q 0%Q 0%Q 0%Q [] []
              Hp Hu eq_refl eq_refl) as (Hpriv & Hfid).
  split.
  - apply Hpriv. vm_compute. reflexivity.
  - apply Hfid. vm_compute. reflexivity.
Defined.

End ViewerLoadFacts.

(** ** The dashboard shell: refreshing the counts, and the flow between
    the views *)

Module FlowFacts.
Import JS Db Run JSFacts RunFacts Dashboard DashboardSpec DashboardShell FlowSpec.
Import DashboardFacts TextFacts.

Lemma settle_select (t : Table) (fs : list Filter) (o : Outcome) (s : Store) :
  settle (SelectCount t fs) o s = s.
Proof. destruct o; reflexivity. Qed.

(** One run of [loadStats] for a signed-in user, by the outcomes of its
    three queries. *)
Lemma loadStats_run (u : Auth.User) (env : Env) (st : State) (w : World) :
  let k := List.length (requests w) in
  let o1 := net env k in
  let o2 := net env (1 + k) in
  let o3 := net env (2 + k) in
  let self := {| column := str "user_id"; value := Auth.id u |} in
  loadStats (Some u) env st w =
  (match firstRejection o1 o2 o3 with
   | Some e => Threw e
   | None => Ok tt
   end,
   match firstRejection o1 o2 o3 with
   | Some _ => st
   | None =>
       {| currentView := currentView st;
          selectedProject := selectedProject st;
          selectedDataset := selectedDataset st;
          stats :=
            {| totalProjects :=
                 shown o1 (Z.of_nat (List.length (ownProjects (store w) u)));
               totalDatasets :=
                 shown o2 (Z.of_nat (List.length (datasets (store w))));
               totalGenerations :=
                 shown o3 (Z.of_nat (List.length (ownGenerations (store w) u)));
               recentActivity :=
                 shown o3 (Z.of_nat (List.length (ownGenerations (store w) u)))
            |} |}
   end,
   {| store := store w;
      requests :=
        requests w ++
        [SelectCount Projects [self]; SelectCount Datasets [];
         SelectCount SyntheticGenerations [self]];
      timers := timers w;
      downloads := downloads w;
      clock_reads := clock_reads w;
      rng_draws := rng_draws w |}).
Proof.
  cbv zeta. unfold loadStats, bind.
  match goal with
  | |- context [awaitAll3 (send ?r1) (send ?r2) (send ?r3) ?e ?s ?w0] =>
      pose proof (awaitAll3_send r1 r2 r3 e s w0) as Hall
  end.
  cbv zeta in Hall. rewrite Hall. clear Hall.
  rewrite !settle_select.
  rewrite <- count_own_projects, <- count_own_generations, <- count_all_datasets.
  destruct (net env (List.length (requests w))),
           (net env (1 + List.length (requests w))),
           (net env (2 + List.length (requests w)));
    reflexivity.
Qed.

(** What a refresh leaves alone. *)
Lemma loadStats_leaves_alone (user : option Auth.User) (env : Env) (st : State)
    (w : World) :
  store (snd (loadStats user env st w)) = store w /\
  currentView (snd (fst (loadStats user env st w))) = currentView st /\
  selectedProject (snd (fst (loadStats user env st w))) = selectedProject st /\
  selectedDataset (snd (fst (loadStats user env st w))) = selectedDataset st.
Proof.
  destruct user as [u |]; [| repeat split].
  rewrite loadStats_run. cbn [fst snd store].
  destruct (firstRejection _ _ _); repeat split.
Qed.

(** X20: a count query that is answered with an error shows as 0: when
    none of the three queries rejects, each statistic is the count of
    its query if that was served and 0 if it was refused, so a refused
    query and an empty table look the same. *)
Theorem refused_count_shows_zero (u : Auth.User) (env : Env) (st : State)
    (w : World) :
  let k := List.length (requests w) in
  firstRejection (net env k) (net env (1 + k)) (net env (2 + k)) = None ->
  let r := loadStats (Some u) env st w in
  resultOf r = Ok tt /\
  totalProjects (stats (stateAfter r))
    = shown (net env k) (Z.of_nat (List.length (ownProjects (store w) u))) /\
  totalDatasets (stats (stateAfter r))
    = shown (net env (1 + k)) (Z.of_nat (List.length (datasets (store w)))) /\
  totalGenerations (stats (stateAfter r))
    = shown (net env (2 + k))
        (Z.of_nat (List.length (ownGenerations (store w) u))) /\
  (forall e, net env k = ErrorResponse e ->
     totalProjects (stats (stateAfter r)) = 0%Z).
Proof.
  intros k Hrej r. subst k r. rewrite loadStats_run.
  cbn [resultOf stateAfter fst snd]. rewrite Hrej.
  cbn [stats totalProjects totalDatasets totalGenerations].
  repeat split. intros e ->. reflexivity.
Qed.

(** X21: refreshing the counts only reads: the store, the timers, the
    downloads, the current view and the two selections are as before
    for every user and every outcome; without a user no request is
    sent, with one exactly three are; and the recent-activity figure
    equals the generation count after every run that started with the
    two equal. *)
Theorem refresh_only_reads (user : option Auth.User) (env : Env) (st : State)
    (w : World) :
  let r := loadStats user env st w in
  store (worldAfter r) = store w /\
  timers (worldAfter r) = timers w /\
  downloads (worldAfter r) = downloads w /\
  currentView (stateAfter r) = currentView st /\
  selectedProject (stateAfter r) = selectedProject st /\
  selectedDataset (stateAfter r) = selectedDataset st /\
  List.length (requests (worldAfter r))
    = (List.length (requests w) + match user with Some _ => 3 | None => 0 end)%nat /\
  (recentActivity (stats st) = totalGenerations (stats st) ->
   recentActivity (stats (stateAfter r)) = totalGenerations (stats (stateAfter r))).
Proof.
  cbv zeta. destruct user as [u |].
  - rewrite loadStats_run.
    cbn [worldAfter stateAfter fst snd store timers downloads requests].
    rewrite length_app. cbn [List.length].
    destruct (firstRejection _ _ _);
      cbn [currentView selectedProject selectedDataset stats
           recentActivity totalGenerations];
      repeat split; auto.
  - cbn. rewrite Nat.add_0_r. repeat split; auto.
Qed.

Section WithPlatform.
Context {P : Platform}.

(** The uploader's callback: the selection and the view are set, and
    the counts are refreshed in the background. *)
Lemma onUploadComplete_run (user : option Auth.User) (datasetId : jsstring)
    (env : Env) (st : State) (w : World) :
  let st1 := {| currentView := GenerateView;
                selectedProject := selectedProject st;
                selectedDataset := Some datasetId;
                stats := stats st |} in
  onUploadComplete user datasetId env st w =
  (Ok tt, stateAfter (loadStats user env st1 w),
   worldAfter (loadStats user env st1 w)).
Proof.
  cbv zeta. unfold onUploadComplete, unawaited, bind, setSelectedDataset,
    setCurrentView, modify.
  cbn [currentView selectedProject selectedDataset stats].
  destruct (loadStats user env _ w) as [[res s'] w']. reflexivity.
Qed.

Lemma onGenerationComplete_run (user : option Auth.User)
    (env : Env) (st : State) (w : World) :
  let st1 := {| currentView := MetricsView;
                selectedProject := selectedProject st;
                selectedDataset := selectedDataset st;
                stats := stats st |} in
  onGenerationComplete user env st w =
  (Ok tt, stateAfter (loadStats user env st1 w),
   worldAfter (loadStats user env st1 w)).
Proof.
  cbv zeta. unfold onGenerationComplete, unawaited, bind, setCurrentView, modify.
  cbn [currentView selectedProject selectedDataset stats].
  destruct (loadStats user env _ w) as [[res s'] w']. reflexivity.
Qed.

(** X22: the two callbacks of the views always complete and always
    switch the view, whatever becomes of the refresh they start: the
    uploader's selects the dataset and shows the generation tab, the
    trigger's shows the metrics tab; the project selection and the
    store are untouched, and when a count query rejects the counts stay
    as they were. *)
Theorem redirects_survive_the_refresh (user : option Auth.User)
    (datasetId : jsstring) (env : Env) (st : State) (w : World) :
  let r1 := onUploadComplete user datasetId env st w in
  let r2 := onGenerationComplete user env st w in
  let k := List.length (requests w) in
  (resultOf r1 = Ok tt /\
   currentView (stateAfter r1) = GenerateView /\
   selectedDataset (stateAfter r1) = Some datasetId /\
   selectedProject (stateAfter r1) = selectedProject st /\
   store (worldAfter r1) = store w) /\
  (resultOf r2 = Ok tt /\
   currentView (stateAfter r2) = MetricsView /\
   selectedDataset (stateAfter r2) = selectedDataset st /\
   selectedProject (stateAfter r2) = selectedProject st /\
   store (worldAfter r2) = store w) /\
  (forall u e,
     user = Some u ->
     firstRejection (net env k) (net env (1 + k)) (net env (2 + k)) = Some e ->
     stats (stateAfter r1) = stats st /\ stats (stateAfter r2) = stats st).
Proof.
  cbv zeta. rewrite onUploadComplete_run, onGenerationComplete_run.
  unfold resultOf, stateAfter, worldAfter. cbn [fst snd].
  split; [| split].
  - destruct (loadStats_leaves_alone user env
                {| currentView := GenerateView;
                   selectedProject := selectedProject st;
                   selectedDataset := Some datasetId; stats := stats st |} w)
      as (Hs & Hv & Hp & Hd).
    repeat split; assumption.
  - destruct (loadStats_leaves_alone user env
                {| currentView := MetricsView;
                   selectedProject := selectedProject st;
                   selectedDataset := selectedDataset st; stats := stats st |} w)
      as (Hs & Hv & Hp & Hd).
    repeat split; assumption.
  - intros u e -> Hrej. rewrite !loadStats_run. cbn [snd fst].
    rewrite Hrej. split; reflexivity.
Qed.

(** X23: from a project card to the generation tab.  A click on the
    card of a project shows the uploader with that project; a served
    upload there schedules the redirect; and when the redirect fires,
    whatever tab is open by then, the generation tab is shown with the
    id of the stored row as its dataset, the guard of the trigger
    passes for it, and the row of that id belongs to the project that
    was clicked. *)
Theorem upload_leads_to_generation (u : Auth.User) (env : Env) (dst : State)
    (w : World) (ust : DatasetUpload.State) (f : DatasetUpload.File)
    (header_line pid nid : jsstring) :
  truthy pid = true -> truthy nid = true ->
  DatasetUpload.file ust = Some f ->
  UploadSpec.firstNonBlankLine (DatasetUpload.text f) = Some header_line ->
  net env (List.length (requests w)) = Served nid ->
  let opened := openProject pid env dst w in
  let uploadProps :=
    {| DatasetUpload.projectId := Some pid; DatasetUpload.user := Some u |} in
  let generatorProps :=
    {| SyntheticGenerator.datasetId := Some nid;
       SyntheticGenerator.user := Some u |} in
  let uploaded :=
    worldAfter (DatasetUpload.handleUpload uploadProps env ust (worldAfter opened)) in
  child (Some u) (stateAfter opened) = DatasetUploadChild uploadProps /\
  timers uploaded = timers w ++ [uploadRedirect nid] /\
  forall later : State,
    let r := fire (Some u) (callback (uploadRedirect nid)) env later uploaded in
    resultOf r = Ok tt /\
    child (Some u) (stateAfter r) = SyntheticGeneratorChild generatorProps /\
    GeneratorSpec.ready generatorProps nid u /\
    exists d,
      In {| id := nid; fields := d |} (datasets (store (worldAfter r))) /\
      Dataset.project_id d = pid.
Proof.
  intros Hpid Hnid Hf Hfirst Hnet. cbv zeta.
  split; [reflexivity |].
  destruct (UploadFacts.firstNonBlankLine_rowsOf _ Hfirst) as [rest Hrows].
  change (worldAfter (openProject pid env dst w)) with w.
  rewrite (@UploadMore.handleUpload_run P
             {| DatasetUpload.projectId := Some pid;
                DatasetUpload.user := Some u |}
             env ust w f pid u header_line rest Hf eq_refl Hpid eq_refl Hrows).
  rewrite Hnet. cbn [worldAfter snd timers].
  split; [reflexivity |].
  intros later. cbn [uploadRedirect callback fire].
  rewrite onUploadComplete_run.
  unfold resultOf, stateAfter, worldAfter. cbn [fst snd].
  match goal with
  | |- context [loadStats (Some u) env ?s1 ?w1] =>
      destruct (loadStats_leaves_alone (Some u) env s1 w1) as (Hs & Hv & _ & Hd)
  end.
  split; [reflexivity |]. split.
  { unfold child. rewrite Hv, Hd. reflexivity. }
  split; [repeat split; assumption |].
  rewrite Hs. cbn [store commit datasets].
  eexists. split; [apply in_or_app; right; left; reflexivity |].
  reflexivity.
Qed.

(** X24: from a generation to the metrics tab.  A run whose Generation
    insert is served, at a time from which valid_until can be printed,
    and whose three further inserts do not reject schedules the
    redirect; when it fires the metrics tab is shown,
    and if the refresh it starts is served, the generation count is
    one more than the user's generations before the run, and the
    dataset count is unchanged. *)
Theorem generation_leads_to_metrics (props : SyntheticGenerator.Props)
    (u : Auth.User) (env : Env) (gst : SyntheticGenerator.State) (w : World)
    (did gid : jsstring) :
  GeneratorSpec.ready props did u ->
  GeneratorSpec.inTime env w ->
  let k := List.length (requests w) in
  net env k = Served gid ->
  firstRejection (net env (1 + k)) (net env (2 + k)) (net env (3 + k)) = None ->
  let generated :=
    worldAfter (SyntheticGenerator.handleGenerate props env gst w) in
  timers generated = timers w ++ [GeneratorSpec.redirect] /\
  forall later : State,
    let r := fire (Some u) (callback GeneratorSpec.redirect) env later generated in
    resultOf r = Ok tt /\
    child (Some u) (stateAfter r) = PrivacyMetricsChild /\
    (served env generated ->
     totalGenerations (stats (stateAfter r))
       = (Z.of_nat (List.length (ownGenerations (store w) u)) + 1)%Z /\
     totalDatasets (stats (stateAfter r))
       = Z.of_nat (List.length (datasets (store w)))).
Proof.
  intros Hready Htime k Hg Hrej. subst k. cbv zeta.
  rewrite (@GeneratorFacts.handleGenerate_served P props env gst w did u gid
             Hready Hg Htime).
  cbn [worldAfter snd timers]. rewrite Hrej.
  split; [reflexivity |].
  intros later. cbn [GeneratorSpec.redirect callback fire].
  rewrite onGenerationComplete_run.
  unfold resultOf, stateAfter, worldAfter. cbn [fst snd].
  match goal with
  | |- context [loadStats (Some u) env ?s1 ?w1] =>
      destruct (loadStats_leaves_alone (Some u) env s1 w1) as (_ & Hv & _);
      pose proof (@loadStats_served u env s1 w1) as Hstats
  end.
  split; [reflexivity |]. split.
  { unfold child. rewrite Hv. reflexivity. }
  intros Hserved. unfold stateAfter in Hstats. rewrite (Hstats Hserved).
  cbn [totalGenerations totalDatasets store].
  unfold ownGenerations.
  rewrite !settle_generations, !settle_datasets.
  cbn [commit synthetic_generations datasets]. cbv beta iota.
  rewrite !app_nil_r, filter_app, length_app.
  cbn [filter GeneratorSpec.generationOf SyntheticGenerator.newGeneration
       fields Generation.user_id].
  rewrite eqb_refl. cbn [List.length]. split; [lia | reflexivity].
Qed.

(** X25: a tab opened without its selection shows a notice, and behind
    the notice nothing can be started: with no dataset selected the
    generation tab shows "No Dataset Selected", and neither the trigger
    nor the dataset loader does anything; with no project selected the
    upload tab shows "No Project Selected", and neither an upload nor a
    template does anything. *)
Theorem tabs_without_selection_are_inert (user : option Auth.User) (env : Env)
    (dst : State) (w : World) :
  (selectedDataset dst = None ->
   exists props,
     child user (stateAfter (navigate GenerateView env dst w))
       = SyntheticGeneratorChild props /\
     forall gst env' w' query,
       GeneratorLoad.screen props gst = GeneratorLoad.NoDatasetSelected /\
       SyntheticGenerator.handleGenerate props env' gst w' = (Ok tt, gst, w') /\
       GeneratorLoad.loadDataset props query env' gst w' = (Ok tt, gst, w')) /\
  (selectedProject dst = None ->
   exists props,
     child user (stateAfter (navigate UploadView env dst w))
       = DatasetUploadChild props /\
     forall ust env' w' template,
       TemplateUpload.screen props ust = TemplateUpload.NoProjectSelected /\
       DatasetUpload.handleUpload props env' ust w' = (Ok tt, ust, w') /\
       TemplateUpload.handleTemplateSelect props template env' ust w'
         = (Ok tt, ust, w')).
Proof.
  split; intros Hnone; eexists; (split; [reflexivity |]); intros s env' w' x;
    cbn [stateAfter navigate setCurrentView modify fst snd selectedDataset
         selectedProject];
    rewrite Hnone.
  - repeat split.
  - repeat split.
    unfold DatasetUpload.handleUpload, bind, get.
    cbn [DatasetUpload.projectId]. now destruct (DatasetUpload.file s).
Qed.

End WithPlatform.

(** *** Closed runs *)

Lemma refused_count_shows_zero_witness :
  firstRejection (net Scenario.refusing 0) (net Scenario.refusing 1)
    (net Scenario.refusing 2) = None /\
  List.length (ownProjects Sample.sharedStore Sample.alice) = 1%nat /\
  totalProjects
    (stats (stateAfter (loadStats (Some Sample.alice) Scenario.refusing
                          Sample.dashboardState (initial Sample.sharedStore))))
  = 0%Z.
Proof.
  split; [reflexivity |]. split; [reflexivity |].
  destruct (@refused_count_shows_zero Sample.alice Scenario.refusing
              Sample.dashboardState (initial Sample.sharedStore) eq_refl)
    as (_ & _ & _ & _ & Hzero).
  exact (Hzero _ eq_refl).
Defined.

Lemma refresh_only_reads_witness :
  recentActivity (stats Sample.dashboardState)
    = totalGenerations (stats Sample.dashboardState) /\
  let r := loadStats (Some Sample.alice) Sample.calm Sample.dashboardState
             (initial Sample.sharedStore) in
  store (worldAfter r) = Sample.sharedStore /\
  recentActivity (stats (stateAfter r)) = totalGenerations (stats (stateAfter r)).
Proof.
  split; [reflexivity |].
  destruct (@refresh_only_reads (Some Sample.alice) Sample.calm
              Sample.dashboardState (initial Sample.sharedStore))
    as (Hstore & _ & _ & _ & _ & _ & _ & Hrecent).
  cbv zeta. split; [exact Hstore | exact (Hrecent eq_refl)].
Defined.

Lemma redirects_survive_the_refresh_witness :
  firstRejection (net Scenario.unreachable 0) (net Scenario.unreachable 1)
    (net Scenario.unreachable 2) = Some {| message := str "Failed to fetch" |} /\
  let r := onUploadComplete (Some Sample.alice) (str "row-0")
             Scenario.unreachable Scenario.onSettings (initial Db.empty) in
  resultOf r = Ok tt /\
  currentView (stateAfter r) = GenerateView /\
  stats (stateAfter r) = stats Scenario.onSettings.
Proof.
  split; [reflexivity |].
  destruct (@redirects_survive_the_refresh (Some Sample.alice) (str "row-0")
              Scenario.unreachable Scenario.onSettings (initial Db.empty))
    as ((Hres & Hview & _) & _ & Hstats).
  destruct (Hstats Sample.alice {| message := str "Failed to fetch" |}
              eq_refl eq_refl) as (Hs & _).
  cbv zeta. split; [exact Hres |]. split; [exact Hview | exact Hs].
Defined.

Lemma tabs_without_selection_are_inert_witness :
  selectedDataset Sample.dashboardState = None /\
  exists props,
    child (Some Sample.alice)
      (stateAfter (navigate GenerateView Sample.calm Sample.dashboardState
                     (initial Db.empty)))
      = SyntheticGeneratorChild props /\
    GeneratorLoad.screen props Sample.generatorState
      = GeneratorLoad.NoDatasetSelected.
Proof.
  split; [reflexivity |].
  destruct (@tabs_without_selection_are_inert Sample.host (Some Sample.alice)
              Sample.calm Sample.dashboardState (initial Db.empty))
    as (Hgen & _).
  destruct (Hgen eq_refl) as (props & Hchild & Hinert).
  exists props. split; [exact Hchild |].
  destruct (Hinert Sample.generatorState Sample.calm (initial Db.empty)
              (Fulfilled None)) as (Hscreen & _).
  exact Hscreen.
Defined.

Lemma upload_leads_to_generation_witness :
  UploadSpec.firstNonBlankLine (DatasetUpload.text Sample.csvFile)
    = Some (str "a,b,id") /\
  net Sample.calm 0 = Served (str "row-0") /\
  child (Some Sample.alice)
    (stateAfter
       (fire (P := Sample.host) (Some Sample.alice)
          (OnUploadComplete (Some (str "row-0"))) Sample.calm Scenario.onSettings
          (worldAfter Sample.uploaded)))
  = SyntheticGeneratorChild
      {| SyntheticGenerator.datasetId := Some (str "row-0");
         SyntheticGenerator.user := Some Sample.alice |}.
Proof.
  split; [reflexivity |]. split; [reflexivity |].
  destruct (@upload_leads_to_generation Sample.host Sample.alice Sample.calm
              Sample.dashboardState (initial Db.empty)
              (Sample.uploadState (Some Sample.csvFile)) Sample.csvFile
              (str "a,b,id") (str "project-1") (str "row-0")
              eq_refl eq_refl eq_refl eq_refl eq_refl)
    as (_ & _ & Hfire).
  destruct (Hfire Scenario.onSettings) as (_ & Hchild & _).
  exact Hchild.
Defined.

Lemma generation_leads_to_metrics_witness :
  GeneratorSpec.ready Sample.generatorProps (str "dataset-1") Sample.alice /\
  GeneratorSpec.inTime Sample.calm (initial Db.empty) /\
  served Sample.calm (worldAfter Sample.generated) /\
  totalGenerations
    (stats (stateAfter
       (fire (P := Sample.host) (Some Sample.alice) OnGenerationComplete
          Sample.calm Sample.dashboardState (worldAfter Sample.generated))))
  = 1%Z.
Proof.
  split; [exact GeneratorFacts.generator_ready_sample |].
  split; [reflexivity |]. split; [apply served_calm |].
  destruct (@generation_leads_to_metrics Sample.host Sample.generatorProps
              Sample.alice Sample.calm Sample.generatorState (initial Db.empty)
              (str "dataset-1") (str "row-0")
              GeneratorFacts.generator_ready_sample eq_refl eq_refl eq_refl)
    as (_ & Hfire).
  destruct (Hfire Sample.dashboardState) as (_ & _ & Hcount).
  destruct (Hcount (served_calm _)) as (Hgen & _).
  exact Hgen.
Defined.

End FlowFacts.

(** ** The generation trigger: loading the dataset *)

Module LoaderFacts.
Import JS Db Run JSFacts RunFacts SyntheticGenerator GeneratorSpec GeneratorLoad.

Ltac run_monad :=
  lazy beta iota zeta delta
    [bind get ret throw modify await setDataset setLoading setParams
     worldAfter stateAfter resultOf fst snd
     dataset loading generating success error params].

(** X26: when the dataset is found, the row count proposed for the
    generation is the larger of the dataset's row count and 1000: never
    below 1000 and never below the source; the model, epsilon and k of
    the form are kept, the dataset is remembered and the loading flag
    is cleared. *)
Theorem loaded_dataset_proposes_row_count (props : Props) (env : Env)
    (st : State) (w : World) (did : jsstring) (row : Row Dataset.t) :
  datasetId props = Some did -> truthy did = true ->
  let r := loadDataset props (Fulfilled (Some row)) env st w in
  resultOf r = Ok tt /\
  dataset (stateAfter r) = Some row /\
  loading (stateAfter r) = false /\
  (exists n,
     Params.row_count (params (stateAfter r)) = Finite (inject_Z n) /\
     n = Z.max (Dataset.row_count (fields row)) 1000 /\
     (1000 <= n)%Z /\ (Dataset.row_count (fields row) <= n)%Z) /\
  Params.model_type (params (stateAfter r)) = Params.model_type (params st) /\
  Params.epsilon (params (stateAfter r)) = Params.epsilon (params st) /\
  Params.k_anonymity (params (stateAfter r)) = Params.k_anonymity (params st) /\
  worldAfter r = w.
Proof.
  intros Hd Ht. cbv zeta. unfold loadDataset. rewrite Hd, Ht.
  destruct st as [ds ld gn sc er pr]. run_monad.
  cbn [Params.row_count Params.model_type Params.epsilon Params.k_anonymity].
  repeat split. eexists. split; [reflexivity |]. split; [reflexivity |]. lia.
Qed.

(** X27: the loader has no handler for a failed query.  When the query
    rejects, the rejection leaves [loadDataset] and the loading flag is
    never cleared, so the view stays on "Loading dataset..."; when the
    query resolves without a row, the form is shown with the dataset
    and the parameters it had. *)
Theorem failed_load_is_not_handled (props : Props) (env : Env) (st : State)
    (w : World) (did : jsstring) (e : JsError) :
  datasetId props = Some did -> truthy did = true ->
  let rejected := loadDataset props (Rejected e) env st w in
  let missing := loadDataset props (Fulfilled None) env st w in
  (resultOf rejected = Threw e /\
   loading (stateAfter rejected) = true /\
   screen props (stateAfter rejected) = LoadingDataset /\
   error (stateAfter rejected) = error st) /\
  (resultOf missing = Ok tt /\
   loading (stateAfter missing) = false /\
   dataset (stateAfter missing) = dataset st /\
   params (stateAfter missing) = params st /\
   error (stateAfter missing) = error st).
Proof.
  intros Hd Ht. cbv zeta. unfold loadDataset, screen. rewrite Hd, Ht.
  destruct st as [ds ld gn sc er pr]. run_monad. repeat split.
Qed.

Section WithPlatform.
Context {P : Platform}.

(** X28: a generation submitted after the dataset was loaded, with the
    form left as it is, asks for the larger of the dataset's row count
    and 1000 rows: that is the row_count of the Generation row. *)
Theorem proposed_row_count_is_submitted (props : Props) (env : Env)
    (st : State) (w : World) (did : jsstring) (u : Auth.User)
    (row : Row Dataset.t) (gid : jsstring) :
  ready props did u ->
  net env (List.length (requests w)) = Served gid ->
  let loaded := stateAfter (loadDataset props (Fulfilled (Some row)) env st w) in
  let s' := store (worldAfter (handleGenerate props env loaded w)) in
  exists g,
    synthetic_generations s'
      = synthetic_generations (store w) ++ [{| id := gid; fields := g |}] /\
    Generation.row_count g
      = Finite (inject_Z (Z.max (Dataset.row_count (fields row)) 1000)) /\
    Params.row_count (Generation.parameters g) = Generation.row_count g.
Proof.
  intros Hready Hnet. cbv zeta.
  rewrite (@GeneratorMore.handleGenerate_generation_row P props env _ w did u
             gid Hready Hnet).
  eexists. split; [reflexivity |].
  destruct Hready as (Hd & Ht & _).
  unfold generationOf, newGeneration, loadDataset. rewrite Hd, Ht.
  cbn [Generation.row_count Generation.parameters].
  destruct st as [ds ld gn sc er pr]. run_monad.
  split; reflexivity.
Qed.

End WithPlatform.

Lemma loaded_dataset_proposes_row_count_witness :
  datasetId Sample.generatorProps = Some (str "dataset-1") /\
  Dataset.row_count (fields Scenario.smallDataset) = 2%Z /\
  Params.row_count
    (params (stateAfter
       (loadDataset Sample.generatorProps (Fulfilled (Some Scenario.smallDataset))
          Sample.calm Sample.generatorState (initial Db.empty))))
  = Finite (inject_Z 1000).
Proof.
  split; [reflexivity |]. split; [reflexivity |].
  destruct (@loaded_dataset_proposes_row_count Sample.generatorProps
              Sample.calm Sample.generatorState (initial Db.empty)
              (str "dataset-1") Scenario.smallDataset eq_refl eq_refl)
    as (_ & _ & _ & (n & Hn & Hmax & _) & _).
  rewrite Hn, Hmax. reflexivity.
Defined.

Lemma failed_load_is_not_handled_witness :
  datasetId Sample.generatorProps = Some (str "dataset-1") /\
  screen Sample.generatorProps
    (stateAfter
       (loadDataset Sample.generatorProps
          (Rejected {| message := str "Failed to fetch" |})
          Sample.calm Sample.generatorState (initial Db.empty)))
  = LoadingDataset.
Proof.
  split; [reflexivity |].
  destruct (@failed_load_is_not_handled Sample.generatorProps Sample.calm
              Sample.generatorState (initial Db.empty) (str "dataset-1")
              {| message := str "Failed to fetch" |} eq_refl eq_refl)
    as ((_ & _ & Hscreen & _) & _).
  exact Hscreen.
Defined.

Lemma proposed_row_count_is_submitted_witness :
  ready Sample.generatorProps (str "dataset-1") Sample.alice /\
  exists g,
    synthetic_generations
      (store (worldAfter
         (handleGenerate (P := Sample.host) Sample.generatorProps Sample.calm
            (stateAfter
               (loadDataset Sample.generatorProps
                  (Fulfilled (Some Scenario.smallDataset))
                  Sample.calm Sample.generatorState (initial Db.empty)))
            (initial Db.empty))))
      = [{| id := str "row-0"; fields := g |}] /\
    Generation.row_count g = Finite (inject_Z 1000).
Proof.
  split; [exact GeneratorFacts.generator_ready_sample |].
  destruct (@proposed_row_count_is_submitted Sample.host Sample.generatorProps
              Sample.calm Sample.generatorState (initial Db.empty)
              (str "dataset-1") Sample.alice Scenario.smallDataset (str "row-0")
              GeneratorFacts.generator_ready_sample eq_refl)
    as (g & Hrows & Hcount & _).
  exists g. split; [exact Hrows | exact Hcount].
Defined.

End LoaderFacts.

(** ** The submit handlers as a whole *)

Module HandlerFacts.
Import JS Db Run JSFacts RunFacts SyntheticGenerator GeneratorSpec.

Section WithPlatform.
Context {P : Platform}.

(** X29: the three submit handlers catch everything: [handleUpload],
    [handleTemplateSelect] and [handleGenerate] return normally on
    every input, and once past their guard they end with the busy flag
    cleared, so the button is never left disabled. *)
Theorem submit_handlers_never_throw (uprops : DatasetUpload.Props)
    (template : Template.t) (gprops : Props) (env : Env)
    (ust : DatasetUpload.State) (gst : State) (w : World) :
  let up := DatasetUpload.handleUpload uprops env ust w in
  let tp := TemplateUpload.handleTemplateSelect uprops template env ust w in
  let gn := handleGenerate gprops env gst w in
  (resultOf up = Ok tt /\
   (UploadSpec.ready uprops ust -> DatasetUpload.uploading (stateAfter up) = false)) /\
  (resultOf tp = Ok tt /\
   (forall pid, FlowSpec.templateReady uprops pid ->
      DatasetUpload.uploading (stateAfter tp) = false)) /\
  (resultOf gn = Ok tt /\
   (forall did u, ready gprops did u -> generating (stateAfter gn) = false)).
Proof.
  cbv zeta. split; [| split].
  - destruct (UploadMore.handleUpload_cases uprops env ust w)
      as [[Hstop Hnot] | [(f & pid & u & Hf & Hp & Ht & Hu & Hr)
                         | (f & pid & u & row0 & rest & Hf & Hp & Ht & Hu & Hr)]].
    + rewrite Hstop. split; [reflexivity | intros H; now destruct Hnot].
    + rewrite (@UploadFacts.handleUpload_no_rows P uprops env ust w f pid u
                 Hf Hp Ht Hu Hr).
      split; reflexivity.
    + rewrite (@UploadMore.handleUpload_run P uprops env ust w f pid u
                 row0 rest Hf Hp Ht Hu Hr).
      destruct (net env (List.length (requests w))); split; reflexivity.
  - assert (Hcases :
      TemplateUpload.handleTemplateSelect uprops template env ust w
        = (Ok tt, ust, w) /\ (forall pid, ~ FlowSpec.templateReady uprops pid)
      \/ exists pid, FlowSpec.templateReady uprops pid).
    { unfold TemplateUpload.handleTemplateSelect, FlowSpec.templateReady.
      destruct (DatasetUpload.projectId uprops) as [pid |];
        [| left; split; [reflexivity | intros pid (H & _); discriminate]].
      destruct (DatasetUpload.user uprops) as [u |];
        [| left; split; [reflexivity | intros ? (_ & _ & ? & H); discriminate]].
      destruct (truthy pid) eqn:Ht;
        [| left; split; [reflexivity
                        | intros ? (H & H' & _); inversion H; subst; congruence]].
      right. exists pid. split; [reflexivity |]. split; [exact Ht |]. now exists u. }
    destruct Hcases as [[Hstop Hnot] | [pid Hready]].
    + rewrite Hstop. split; [reflexivity |].
      intros pid Hready. now destruct (Hnot pid).
    + rewrite (UploadMore.handleTemplateSelect_run template env ust w Hready).
      destruct (net env (List.length (requests w))); split;
        try reflexivity; intros; reflexivity.
  - assert (Hcases :
      handleGenerate gprops env gst w = (Ok tt, gst, w) /\
        (forall did u, ~ ready gprops did u)
      \/ exists did u, ready gprops did u).
    { unfold handleGenerate, ready. cbv beta iota delta [bind get].
      destruct (datasetId gprops) as [did |];
        [| left; split; [reflexivity | intros ? ? (H & _); discriminate]].
      destruct (user gprops) as [u |];
        [| left; split; [reflexivity | intros ? ? (_ & _ & H); discriminate]].
      destruct (truthy did) eqn:Ht;
        [| left; split; [reflexivity
                        | intros ? ? (H & H' & _); inversion H; subst; congruence]].
      right. exists did, u. auto. }
    destruct Hcases as [[Hstop Hnot] | (did & u & Hready)].
    + rewrite Hstop. split; [reflexivity |].
      intros did u Hready. now destruct (Hnot did u).
    + destruct (net env (List.length (requests w))) as [gid | e | e] eqn:Hnet.
      * destruct (isTimeValue (validUntilOf env w)) eqn:Htime.
        -- rewrite (@GeneratorFacts.handleGenerate_served P gprops env gst w
                      did u gid Hready Hnet Htime).
           split; reflexivity.
        -- rewrite (@GeneratorFacts.handleGenerate_expired P gprops env gst w
                      did u gid Hready Hnet Htime).
           split; reflexivity.
      * rewrite (@GeneratorFacts.handleGenerate_refused P gprops env gst w
                   did u e Hready (or_introl Hnet)).
        split; reflexivity.
      * rewrite (@GeneratorFacts.handleGenerate_refused P gprops env gst w
                   did u e Hready (or_intror Hnet)).
        split; reflexivity.
Qed.

End WithPlatform.

Lemma submit_handlers_never_throw_witness :
  ready Sample.generatorProps (str "dataset-1") Sample.alice /\
  resultOf Sample.generatedOffline = Ok tt /\
  generating (stateAfter Sample.generatedOffline) = false.
Proof.
  split; [exact GeneratorFacts.generator_ready_sample |].
  destruct (@submit_handlers_never_throw Sample.host Sample.uploadProps
              Scenario.loansTemplate Sample.generatorProps Sample.offline
              (Sample.uploadState None) Sample.generatorState (initial Db.empty))
    as (_ & _ & Hres & Hbusy).
  split; [exact Hres |].
  exact (Hbusy _ _ GeneratorFacts.generator_ready_sample).
Defined.

End HandlerFacts.
